(** * yaost.project: the build pipeline of a parametric solid-model project

    A shallow embedding of [src/yaost/project.py] (class [Project]):
    part registration, emission of the [.scad] description files,
    compilation to [.stl] artifacts through the external [openscad]
    process, and the content-hash cache that avoids recompilation.

    Python values are embedded as inductive data, the interpreter state the
    code touches (file system, log, spawned processes, the class attribute
    [_single_run_guard]) as a record [World], and every method as a
    function in a state-and-exception monad over [World].  What the module
    imports ([hashlib], [json], [subprocess], [uuid], [argparse]) is
    gathered in a record [Env]; [json.dump], [os.path.join] and the
    [{:.4f}] format are written out.  [_get_caller_module_name], which no
    method calls, is left out. *)

From Stdlib Require Import ZArith String Ascii List Lia DecimalString.
From Stdlib Require Import Floats.SpecFloat.
From stdpp Require Import gmap strings list.

Local Open Scope string_scope.
Local Open Scope Z_scope.

#[local] Arguments String.append !s1 s2 : simpl nomatch.

(** ** Byte strings

    A Rocq [string] is a sequence of 8-bit characters; it stands both for
    Python [str] values (paths, part names, log messages) and for the
    [bytes] held by files. *)

Fixpoint take_str (n : nat) (s : string) : string :=
  match n, s with
  | S n', String c s' => String c (take_str n' s')
  | _, _ => EmptyString
  end.

Fixpoint drop_str (n : nat) (s : string) : string :=
  match n, s with
  | S n', String _ s' => drop_str n' s'
  | _, _ => s
  end.

Fixpoint starts_with (p s : string) : bool :=
  match p, s with
  | EmptyString, _ => true
  | String a p', String b s' => if Ascii.eqb a b then starts_with p' s' else false
  | String _ _, EmptyString => false
  end.

Fixpoint ends_with_char (c : ascii) (s : string) : bool :=
  match s with
  | EmptyString => false
  | String a EmptyString => Ascii.eqb a c
  | String _ s' => ends_with_char c s'
  end.

Fixpoint ends_with (suffix s : string) : bool :=
  String.eqb s suffix ||
  match s with
  | EmptyString => false
  | String _ s' => ends_with suffix s'
  end.

Fixpoint last_char (s : string) : option ascii :=
  match s with
  | EmptyString => None
  | String c EmptyString => Some c
  | String _ s' => last_char s'
  end.

(** [needle in haystack] for two [str] operands: substring search. *)
Fixpoint str_contains (needle haystack : string) : bool :=
  starts_with needle haystack ||
  match haystack with
  | EmptyString => false
  | String _ h' => str_contains needle h'
  end.

Definition is_digit (c : ascii) : bool :=
  let n := N_of_ascii c in ((48 <=? n) && (n <=? 57))%N.

Fixpoint all_digits (s : string) : bool :=
  match s with
  | EmptyString => true
  | String c s' => is_digit c && all_digits s'
  end.

(** Decimal numeral of a non-negative integer, and one decimal digit. *)
Definition dec (n : Z) : string := NilZero.string_of_uint (N.to_uint (Z.to_N n)).

Definition digit (n : Z) : ascii := ascii_of_N (48 + Z.to_N (n mod 10)).

(** [repr] of a Python [int]. *)
Definition int_repr (z : Z) : string :=
  if z <? 0 then "-" ++ dec (- z) else dec z.

(** ** Exceptions and outcomes *)

Inductive exn : Type :=
  | FileNotFoundError
  | PermissionError
  | IsADirectoryError
  | FileExistsError
  | OSError
  | TypeError
  | AttributeError
  | KeyError
  | OverflowError
  | JSONDecodeError
  | UserError (msg : string)
  | KeyboardInterrupt
  | SystemExit.

(** Everything but [KeyboardInterrupt] and [SystemExit] derives from
    [Exception]; the file-system errors derive from [OSError]. *)
Definition is_Exception (e : exn) : bool :=
  match e with
  | KeyboardInterrupt | SystemExit => false
  | _ => true
  end.

Definition is_OSError (e : exn) : bool :=
  match e with
  | FileNotFoundError | PermissionError | IsADirectoryError
  | FileExistsError | OSError => true
  | _ => false
  end.

Inductive outcome (A : Type) : Type :=
  | Ok (a : A)
  | Raise (e : exn).
Arguments Ok {A} a.
Arguments Raise {A} e.

(** ** Numbers and the [{:.4f}] format

    The resolution parameters are Python numbers: an [int] (the default
    [fn=0]) or a [float], an IEEE-754 double given by its sign, mantissa
    and exponent: [S754_finite s m e] is the number [(-1)^s * m * 2^e],
    normalized or not. *)

Inductive number : Type :=
  | PyInt (z : Z)
  | PyFloat (f : spec_float).

Definition prec : Z := 53.
Definition emax : Z := 1024.

(** [float(z)]: the nearest double, ties to even; [OverflowError] beyond
    the range of doubles. *)
Definition float_of_int (z : Z) : outcome spec_float :=
  match binary_normalize prec emax z 0 false with
  | S754_infinity _ => Raise OverflowError
  | f => Ok f
  end.

(** Nearest integer to [num / den] for [den > 0], ties to even. *)
Definition round_half_even (num den : Z) : Z :=
  let q := num / den in
  let r := num mod den in
  match 2 * r ?= den with
  | Lt => q
  | Gt => q + 1
  | Eq => if Z.even q then q else q + 1
  end.

(** [m * 2^e] counted in ten-thousandths, correctly rounded. *)
Definition ten_thousandths (m : positive) (e : Z) : Z :=
  if 0 <=? e then Z.pos m * 2 ^ e * 10000
  else round_half_even (Z.pos m * 10000) (2 ^ (- e)).

Definition fraction4 (n : Z) : string :=
  String (digit (n / 1000)) (String (digit (n / 100))
    (String (digit (n / 10)) (String (digit n) EmptyString))).

Definition fixed4 (negative : bool) (n : Z) : string :=
  (if negative then "-" else "") ++ dec (n / 10000) ++ "." ++ fraction4 n.

Definition float_format_4f (f : spec_float) : string :=
  match f with
  | S754_zero s => fixed4 s 0
  | S754_infinity s => if s then "-inf" else "inf"
  | S754_nan => "nan"
  | S754_finite s m e => fixed4 s (ten_thousandths m e)
  end.

Definition as_float (x : number) : outcome spec_float :=
  match x with
  | PyFloat f => Ok f
  | PyInt z => float_of_int z
  end.

(** ['{:.4f}'.format(x)]; an [int] is converted to [float] first. *)
Definition format_4f (x : number) : outcome string :=
  match as_float x with
  | Ok f => Ok (float_format_4f f)
  | Raise e => Raise e
  end.

(** ** Python values held by the cache

    What [json.load] can return, plus the [uuid.UUID] objects that
    [_get_files_hash] may hand back.  A [dict] keeps insertion order, so it
    is an association list read and written through [dict_get] and
    [dict_set]. *)

#[local] Set Warnings "-register-all".

Inductive pyval : Type :=
  | VNone
  | VBool (b : bool)
  | VInt (z : Z)
  | VFloat (f : spec_float)
  | VStr (s : string)
  | VList (l : list pyval)
  | VDict (d : list (string * pyval))
  | VUuid (u : N).

Section Dict.
Context {V : Type}.

Fixpoint dict_get (k : string) (d : list (string * V)) : option V :=
  match d with
  | [] => None
  | (k', v) :: d' => if String.eqb k k' then Some v else dict_get k d'
  end.

(** [d[k] = v]: an existing key keeps its position, a new one goes last. *)
Fixpoint dict_set (k : string) (v : V) (d : list (string * V)) : list (string * V) :=
  match d with
  | [] => [(k, v)]
  | (k', v') :: d' =>
      if String.eqb k k' then (k', v) :: d' else (k', v') :: dict_set k v d'
  end.

Definition dict_mem (k : string) (d : list (string * V)) : bool :=
  match dict_get k d with Some _ => true | None => false end.

Definition dict_keys (d : list (string * V)) : list string := map fst d.
End Dict.

(** The result of hashing: a hex digest ([str]) or the fallback
    [uuid.UUID] object. *)
Inductive fingerprint : Type :=
  | Digest (hex : string)
  | Fallback (u : N).

Definition fingerprint_value (hc : fingerprint) : pyval :=
  match hc with
  | Digest h => VStr h
  | Fallback u => VUuid u
  end.

(** [cached == hc] where [hc] is a [str] or a [UUID]: a [str] equals only
    an equal [str], a [UUID] only an equal [UUID]. *)
Definition py_eq_fingerprint (cached : pyval) (hc : fingerprint) : bool :=
  match cached, hc with
  | VStr s, Digest h => String.eqb s h
  | VUuid u, Fallback u' => N.eqb u u'
  | _, _ => false
  end.

(** [key in container] for a [str] key. *)
Definition py_contains (key : string) (container : pyval) : outcome bool :=
  match container with
  | VDict d => Ok (dict_mem key d)
  | VList l => Ok (existsb (fun x => match x with VStr s => String.eqb key s | _ => false end) l)
  | VStr s => Ok (str_contains key s)
  | _ => Raise TypeError
  end.

(** [container[key] = v] and [container[key]] for a [str] key. *)
Definition py_setitem (container : pyval) (key : string) (v : pyval) : outcome pyval :=
  match container with
  | VDict d => Ok (VDict (dict_set key v d))
  | _ => Raise TypeError
  end.

Definition py_getitem (container : pyval) (key : string) : outcome pyval :=
  match container with
  | VDict d => match dict_get key d with Some v => Ok v | None => Raise KeyError end
  | _ => Raise TypeError
  end.

(** [obj.get(key, default)]: only a [dict] has the method. *)
Definition py_get (obj : pyval) (key : string) (default : pyval) : outcome pyval :=
  match obj with
  | VDict d => Ok (match dict_get key d with Some v => v | None => default end)
  | _ => Raise AttributeError
  end.

(** ** [json.dump]

    The encoder yields chunks that are written one by one; an object it
    cannot serialize raises [TypeError] after the chunks before it have
    reached the file.  [emitted] is the text written and, when the
    encoder stopped early, the exception. *)

Definition emitted : Type := string * option exn.

Definition emit (s : string) : emitted := (s, None).

Definition emit_then (a b : emitted) : emitted :=
  match a with
  | (s, None) => (s ++ fst b, snd b)
  | (s, Some e) => (s, Some e)
  end.

Definition dquote : ascii := "034"%char.
Definition backslash : ascii := "092"%char.

Definition hex_digit (n : N) : ascii :=
  if (n <? 10)%N then ascii_of_N (48 + n) else ascii_of_N (87 + n).

(** [py_encode_basestring]: quotes, backslashes and control characters
    are escaped ([ensure_ascii=False] leaves the rest as it is). *)
Definition escape_char (c : ascii) : string :=
  let n := N_of_ascii c in
  if Ascii.eqb c dquote then String backslash (String dquote EmptyString)
  else if Ascii.eqb c backslash then String backslash (String backslash EmptyString)
  else if (n =? 10)%N then String backslash "n"
  else if (n =? 13)%N then String backslash "r"
  else if (n =? 9)%N then String backslash "t"
  else if (n =? 8)%N then String backslash "b"
  else if (n =? 12)%N then String backslash "f"
  else if (n <? 32)%N then
    String backslash ("u00" ++ String (hex_digit (n / 16)) (String (hex_digit (n mod 16)) EmptyString))
  else String c EmptyString.

Fixpoint escape_str (s : string) : string :=
  match s with
  | EmptyString => EmptyString
  | String c s' => escape_char c ++ escape_str s'
  end.

Definition encode_str (s : string) : string :=
  String dquote (escape_str s ++ String dquote EmptyString).

(** The elements of a non-empty list and the members of a non-empty
    [dict], each after its separator; [enc] encodes one value. *)
Definition encode_items (enc : pyval -> emitted) : bool -> list pyval -> emitted :=
  fix items (first : bool) (l : list pyval) : emitted :=
    match l with
    | [] => emit "]"
    | x :: l' =>
        emit_then (emit (if first then "" else ", "))
          (emit_then (enc x) (items false l'))
    end.

Definition encode_members (enc : pyval -> emitted)
  : bool -> list (string * pyval) -> emitted :=
  fix members (first : bool) (d : list (string * pyval)) : emitted :=
    match d with
    | [] => emit "}"
    | (k, x) :: d' =>
        emit_then (emit ((if first then "" else ", ") ++ encode_str k ++ ": "))
          (emit_then (enc x) (members false d'))
    end.

Section Encoder.
(** [float.__repr__] for finite doubles. *)
Variable float_repr : spec_float -> string.

Definition encode_float (f : spec_float) : string :=
  match f with
  | S754_nan => "NaN"
  | S754_infinity false => "Infinity"
  | S754_infinity true => "-Infinity"
  | _ => float_repr f
  end.

Fixpoint iterencode (v : pyval) : emitted :=
  match v with
  | VNone => emit "null"
  | VBool true => emit "true"
  | VBool false => emit "false"
  | VInt z => emit (int_repr z)
  | VFloat f => emit (encode_float f)
  | VStr s => emit (encode_str s)
  | VList [] => emit "[]"
  | VList l => emit_then (emit "[") (encode_items iterencode true l)
  | VDict [] => emit "{}"
  | VDict d => emit_then (emit "{") (encode_members iterencode true d)
  | VUuid _ => ("", Some TypeError)
  end.
End Encoder.

(** ** The world outside the interpreter *)

(** The file system is a flat store of regular files and directories.
    [denied] holds the paths the operating system refuses to open,
    whatever the reason. *)
Record FS : Type := mkFS {
  files : gmap string string;
  dirs : gset string;
  denied : gset string
}.

Inductive level : Type := INFO | ERROR.

Record World : Type := mkWorld {
  fs : FS;
  log : list (level * string);
  spawned : list (list string);      (* argument vectors given to subprocess.call *)
  uuids_drawn : nat;                 (* calls to uuid.uuid4 so far *)
  stdout : list string;
  single_run_guard : bool            (* Project._single_run_guard *)
}.

Definition with_fs (f : FS -> FS) (w : World) : World :=
  mkWorld (f (fs w)) (log w) (spawned w) (uuids_drawn w) (stdout w) (single_run_guard w).

Definition with_files (f : gmap string string -> gmap string string) (w : World) : World :=
  with_fs (fun s => mkFS (f (files s)) (dirs s) (denied s)) w.

(** Command-line options ([argparse.Namespace]) and the sub-command. *)
Record Args : Type := mkArgs {
  scad_directory : string;
  stl_directory : string;
  cache_file : string;
  force : bool;
  debug : bool
}.

Inductive Command : Type := PrintHelp | Watch | BuildScad | BuildStl.

(** The collaborators that are not code of this module. *)
Record Env : Type := mkEnv {
  (** [hashlib.sha256(message).hexdigest()] *)
  sha256_hexdigest : string -> string;
  (** [json.loads]; [None] when the text is rejected *)
  json_loads : string -> option pyval;
  (** [float.__repr__] on a finite double *)
  float_repr : spec_float -> string;
  (** a child process run to completion: the file system it leaves and its
      exit status; [None] when the process cannot be spawned ([OSError]) *)
  subprocess_call : list string -> FS -> option (FS * Z);
  (** the n-th value drawn from [uuid.uuid4] *)
  uuid4_value : nat -> N;
  (** [__main__.__file__] *)
  main_file : string;
  (** [parser.parse_args()] on [sys.argv]; [None] when argparse exits *)
  parse_args : option (Args * Command);
  (** change notifications delivered before the watch is interrupted *)
  watch_events : nat
}.

(** ** The monad: state [World], exceptions [exn] *)

Definition M (A : Type) : Type := World -> outcome A * World.

Definition ret {A} (a : A) : M A := fun w => (Ok a, w).

Definition raise {A} (e : exn) : M A := fun w => (Raise e, w).

Definition bind {A B} (m : M A) (k : A -> M B) : M B :=
  fun w =>
    match m w with
    | (Ok a, w') => k a w'
    | (Raise e, w') => (Raise e, w')
    end.

Declare Scope py_scope.
Delimit Scope py_scope with py.
Notation "x <- m ;; k" := (bind m (fun x => k))
  (at level 100, m at next level, right associativity) : py_scope.
Notation "m ;; k" := (bind m (fun _ => k))
  (at level 100, right associativity) : py_scope.
Local Open Scope py_scope.

Definition lift {A} (r : outcome A) : M A := fun w => (r, w).

(** [try: body  except <filter>: handler]. The effects of [body] up to
    the exception stay. *)
Definition try_except {A} (catches : exn -> bool) (body : M A) (handler : exn -> M A) : M A :=
  fun w =>
    match body w with
    | (Ok a, w') => (Ok a, w')
    | (Raise e, w') => if catches e then handler e w' else (Raise e, w')
    end.

Definition bare_except : exn -> bool := fun _ => true.

(** [for x in xs: body x] *)
Fixpoint for_each {A} (body : A -> M unit) (xs : list A) : M unit :=
  match xs with
  | [] => ret tt
  | x :: xs' => body x ;; for_each body xs'
  end.

(** A loop that carries a local variable through its iterations. *)
Fixpoint for_fold {A S} (body : S -> A -> M S) (xs : list A) (s : S) : M S :=
  match xs with
  | [] => ret s
  | x :: xs' => s' <- body s x ;; for_fold body xs' s'
  end.

(** *** Logging, files, processes *)

Definition logged (lv : level) (msg : string) (w : World) : World :=
  mkWorld (fs w) (log w ++ [(lv, msg)]) (spawned w) (uuids_drawn w) (stdout w)
    (single_run_guard w).

Definition logger (lv : level) (msg : string) : M unit :=
  fun w => (Ok tt, logged lv msg w).

Definition print (line : string) : M unit :=
  fun w => (Ok tt, mkWorld (fs w) (log w) (spawned w)
                     (uuids_drawn w) (stdout w ++ [line]) (single_run_guard w)).

Definition fs_exists (s : FS) (p : string) : bool :=
  bool_decide (p ∈ dom (files s)) || bool_decide (p ∈ dirs s).

(** [os.path.exists] *)
Definition path_exists (p : string) : M bool := fun w => (Ok (fs_exists (fs w) p), w).

(** [posixpath.join] of two components. *)
Definition path_join (a b : string) : string :=
  if starts_with "/" b then b
  else if String.eqb a "" || ends_with_char "/" a then a ++ b
  else a ++ "/" ++ b.

(** [os.makedirs], reached only for a path that does not exist. *)
Definition makedirs (p : string) : M unit :=
  fun w =>
    if String.eqb p "" then (Raise FileNotFoundError, w)
    else if bool_decide (p ∈ denied (fs w)) then (Raise PermissionError, w)
    else if fs_exists (fs w) p then (Raise FileExistsError, w)
    else (Ok tt, with_fs (fun s => mkFS (files s) ({[p]} ∪ dirs s) (denied s)) w).

(** What opening [p] for reading gives: its content or the error. *)
Definition fs_read (s : FS) (p : string) : outcome string :=
  if bool_decide (p ∈ denied s) then Raise PermissionError
  else if bool_decide (p ∈ dirs s) then Raise IsADirectoryError
  else match files s !! p with
       | Some data => Ok data
       | None => Raise FileNotFoundError
       end.

(** [open(p, 'r')] or [open(p, 'rb')]: the bytes still to be read. *)
Definition open_r (p : string) : M string := fun w => (fs_read (fs w) p, w).

(** [open(p, 'w')]: the file is created or truncated. *)
Definition open_w (p : string) : M unit :=
  fun w =>
    if bool_decide (p ∈ denied (fs w)) then (Raise PermissionError, w)
    else if bool_decide (p ∈ dirs (fs w)) then (Raise IsADirectoryError, w)
    else (Ok tt, with_files (insert p "") w).

Definition written (p text : string) (w : World) : World := with_files (insert p text) w.

(** [fp.write(text)] on the file opened at [p]. *)
Definition fp_write (p : string) (text : string) : M unit :=
  fun w => (Ok tt, with_files (fun m => <[p := default "" (m !! p) ++ text]> m) w).

Definition drawn (w : World) : World :=
  mkWorld (fs w) (log w) (spawned w) (S (uuids_drawn w)) (stdout w) (single_run_guard w).

Definition called (command_args : list string) (w : World) : World :=
  mkWorld (fs w) (log w) (spawned w ++ [command_args]) (uuids_drawn w) (stdout w)
    (single_run_guard w).

Section Program.
Variable env : Env.

(** [subprocess.call(command_args, shell=False)] *)
Definition call (command_args : list string) : M Z :=
  fun w =>
    let w1 := called command_args w in
    match subprocess_call env command_args (fs w) with
    | Some (s', status) => (Ok status, with_fs (fun _ => s') w1)
    | None => (Raise OSError, w1)
    end.

(** [uuid.uuid4()] *)
Definition uuid4 : M N :=
  fun w => (Ok (uuid4_value env (uuids_drawn w)), drawn w).
End Program.

(** ** Parts and projects *)

(** A geometry handle is opaque here: an object whose [to_string()]
    method yields its serialization. *)
Record Geometry : Type := mkGeometry { to_string : string }.

(** A callable handed to [add_part]: its [__name__] (absent on callables
    that are not functions) and what calling it does. It returns a model,
    possibly [None], or raises. *)
Record callable : Type := mkCallable {
  fn_name : option string;
  fn_call : M (option Geometry)
}.

Inductive name_or_method : Type :=
  | Name (s : string)
  | Method (f : callable).

(** [self.parts] maps a name to a model; a model is [None] when
    [add_part] was given a name alone. *)
Record Project : Type := mkProject {
  _fa : number;
  _fs : number;
  _fn : number;
  name : string;
  parts : list (string * option Geometry)
}.

(** [Project(name='Untitled', fa=3.0, fs=0.5, fn=0)] *)
Definition Project_init (name : string) (fa fs fn : number) : Project :=
  mkProject fa fs fn name [].

Definition Project_default : Project :=
  Project_init "Untitled" (PyFloat (S754_finite false 3 0))
    (PyFloat (S754_finite false 1 (-1))) (PyInt 0).

Definition set_parts (self : Project) (ps : list (string * option Geometry)) : Project :=
  mkProject (_fa self) (_fs self) (_fn self) (name self) ps.

Definition lower_char (c : ascii) : ascii :=
  let n := N_of_ascii c in
  if ((65 <=? n) && (n <=? 90))%N then ascii_of_N (n + 32) else c.

Fixpoint map_str (f : ascii -> ascii) (s : string) : string :=
  match s with
  | EmptyString => EmptyString
  | String c s' => String (f c) (map_str f s')
  end.

(** [__name__.lower().replace('_', '-')] on an ASCII identifier. *)
Definition part_name (identifier : string) : string :=
  map_str (fun c => let c' := lower_char c in if Ascii.eqb c' "_" then "-"%char else c')
    identifier.

Definition exn_name (e : exn) : string :=
  match e with
  | FileNotFoundError => "FileNotFoundError"
  | PermissionError => "PermissionError"
  | IsADirectoryError => "IsADirectoryError"
  | FileExistsError => "FileExistsError"
  | OSError => "OSError"
  | TypeError => "TypeError"
  | AttributeError => "AttributeError"
  | KeyError => "KeyError"
  | OverflowError => "OverflowError"
  | JSONDecodeError => "JSONDecodeError"
  | UserError msg => msg
  | KeyboardInterrupt => "KeyboardInterrupt"
  | SystemExit => "SystemExit"
  end.

(** *** Hashing *)

(** [b'\0\0\0\1\0\0'] *)
Definition separator : string :=
  String "000" (String "000" (String "000" (String "001" (String "000"
    (String "000" EmptyString))))).

Definition chunk_size : nat := 4096.

(** [iter(lambda: f.read(4096), b"")]: chunks of at most 4096 bytes until
    an empty read. [fuel] bounds the number of reads; a file of [n]
    bytes needs at most [n + 1]. *)
Fixpoint read_chunks (fuel : nat) (rest : string) : list string :=
  match fuel with
  | O => []
  | S fuel' =>
      let chunk := take_str chunk_size rest in
      if String.eqb chunk "" then []
      else chunk :: read_chunks fuel' (drop_str chunk_size rest)
  end.

Definition file_chunks (data : string) : list string :=
  read_chunks (S (String.length data)) data.

(** The state of a hash object is the message fed so far. *)
Definition update (h : string) (data : string) : string := h ++ data.

Definition hash_file (h : string) (filename : string) : M string :=
  let h := update h separator in
  data <- open_r filename ;;
  ret (fold_left update (file_chunks data) h).

(** The value of the loop variable [filename] when an [open] raises. *)
Fixpoint failing_filename (s : FS) (filenames : list string) : string :=
  match filenames with
  | [] => ""
  | f :: rest =>
      match fs_read s f with
      | Ok _ => failing_filename s rest
      | Raise _ => f
      end
  end.

Section Methods.
Variable env : Env.

(** [Project.add_part] *)
Definition add_part (self : Project) (nom : name_or_method) (model : option Geometry)
  : M (Project * option callable) :=
  match nom with
  | Name s => ret (set_parts self (dict_set s model (parts self)), None)
  | Method method =>
      self' <- try_except bare_except
                 (match fn_name method with
                  | None => raise AttributeError
                  | Some identifier =>
                      model <- fn_call method ;;
                      ret (set_parts self (dict_set (part_name identifier) model (parts self)))
                  end)
                 (fun _ => logger ERROR "failed to add model" ;; ret self) ;;
      ret (self', Some method)
  end.

(** [Project.get_part] *)
Definition get_part (self : Project) (name : string) : outcome (option Geometry) :=
  match dict_get name (parts self) with
  | Some model => Ok model
  | None => Raise KeyError
  end.

Definition newline : string := String "010" EmptyString.

(** ['$fa={:.4f};\n$fs={:.4f};\n$fn={:.4f};\n'.format(self._fa, self._fs, self._fn)] *)
Definition config_lines (self : Project) : outcome string :=
  match format_4f (_fa self), format_4f (_fs self), format_4f (_fn self) with
  | Ok a, Ok s, Ok n =>
      Ok ("$fa=" ++ a ++ ";" ++ newline ++ "$fs=" ++ s ++ ";" ++ newline
            ++ "$fn=" ++ n ++ ";" ++ newline)
  | Raise e, _, _ => Raise e
  | _, Raise e, _ => Raise e
  | _, _, Raise e => Raise e
  end.

Definition scad_path (args : Args) (name : string) : string :=
  path_join (scad_directory args) (name ++ ".scad").

Definition stl_path (args : Args) (name : string) : string :=
  path_join (stl_directory args) (name ++ ".stl").

Definition scad_step (self : Project) (args : Args) (part : string * option Geometry)
  : M unit :=
  let '(name, model) := part in
  logger INFO ("building " ++ name ++ ".scad") ;;
  let file_path := scad_path args name in
  open_w file_path ;;
  text <- lift (config_lines self) ;;
  fp_write file_path text ;;
  match model with
  | Some geometry => fp_write file_path (to_string geometry)
  | None => raise AttributeError
  end.

(** [Project.build_scad] *)
Definition build_scad (self : Project) (args : Args) : M unit :=
  present <- path_exists (scad_directory args) ;;
  (if negb present then makedirs (scad_directory args) else ret tt) ;;
  for_each (scad_step self args) (parts self).

(** [Project._get_files_hash] *)
Definition _get_files_hash (filenames : list string) : M fingerprint :=
  try_except is_Exception
    (h <- for_fold hash_file filenames "" ;;
     ret (Digest (sha256_hexdigest env h)))
    (fun e =>
       (fun w => logger ERROR ("hashing gone wrong "
                    ++ failing_filename (fs w) filenames ++ " " ++ exn_name e) w) ;;
       u <- uuid4 env ;;
       ret (Fallback u)).

(** [Project._read_cache] *)
Definition _read_cache (cache_file : string) : M pyval :=
  present <- path_exists cache_file ;;
  if negb present then ret (VDict [])
  else
    try_except bare_except
      (text <- open_r cache_file ;;
       match json_loads env text with
       | Some result => ret result
       | None => raise JSONDecodeError
       end)
      (fun _ => logger ERROR "reading cache failed" ;; ret (VDict [])).

(** [Project._write_cache] *)
Definition _write_cache (cache_file : string) (cache : pyval) : M unit :=
  try_except bare_except
    (open_w cache_file ;;
     let '(text, failure) := iterencode (float_repr env) cache in
     fp_write cache_file text ;;
     match failure with
     | None => ret tt
     | Some e => raise e
     end)
    (fun _ => logger ERROR "writing cache failed" ;; ret tt).

Definition compile_command (args : Args) (name : string) : list string :=
  ["openscad"; scad_path args name; "-o"; stl_path args name].

(** Lines 62 to 69 of [build_stl]: compile the part, hash the pair again
    and record the fingerprint. The nested [dict] is mutated in place, so
    the outer one sees the new entry. *)
Definition compile_and_record (args : Args) (cache : pyval) (name : string) : M pyval :=
  let scad_file_path := scad_path args name in
  let stl_file_path := stl_path args name in
  call env (compile_command args name) ;;
  hc <- _get_files_hash [scad_file_path; stl_file_path] ;;
  scad_cache <- lift (py_getitem cache "scad_cache") ;;
  scad_cache <- lift (py_setitem scad_cache scad_file_path (fingerprint_value hc)) ;;
  lift (py_setitem cache "scad_cache" scad_cache).

(** Lines 57 to 60: is the part up to date? *)
Definition is_fresh (args : Args) (cache : pyval) (name : string) : M bool :=
  let scad_file_path := scad_path args name in
  let stl_file_path := stl_path args name in
  present <- path_exists stl_file_path ;;
  if present && negb (force args) then
    hc <- _get_files_hash [scad_file_path; stl_file_path] ;;
    scad_cache <- lift (py_getitem cache "scad_cache") ;;
    cached <- lift (py_get scad_cache scad_file_path (VStr "")) ;;
    ret (py_eq_fingerprint cached hc)
  else ret false.

(** The body of the loop of [build_stl] for one part; the local [cache]
    is threaded through. *)
Definition stl_step (args : Args) (cache : pyval) (part : string * option Geometry)
  : M pyval :=
  let name := fst part in
  logger INFO ("building " ++ name ++ ".stl") ;;
  fresh <- is_fresh args cache name ;;
  if fresh then ret cache else compile_and_record args cache name.

(** [build_stl] up to its loop: the cache as the loop receives it. *)
Definition stl_prelude (self : Project) (args : Args) : M pyval :=
  build_scad self args ;;
  cache <- _read_cache (cache_file args) ;;
  known <- lift (py_contains "scad_cache" cache) ;;
  cache <- (if negb known then lift (py_setitem cache "scad_cache" (VDict []))
            else ret cache) ;;
  present <- path_exists (stl_directory args) ;;
  (if negb present then makedirs (stl_directory args) else ret tt) ;;
  ret cache.

(** [Project.build_stl] *)
Definition build_stl (self : Project) (args : Args) : M unit :=
  cache <- stl_prelude self args ;;
  cache <- for_fold (stl_step args) (parts self) cache ;;
  _write_cache (cache_file args) cache.

(** The callback of [watch]: the script re-invokes itself with
    [build-scad], once more after an [OSError]. *)
Definition real_scad_generator (args : Args) : M unit :=
  let command_args :=
    ([main_file env; "--scad-directory"; scad_directory args]
       ++ (if debug args then ["--debug"] else []) ++ ["build-scad"])%list in
  try_except is_OSError (call env command_args ;; ret tt)
    (fun _ => call env command_args ;; ret tt).

Fixpoint repeat_M (n : nat) (m : M unit) : M unit :=
  match n with
  | O => ret tt
  | S n' => m ;; repeat_M n' m
  end.

(** [Project.watch].

    Modelled from the spec: the [ModuleWatcher] of [module_watcher.py],
    which is not among the sources. It calls the callback on each
    detected change, a failing rebuild does not stop the watch, and the
    sleep loop ends only when the process is interrupted. *)
Definition watch (args : Args) : M unit :=
  real_scad_generator args ;;
  repeat_M (watch_events env)
    (try_except bare_except (real_scad_generator args) (fun _ => ret tt)) ;;
  raise KeyboardInterrupt.

Definition guarded (w : World) : World :=
  mkWorld (fs w) (log w) (spawned w) (uuids_drawn w) (stdout w) true.

Definition set_single_run_guard : M unit := fun w => (Ok tt, guarded w).

(** What [run] does once past its guard. *)
Definition dispatch (self : Project) : M unit :=
  match parse_args env with
  | None => raise SystemExit
  | Some (args, PrintHelp) => print "usage"
  | Some (args, Watch) => watch args
  | Some (args, BuildScad) => build_scad self args
  | Some (args, BuildStl) => build_stl self args
  end.

(** [Project.run] *)
Definition run (self : Project) : M unit :=
  fun w =>
    if single_run_guard w then (Ok tt, w)
    else (set_single_run_guard ;; dispatch self) w.
End Methods.

(** * Vocabulary of the specification *)

(** A computation that leaves a component of the world as it found it,
    whether it returns or raises. *)
Definition preserves {X A : Type} (component : World -> X) (m : M A) : Prop :=
  forall w r w', m w = (r, w') -> component w' = component w.


(** The first line of a text and what follows its line break. *)
Fixpoint first_line (s : string) : string * string :=
  match s with
  | EmptyString => ("", "")
  | String c s' =>
      if Ascii.eqb c "010" then ("", s')
      else let '(line, rest) := first_line s' in (String c line, rest)
  end.

(** The first three lines of a text and the remainder. *)
Definition three_lines (s : string) : string * string * string * string :=
  let '(l1, r1) := first_line s in
  let '(l2, r2) := first_line r1 in
  let '(l3, r3) := first_line r2 in
  (l1, l2, l3, r3).



(** The message a fingerprint digests, in the words of the specification:
    for each file in order, the separator followed by its content. *)
Fixpoint message (contents : list string) : string :=
  match contents with
  | [] => ""
  | c :: rest => separator ++ c ++ message rest
  end.

(** The contents of the files, when every one of them can be read. *)
Fixpoint read_all (s : FS) (filenames : list string) : option (list string) :=
  match filenames with
  | [] => Some []
  | f :: rest =>
      match fs_read s f, read_all s rest with
      | Ok c, Some cs => Some (c :: cs)
      | _, _ => None
      end
  end.

(** The fingerprint of the files as a function of the file system; [n]
    is the number of UUIDs drawn so far. *)
Definition files_fingerprint (env : Env) (s : FS) (filenames : list string) (n : nat)
  : fingerprint :=
  match read_all s filenames with
  | Some contents => Digest (sha256_hexdigest env (message contents))
  | None => Fallback (uuid4_value env n)
  end.

(** A text that stops where a value is still expected: it is empty, or
    ends with an opening bracket or with a separator. *)
Definition ends_open (text : string) : bool :=
  ends_with "[" text || ends_with ", " text || ends_with ": " text.

Definition dangling (text : string) : Prop :=
  text = "" \/ ends_open text = true.

(** The decoder rejects such a text, as any JSON decoder does. *)
Definition decoder_rejects_dangling (env : Env) : Prop :=
  forall text, dangling text -> json_loads env text = None.

(** A file that can be created or overwritten. *)
Definition writable (s : FS) (p : string) : Prop :=
  (p ∉ denied s) /\ (p ∉ dirs s).

(** The entry of the cache under [key]: [cache['scad_cache'].get(key)]. *)
Definition cache_entry (cache : pyval) (key : string) : option pyval :=
  match cache with
  | VDict d =>
      match dict_get "scad_cache" d with
      | Some (VDict entries) => dict_get key entries
      | _ => None
      end
  | _ => None
  end.

(** The cache is a [dict] whose [scad_cache] is a [dict]. *)
Definition cache_shaped (cache : pyval) : Prop :=
  exists d entries, cache = VDict d /\ dict_get "scad_cache" d = Some (VDict entries).

(** [openscad input -o output] touches no path but its output. *)
Definition compiler_frame (env : Env) : Prop :=
  forall input output s s' status,
    subprocess_call env ["openscad"; input; "-o"; output] s = Some (s', status) ->
    forall p, p <> output ->
      fs_read s' p = fs_read s p /\ fs_exists s' p = fs_exists s p.

(** The [openscad] executable can be started. *)
Definition compiler_installed (env : Env) : Prop :=
  forall input output s, subprocess_call env ["openscad"; input; "-o"; output] s <> None.

(** No two parts share a description file or an artifact file. *)
Definition distinct_paths (args : Args) (ps : list (string * option Geometry)) : Prop :=
  List.NoDup (map (scad_path args) (dict_keys ps)) /\
  List.NoDup (map (stl_path args) (dict_keys ps)).

(** Part [name] is up to date: its artifact exists, and the cache holds,
    under the key the build looks up, the digest of the description and
    artifact as they are now. *)
Definition up_to_date (env : Env) (args : Args) (cache : pyval) (s : FS) (name : string)
  : Prop :=
  fs_exists s (stl_path args name) = true /\
  exists description artifact,
    fs_read s (scad_path args name) = Ok description /\
    fs_read s (stl_path args name) = Ok artifact /\
    cache_shaped cache /\
    cache_entry cache (scad_path args name)
      = Some (VStr (sha256_hexdigest env (message [description; artifact]))).

(** The description files can be emitted: the output directory exists
    or can be created, and every part has a model and a description path
    that can be opened for writing. *)
Definition can_emit (self : Project) (args : Args) (s : FS) : Prop :=
  (fs_exists s (scad_directory args) = true \/
   (scad_directory args <> "" /\ scad_directory args ∉ denied s)) /\
  forall name model,
    In (name, model) (parts self) ->
    model <> None /\ writable s (scad_path args name) /\
    scad_path args name <> scad_directory args.

(** The reading of the specification that the part loop does not
    follow: the fingerprint taken after the compilation of [name] is put
    under the path of the artifact. *)
Definition recorded_under_artifact_path (env : Env) (args : Args) (cache : pyval)
    (name : string) (w : World) : Prop :=
  forall cache' w',
    compile_and_record env args cache name w = (Ok cache', w') ->
    cache_entry cache' (stl_path args name)
    = Some (fingerprint_value
              (files_fingerprint env (fs w') [scad_path args name; stl_path args name]
                 (uuids_drawn w))).

(** The description or the artifact of part [name] cannot be read. *)
Definition pair_unreadable (args : Args) (s : FS) (name : string) : Prop :=
  exists e, fs_read s (scad_path args name) = Raise e \/
            fs_read s (stl_path args name) = Raise e.

(** ** Vocabulary of the further properties *)

(** An upper-case ASCII letter. *)
Definition is_upper (c : ascii) : bool :=
  let n := N_of_ascii c in ((65 <=? n) && (n <=? 90))%N.

Fixpoint all_chars (p : ascii -> bool) (s : string) : bool :=
  match s with
  | EmptyString => true
  | String c s' => p c && all_chars p s'
  end.


(** The module-level decorations of a script: [@p.add_part] applied to
    each function in turn. *)
Definition decorate (fs : list callable) (self : Project) : M Project :=
  for_fold (fun self f => r <- add_part self (Method f) None ;; ret (fst r)) fs self.

(** Part [name] is stale: the force flag is set, or its artifact is
    missing, or its description and artifact can be read and the cache
    entry the build looks up is not their digest. *)
Definition stale (env : Env) (args : Args) (cache : pyval) (s : FS) (name : string) : Prop :=
  force args = true
  \/ fs_exists s (stl_path args name) = false
  \/ exists description artifact,
       fs_read s (scad_path args name) = Ok description /\
       fs_read s (stl_path args name) = Ok artifact /\
       py_eq_fingerprint (default (VStr "") (cache_entry cache (scad_path args name)))
         (Digest (sha256_hexdigest env (message [description; artifact]))) = false.

(** The [openscad] executable cannot be started. *)
Definition compiler_absent (env : Env) : Prop :=
  forall input output s, subprocess_call env ["openscad"; input; "-o"; output] s = None.

(** A hex digest is never the empty string. *)
Definition digest_nonempty (env : Env) : Prop :=
  forall message, sha256_hexdigest env message <> "".

(** The members of the outer [dict] of the cache. *)
Definition top_level (cache : pyval) (key : string) : option pyval :=
  match cache with
  | VDict d => dict_get key d
  | _ => None
  end.

Definition top_level_keys (cache : pyval) : list string :=
  match cache with
  | VDict d => dict_keys d
  | _ => []
  end.

(** A value with a [uuid.UUID] somewhere inside. *)
Fixpoint contains_uuid (v : pyval) : bool :=
  match v with
  | VUuid _ => true
  | VList l => existsb contains_uuid l
  | VDict d => existsb (fun kv => contains_uuid (snd kv)) d
  | _ => false
  end.

(** What [json.load] may return that the part loop cannot work with:
    anything but a [dict], or a [dict] whose [scad_cache] is no [dict]. *)
Definition malformed (cache : pyval) : Prop :=
  match cache with
  | VDict d =>
      match dict_get "scad_cache" d with
      | Some (VDict _) | None => False
      | Some _ => True
      end
  | _ => True
  end.

(** There is nothing to load from the cache file: it is missing, or
    cannot be read, or the decoder rejects its text. *)
Definition cache_unusable (env : Env) (s : FS) (path : string) : Prop :=
  fs_exists s path = false
  \/ (exists e, fs_read s path = Raise e)
  \/ (exists text, fs_read s path = Ok text /\ json_loads env text = None).


(** * A concrete environment

    Small stand-ins for the collaborators, so that the methods can be run:
    a checksum for the digest, a JSON reader for the documents the encoder
    writes, and a compiler that wraps the description it is given. *)

Module Demo.

Fixpoint adler (a b : Z) (s : string) : Z :=
  match s with
  | EmptyString => b * 65536 + a
  | String c s' =>
      let a' := (a + Z.of_N (N_of_ascii c)) mod 65521 in
      adler a' ((b + a') mod 65521) s'
  end.

Definition digest (message : string) : string := dec (adler 1 0 message).

Definition is_space (c : ascii) : bool :=
  let n := N_of_ascii c in ((n =? 32) || (n =? 10) || (n =? 13) || (n =? 9))%N.

Fixpoint skip_ws (s : string) : string :=
  match s with
  | String c s' => if is_space c then skip_ws s' else s
  | EmptyString => s
  end.

(** The characters of a string literal after its opening quote. *)
Fixpoint read_chars (s : string) : option (string * string) :=
  match s with
  | EmptyString => None
  | String c s' =>
      if Ascii.eqb c dquote then Some ("", s')
      else if Ascii.eqb c backslash then
        match s' with
        | String e s'' =>
            let plain (x : ascii) :=
              match read_chars s'' with
              | Some (t, r) => Some (String x t, r)
              | None => None
              end in
            if Ascii.eqb e dquote then plain dquote
            else if Ascii.eqb e backslash then plain backslash
            else if Ascii.eqb e "n" then plain "010"%char
            else if Ascii.eqb e "r" then plain "013"%char
            else if Ascii.eqb e "t" then plain "009"%char
            else None
        | EmptyString => None
        end
      else
        match read_chars s' with
        | Some (t, r) => Some (String c t, r)
        | None => None
        end
  end.

Fixpoint read_digits (acc : Z) (s : string) : Z * string :=
  match s with
  | String c s' =>
      if is_digit c then read_digits (acc * 10 + Z.of_N (N_of_ascii c) - 48) s'
      else (acc, s)
  | EmptyString => (acc, s)
  end.

Fixpoint read_value (fuel : nat) (s : string) {struct fuel} : option (pyval * string) :=
  match fuel with
  | O => None
  | S fuel' =>
      let s := skip_ws s in
      if starts_with "null" s then Some (VNone, drop_str 4 s)
      else if starts_with "true" s then Some (VBool true, drop_str 4 s)
      else if starts_with "false" s then Some (VBool false, drop_str 5 s)
      else
        match s with
        | EmptyString => None
        | String c s' =>
            if Ascii.eqb c dquote then
              match read_chars s' with
              | Some (t, r) => Some (VStr t, r)
              | None => None
              end
            else if Ascii.eqb c "[" then
              match skip_ws s' with
              | String "]" r => Some (VList [], r)
              | _ =>
                  match read_items fuel' [] s' with
                  | Some (l, r) => Some (VList l, r)
                  | None => None
                  end
              end
            else if Ascii.eqb c "{" then
              match skip_ws s' with
              | String "}" r => Some (VDict [], r)
              | _ =>
                  match read_members fuel' [] s' with
                  | Some (d, r) => Some (VDict d, r)
                  | None => None
                  end
              end
            else if Ascii.eqb c "-" then
              match s' with
              | String d _ =>
                  if is_digit d then let '(z, r) := read_digits 0 s' in Some (VInt (- z), r)
                  else None
              | EmptyString => None
              end
            else if is_digit c then let '(z, r) := read_digits 0 s in Some (VInt z, r)
            else None
        end
  end
with read_items (fuel : nat) (acc : list pyval) (s : string) {struct fuel}
  : option (list pyval * string) :=
  match fuel with
  | O => None
  | S fuel' =>
      match read_value fuel' s with
      | Some (v, r) =>
          match skip_ws r with
          | String "," r' => read_items fuel' (acc ++ [v])%list r'
          | String "]" r' => Some ((acc ++ [v])%list, r')
          | _ => None
          end
      | None => None
      end
  end
with read_members (fuel : nat) (acc : list (string * pyval)) (s : string) {struct fuel}
  : option (list (string * pyval) * string) :=
  match fuel with
  | O => None
  | S fuel' =>
      match skip_ws s with
      | String q s' =>
          if Ascii.eqb q dquote then
            match read_chars s' with
            | Some (k, r) =>
                match skip_ws r with
                | String ":" r' =>
                    match read_value fuel' r' with
                    | Some (v, r'') =>
                        match skip_ws r'' with
                        | String "," r3 => read_members fuel' (dict_set k v acc) r3
                        | String "}" r3 => Some (dict_set k v acc, r3)
                        | _ => None
                        end
                    | None => None
                    end
                | _ => None
                end
            | None => None
            end
          else None
      | EmptyString => None
      end
  end.

(** A whole document: one value and nothing but blanks after it. A text
    that ends where a value is expected is turned down at once. *)
Definition loads (text : string) : option pyval :=
  if String.eqb text "" || ends_open text then None
  else
    match read_value (S (String.length text)) text with
    | Some (v, r) => if String.eqb (skip_ws r) "" then Some v else None
    | None => None
    end.

(** The compiler rejects a description that mentions [undefined] and
    otherwise writes the artifact; any other command does nothing. *)
Definition run_process (command_args : list string) (s : FS) : option (FS * Z) :=
  match command_args with
  | ["openscad"; input; "-o"; output] =>
      match fs_read s input with
      | Ok text =>
          if str_contains "undefined" text then Some (s, 1)
          else Some (mkFS (<[output := "solid " ++ text]> (files s)) (dirs s) (denied s), 0)
      | Raise _ => Some (s, 1)
      end
  | _ => Some (s, 0)
  end.

Definition env (cli : option (Args * Command)) : Env :=
  mkEnv digest loads (fun _ => "0.0") run_process (fun n => N.of_nat n)
    "bolt_and_nut.py" cli 0.

Definition args (force : bool) : Args := mkArgs "scad" "stl" ".yaost.cache" force false.

Definition empty_fs : FS := mkFS ∅ ∅ ∅.

Definition fresh_world : World := mkWorld empty_fs [] [] 0 [] false.

(** [examples/bolt_and_nut.py]: two functions registered through
    [@p.add_part]; the geometry they build is opaque here. *)
Definition bolt : callable :=
  mkCallable (Some "bolt") (ret (Some (mkGeometry "union(){thread();cylinder();}"))).

Definition nut : callable :=
  mkCallable (Some "nut") (ret (Some (mkGeometry "difference(){cylinder();hole();}"))).

(** A part whose description the compiler rejects, and one whose
    construction raises. *)
Definition washer : callable :=
  mkCallable (Some "washer") (ret (Some (mkGeometry "undefined();"))).

Definition broken : callable :=
  mkCallable (Some "Broken_Part") (raise (UserError "ZeroDivisionError")).

Definition register (fs : list callable) (self : Project) : M Project :=
  for_fold (fun self f => r <- add_part self (Method f) None ;; ret (fst r)) fs self.

Definition project_of (fs : list callable) : Project :=
  match register fs (Project_init "bolt and nut" (PyFloat (S754_finite false 3 0))
                       (PyFloat (S754_finite false 1 (-1))) (PyInt 0)) fresh_world with
  | (Ok self, _) => self
  | (Raise _, _) => Project_default
  end.

Definition bolt_and_nut : Project := project_of [bolt; nut].

Definition world_after {A} (m : M A) (w : World) : World := snd (m w).

Definition value_of (r : outcome pyval) : pyval :=
  match r with
  | Ok v => v
  | Raise _ => VNone
  end.

(** The world after a first [build-stl] of bolt and nut. *)
Definition built_world : World :=
  world_after (build_stl (env None) bolt_and_nut (args false)) fresh_world.

(** The world and the cache with which the part loop of a first build
    starts. *)
Definition emitted_world : World :=
  world_after (stl_prelude (env None) bolt_and_nut (args false)) fresh_world.

Definition empty_cache : pyval := VDict [("scad_cache", VDict [])].

(** A file deleted behind the back of the build. *)
Definition remove (p : string) (w : World) : World := with_files (delete p) w.

(** A project with a part that does not compile. *)
Definition with_washer : Project := project_of [bolt; washer; nut].

(** A function whose name differs from [bolt] in letter case only, and
    which forgets to return its model. *)
Definition shouting : callable := mkCallable (Some "BOLT") (ret None).

(** A project with a part registered by name, without a model. *)
Definition with_blank : Project :=
  mkProject (PyFloat (S754_finite false 3 0)) (PyFloat (S754_finite false 1 (-1))) (PyInt 0)
    "blank"
    [("bolt", Some (mkGeometry "union(){thread();cylinder();}"));
     ("blank", None);
     ("nut", Some (mkGeometry "difference(){cylinder();hole();}"))].

(** Two names that [os.path.join] sends to the same file under an
    absolute output directory. *)
Definition absolute_args : Args := mkArgs "/out" "/out" ".yaost.cache" false false.

Definition colliding : Project :=
  mkProject (PyFloat (S754_finite false 3 0)) (PyFloat (S754_finite false 1 (-1))) (PyInt 0)
    "colliding"
    [("a", Some (mkGeometry "cube();")); ("/out/a", Some (mkGeometry "sphere();"))].

(** A world that holds the given files and nothing else. *)
Definition world_with (content : list (string * string)) : World :=
  mkWorld (mkFS (list_to_map content) ∅ ∅) [] [] 0 [] false.

(** The environment on a machine without [openscad]. *)
Definition no_compiler : Env :=
  mkEnv digest loads (fun _ => "0.0") (fun _ _ => None) (fun n => N.of_nat n)
    "bolt_and_nut.py" None 0.

(** The washer after its description was emitted, with an artifact left
    from an earlier version of the part. *)
Definition washer_world : World :=
  written "stl/washer.stl" "solid washer of last week"
    (world_after (build_scad with_washer (args false)) fresh_world).

(** A cache with content that this version of the build does not know. *)
Definition foreign_cache : pyval :=
  VDict [("version", VInt 2); ("scad_cache", VDict [("scad/gone.scad", VStr "abc")])].

(** The world and the cache when the part loop of a first build of bolt
    and nut has ended. *)
Definition loop_end : outcome pyval * World :=
  for_fold (stl_step (env None) (args false)) (parts bolt_and_nut) empty_cache emitted_world.

End Demo.

(** * Properties *)

(** ** The model at work on small inputs *)

(* 3.0 = 3 * 2^0, 0.5 = 1 * 2^-1, 0.03125 = 1 * 2^-5 (a tie at four places) *)
Example format_3_0 : format_4f (PyFloat (S754_finite false 3 0)) = Ok "3.0000".
Proof. reflexivity. Qed.

Example format_0_5 : format_4f (PyFloat (S754_finite false 1 (-1))) = Ok "0.5000".
Proof. reflexivity. Qed.

Example format_int_0 : format_4f (PyInt 0) = Ok "0.0000".
Proof. reflexivity. Qed.

Example format_int_12 : format_4f (PyInt (-12)) = Ok "-12.0000".
Proof. vm_compute. reflexivity. Qed.

Example format_tie : format_4f (PyFloat (S754_finite false 1 (-5))) = Ok "0.0312".
Proof. reflexivity. Qed.

Example format_tie_up : format_4f (PyFloat (S754_finite false 3 (-5))) = Ok "0.0938".
Proof. reflexivity. Qed.

Example format_big : format_4f (PyInt (2 ^ 53 + 1)) = Ok "9007199254740992.0000".
Proof. vm_compute. reflexivity. Qed.

Example format_small_neg : format_4f (PyFloat (S754_finite true 1 (-20))) = Ok "-0.0000".
Proof. reflexivity. Qed.

Example iterencode_cache :
  iterencode (fun _ => "") (VDict [("scad_cache", VDict [("scad/bolt.scad", VStr "ab12")])])
  = (String "{" (encode_str "scad_cache") ++ ": {" ++ encode_str "scad/bolt.scad" ++ ": "
       ++ encode_str "ab12" ++ "}}", None).
Proof. reflexivity. Qed.

Example iterencode_uuid :
  iterencode (fun _ => "")
    (VDict [("scad_cache", VDict [("scad/bolt.scad", VStr "ab12"); ("scad/nut.scad", VUuid 7)])])
  = (String "{" (encode_str "scad_cache") ++ ": {" ++ encode_str "scad/bolt.scad" ++ ": "
       ++ encode_str "ab12" ++ ", " ++ encode_str "scad/nut.scad" ++ ": ", Some TypeError).
Proof. reflexivity. Qed.

Example part_name_of_identifier : part_name "Bolt_M8_long" = "bolt-m8-long".
Proof. reflexivity. Qed.

Example path_join_examples :
  path_join "scad" "bolt.scad" = "scad/bolt.scad"
  /\ path_join "scad/" "bolt.scad" = "scad/bolt.scad"
  /\ path_join "" "bolt.scad" = "bolt.scad"
  /\ path_join "scad" "/tmp/bolt.scad" = "/tmp/bolt.scad".
Proof. repeat split. Qed.

Example demo_names : dict_keys (parts Demo.bolt_and_nut) = ["bolt"; "nut"].
Proof. reflexivity. Qed.

Example demo_loads_what_dump_wrote :
  Demo.loads (fst (iterencode (fun _ => "")
     (VDict [("scad_cache", VDict [("scad/bolt.scad", VStr "ab12")]);
             ("x", VList [VInt (-3); VNone])])))
  = Some (VDict [("scad_cache", VDict [("scad/bolt.scad", VStr "ab12")]);
                 ("x", VList [VInt (-3); VNone])]).
Proof. vm_compute. reflexivity. Qed.

(** ** Strings *)

Lemma str_app_assoc (a b c : string) : (a ++ b) ++ c = a ++ (b ++ c).
Proof. induction a as [|x a IH]; simpl; [reflexivity | now rewrite IH]. Qed.

Lemma str_app_nil_r (a : string) : a ++ "" = a.
Proof. induction a as [|x a IH]; simpl; [reflexivity | now rewrite IH]. Qed.

Lemma str_length_app (a b : string) :
  String.length (a ++ b) = (String.length a + String.length b)%nat.
Proof. induction a as [|x a IH]; simpl; [reflexivity | now rewrite IH]. Qed.

Lemma take_drop_str (n : nat) (s : string) : take_str n s ++ drop_str n s = s.
Proof.
  revert s; induction n as [|n IH]; intros [|c s]; simpl; try reflexivity.
  now rewrite IH.
Qed.

Lemma take_str_empty (n : nat) (s : string) : take_str (S n) s = "" -> s = "".
Proof. destruct s; simpl; [reflexivity | discriminate]. Qed.

Lemma drop_str_shorter (n : nat) (s : string) :
  s <> "" -> (String.length (drop_str (S n) s) < String.length s)%nat.
Proof.
  destruct s as [|c s]; [congruence | intros _; simpl].
  revert s; induction n as [|n IH]; intros s; simpl; [lia |].
  destruct s as [|d s]; simpl; [lia |]. specialize (IH s). lia.
Qed.

(** ** Hashing *)

Lemma read_chunks_S (fuel : nat) (rest : string) :
  read_chunks (S fuel) rest =
  if String.eqb (take_str chunk_size rest) "" then []
  else take_str chunk_size rest :: read_chunks fuel (drop_str chunk_size rest).
Proof. reflexivity. Qed.

(** Feeding a file chunk by chunk feeds its whole content. *)
Lemma read_chunks_update (fuel : nat) (rest h : string) :
  (String.length rest < fuel)%nat ->
  fold_left update (read_chunks fuel rest) h = h ++ rest.
Proof.
  assert (Hsize : exists k, chunk_size = S k) by (eexists; reflexivity).
  destruct Hsize as [k Hk].
  revert rest h; induction fuel as [|fuel IH]; intros rest h Hlen; [lia |].
  rewrite read_chunks_S, Hk.
  destruct (String.eqb_spec (take_str (S k) rest) "") as [Hempty | Hchunk].
  - apply take_str_empty in Hempty. subst rest. cbn. now rewrite str_app_nil_r.
  - cbn [fold_left]. rewrite IH.
    + unfold update. rewrite str_app_assoc. now rewrite take_drop_str.
    + assert (Hne : rest <> "") by (intros ->; apply Hchunk; reflexivity).
      pose proof (drop_str_shorter k rest Hne). lia.
Qed.

Lemma file_chunks_update (data h : string) :
  fold_left update (file_chunks data) h = h ++ data.
Proof. unfold file_chunks. apply read_chunks_update. lia. Qed.

Lemma hash_file_ok (w : World) (h f c : string) :
  fs_read (fs w) f = Ok c -> hash_file h f w = (Ok (h ++ separator ++ c), w).
Proof.
  intros Hr. unfold hash_file, bind, open_r, ret, update. rewrite Hr.
  now rewrite file_chunks_update, str_app_assoc.
Qed.

Lemma hash_file_raise (w : World) (h f : string) (e : exn) :
  fs_read (fs w) f = Raise e -> hash_file h f w = (Raise e, w).
Proof. intros Hr. unfold hash_file, bind, open_r. now rewrite Hr. Qed.

Lemma hash_files_ok (w : World) (filenames contents : list string) (h : string) :
  Forall2 (fun f c => fs_read (fs w) f = Ok c) filenames contents ->
  for_fold hash_file filenames h w = (Ok (h ++ message contents), w).
Proof.
  intros HF; revert h; induction HF as [|f c fs' cs Hr _ IH]; intros h; simpl.
  - unfold ret. now rewrite str_app_nil_r.
  - unfold bind. rewrite (hash_file_ok _ _ _ _ Hr). fold (@bind string string).
    rewrite IH. now rewrite !str_app_assoc.
Qed.

Lemma fs_read_raises_Exception (s : FS) (f : string) (e : exn) :
  fs_read s f = Raise e -> is_Exception e = true.
Proof.
  unfold fs_read. repeat case_bool_decide; try (intros [= <-]; reflexivity).
  destruct (files s !! f); intros [= <-]. reflexivity.
Qed.

(** The loop either digests every file or stops at the first [open] that
    is refused, leaving the world as it was. *)
Lemma hash_files_outcome (w : World) (filenames : list string) (h : string) :
  (exists contents,
     Forall2 (fun f c => fs_read (fs w) f = Ok c) filenames contents) \/
  (exists e, for_fold hash_file filenames h w = (Raise e, w) /\ is_Exception e = true).
Proof.
  revert h; induction filenames as [|f rest IH]; intros h.
  - left. exists []. constructor.
  - destruct (fs_read (fs w) f) as [c | e] eqn:Hr.
    + destruct (IH (h ++ separator ++ c)) as [[cs Hcs] | [e [He Hex]]].
      * left. exists (c :: cs). now constructor.
      * right. exists e. split; [| exact Hex]. simpl. unfold bind.
        now rewrite (hash_file_ok _ _ _ _ Hr).
    + right. exists e. split; [| eapply fs_read_raises_Exception; eauto].
      simpl. unfold bind. now rewrite (hash_file_raise _ _ _ _ Hr).
Qed.

Lemma readable_all (s : FS) (filenames contents : list string) (f : string) :
  Forall2 (fun f c => fs_read s f = Ok c) filenames contents ->
  In f filenames -> exists c, fs_read s f = Ok c.
Proof.
  induction 1 as [|g c gs cs Hg _ IH]; intros Hin; [destruct Hin |].
  destruct Hin as [<- | Hin]; eauto.
Qed.

(** What [_get_files_hash] returns when every file can be read ... *)
Lemma _get_files_hash_digest (env : Env) (filenames contents : list string) (w : World) :
  Forall2 (fun f c => fs_read (fs w) f = Ok c) filenames contents ->
  _get_files_hash env filenames w
  = (Ok (Digest (sha256_hexdigest env (message contents))), w).
Proof.
  intros HF. unfold _get_files_hash, try_except, bind.
  rewrite (hash_files_ok _ _ _ _ HF). reflexivity.
Qed.

(** ... and when one cannot. *)
Lemma _get_files_hash_fallback (env : Env) (filenames : list string) (w : World)
    (f : string) (e : exn) :
  In f filenames -> fs_read (fs w) f = Raise e ->
  exists e',
    _get_files_hash env filenames w
    = (Ok (Fallback (uuid4_value env (uuids_drawn w))),
       drawn (logged ERROR ("hashing gone wrong " ++ failing_filename (fs w) filenames
                              ++ " " ++ exn_name e') w)).
Proof.
  intros Hin Hr.
  destruct (hash_files_outcome w filenames "") as [[cs Hcs] | [e' [He' Hex]]].
  - destruct (readable_all _ _ _ _ Hcs Hin) as [c Hc]. congruence.
  - exists e'. unfold _get_files_hash, try_except, bind. rewrite He', Hex. reflexivity.
Qed.

Lemma _get_files_hash_cases (env : Env) (filenames : list string) (w : World) :
  (exists contents,
      Forall2 (fun f c => fs_read (fs w) f = Ok c) filenames contents /\
      _get_files_hash env filenames w
      = (Ok (Digest (sha256_hexdigest env (message contents))), w)) \/
  (exists f e msg,
      In f filenames /\ fs_read (fs w) f = Raise e /\
      _get_files_hash env filenames w
      = (Ok (Fallback (uuid4_value env (uuids_drawn w))), drawn (logged ERROR msg w))).
Proof.
  destruct (hash_files_outcome w filenames "") as [[cs Hcs] | [e' [He' Hex]]].
  - left. exists cs. split; [exact Hcs | now apply _get_files_hash_digest].
  - right.
    assert (Hbad : exists f e, In f filenames /\ fs_read (fs w) f = Raise e).
    { clear Hex. revert He'. generalize "". induction filenames as [|g rest IH]; intros h.
      - simpl. unfold ret. discriminate.
      - simpl. unfold bind. destruct (fs_read (fs w) g) as [c | e] eqn:Hg.
        + rewrite (hash_file_ok _ _ _ _ Hg). intros H.
          destruct (IH _ H) as [f [e [Hin Hf]]]. exists f, e. split; [now right | exact Hf].
        + intros _. exists g, e. split; [now left | exact Hg]. }
    destruct Hbad as [f [e [Hin Hf]]].
    destruct (_get_files_hash_fallback env filenames w f e Hin Hf) as [e'' Heq].
    exists f, e. eexists. split; [exact Hin |]. split; [exact Hf | exact Heq].
Qed.

(** C5. The fingerprint of a list of readable files is the digest of the
    message made, for each file in the given order, of the 6-byte
    separator followed by the file's whole content. It leaves the world
    as it was, and it is a function of the sequence of contents alone:
    wherever the same files hold the same contents, the fingerprint is
    the same. *)
Theorem fingerprint_is_digest_of_separated_contents
    (env : Env) (filenames contents : list string) (w : World) :
  Forall2 (fun f c => fs_read (fs w) f = Ok c) filenames contents ->
  _get_files_hash env filenames w
    = (Ok (Digest (sha256_hexdigest env (message contents))), w)
  /\ String.length separator = 6%nat
  /\ (forall w', Forall2 (fun f c => fs_read (fs w') f = Ok c) filenames contents ->
        fst (_get_files_hash env filenames w') = fst (_get_files_hash env filenames w)).
Proof.
  intros HF. split; [now apply _get_files_hash_digest |]. split; [reflexivity |].
  intros w' HF'. now rewrite !(_get_files_hash_digest env filenames contents).
Qed.

(** C3. When a named file cannot be read, [_get_files_hash] does not
    raise: it logs and returns a [UUID] object. That value is no digest,
    and compares unequal to every string and to any other value that is
    not a [UUID], so a comparison with a cached fingerprint is a miss. *)
Theorem hashing_failure_yields_distinct_fallback
    (env : Env) (filenames : list string) (w : World) (f : string) (e : exn) :
  In f filenames -> fs_read (fs w) f = Raise e ->
  exists u w',
    _get_files_hash env filenames w = (Ok (Fallback u), w')
    /\ fs w' = fs w
    /\ (forall hex, Fallback u <> Digest hex)
    /\ (forall hex, fingerprint_value (Fallback u) <> VStr hex)
    /\ (forall hex, py_eq_fingerprint (VStr hex) (Fallback u) = false)
    /\ (forall cached, (forall u', cached <> VUuid u') ->
          py_eq_fingerprint cached (Fallback u) = false).
Proof.
  intros Hin Hr.
  destruct (_get_files_hash_fallback env filenames w f e Hin Hr) as [e' Heq].
  eexists. eexists. split; [exact Heq |]. split; [reflexivity |].
  split; [discriminate |]. split; [discriminate |]. split; [reflexivity |].
  intros cached Hc. destruct cached; try reflexivity. now destruct (Hc u).
Qed.

(** [_get_files_hash] never raises. *)
Lemma _get_files_hash_total (env : Env) (filenames : list string) (w : World) :
  exists hc w', _get_files_hash env filenames w = (Ok hc, w') /\ fs w' = fs w
                /\ spawned w' = spawned w.
Proof.
  destruct (_get_files_hash_cases env filenames w)
    as [[cs [_ Heq]] | [f [e [msg [_ [_ Heq]]]]]]; rewrite Heq; eauto.
Qed.

(** ** Registration *)

(** C6. When the callable given to [add_part] raises, [add_part] returns
    normally: the error is logged, the project is returned as it was, so
    every entry of the registry is unchanged, and the name derived from
    the callable is not registered by this call. *)
Theorem failing_registration_is_swallowed
    (self : Project) (method : callable) (model : option Geometry)
    (identifier : string) (e : exn) (w w1 : World) :
  fn_name method = Some identifier ->
  fn_call method w = (Raise e, w1) ->
  exists self' w',
    add_part self (Method method) model w = (Ok (self', Some method), w')
    /\ parts self' = parts self
    /\ (forall name, dict_get name (parts self') = dict_get name (parts self))
    /\ (dict_mem (part_name identifier) (parts self) = false ->
        dict_mem (part_name identifier) (parts self') = false)
    /\ log w' = (log w1 ++ [(ERROR, "failed to add model")])%list.
Proof.
  intros Hname Hcall. exists self. eexists.
  split.
  - unfold add_part, bind, try_except. rewrite Hname. unfold bind. rewrite Hcall.
    cbn. reflexivity.
  - cbn. auto.
Qed.


(** A callable that returns registers what it returned under the derived
    name. *)
Lemma add_part_registers (self : Project) (method : callable) (model : option Geometry)
    (identifier : string) (built : option Geometry) (w w1 : World) :
  fn_name method = Some identifier ->
  fn_call method w = (Ok built, w1) ->
  add_part self (Method method) model w
  = (Ok (set_parts self (dict_set (part_name identifier) built (parts self)), Some method),
     w1).
Proof.
  intros Hname Hcall. unfold add_part, bind, try_except. rewrite Hname.
  unfold bind. now rewrite Hcall.
Qed.

(** The registry is a [dict]: its names stay pairwise distinct. *)
Lemma dict_set_keys_In {V} (k : string) (v : V) (d : list (string * V)) (x : string) :
  In x (dict_keys (dict_set k v d)) <-> x = k \/ In x (dict_keys d).
Proof.
  unfold dict_keys. induction d as [|[k' v'] d IH]; cbn.
  - intuition.
  - destruct (String.eqb_spec k k') as [-> | Hne]; cbn; [intuition |].
    rewrite IH. intuition.
Qed.

Lemma dict_set_keys_NoDup {V} (k : string) (v : V) (d : list (string * V)) :
  List.NoDup (dict_keys d) -> List.NoDup (dict_keys (dict_set k v d)).
Proof.
  induction d as [|[k' v'] d IH]; intros Hnd.
  - cbn. constructor; [intros [] | constructor].
  - unfold dict_keys in *. cbn [map fst] in Hnd. apply NoDup_cons_iff in Hnd as [Hfresh Hnd].
    cbn [dict_set]. destruct (String.eqb_spec k k') as [-> | Hne]; cbn [map fst].
    + constructor; assumption.
    + constructor; [| now apply IH].
      intros [-> | Hin]%(dict_set_keys_In k v d k'); [congruence | contradiction].
Qed.

Lemma add_part_names_unique (self : Project) (nom : name_or_method)
    (model : option Geometry) (w : World) (self' : Project) (method : option callable)
    (w' : World) :
  List.NoDup (dict_keys (parts self)) ->
  add_part self nom model w = (Ok (self', method), w') ->
  List.NoDup (dict_keys (parts self')).
Proof.
  intros Hnd. destruct nom as [s | f]; cbn [add_part].
  - intros [= <- _ _]. cbn. now apply dict_set_keys_NoDup.
  - unfold bind, try_except. destruct (fn_name f) as [identifier |].
    + unfold bind. destruct (fn_call f w) as [[built | e] w1].
      * intros [= <- _ _]. cbn. now apply dict_set_keys_NoDup.
      * cbn. intros [= <- _ _]. exact Hnd.
    + cbn. intros [= <- _ _]. exact Hnd.
Qed.

(** ** Cache input and output *)

Lemma open_w_writable (p : string) (w : World) :
  writable (fs w) p -> open_w p w = (Ok tt, written p "" w).
Proof.
  intros [Hd Hr]. unfold open_w.
  rewrite (bool_decide_eq_false_2 _ Hd), (bool_decide_eq_false_2 _ Hr). reflexivity.
Qed.

Lemma open_w_refused (p : string) (w : World) :
  ~ writable (fs w) p -> exists e, open_w p w = (Raise e, w).
Proof.
  intros Hn. unfold open_w, writable in *.
  case_bool_decide; [eauto |]. case_bool_decide; [eauto |]. tauto.
Qed.

Lemma writable_dec (s : FS) (p : string) : {writable s p} + {~ writable s p}.
Proof.
  unfold writable. destruct (decide (p ∈ denied s)); [right; tauto |].
  destruct (decide (p ∈ dirs s)); [right; tauto | left; tauto].
Qed.

Lemma fp_write_written (p old text : string) (w : World) :
  fp_write p text (written p old w) = (Ok tt, written p (old ++ text) w).
Proof.
  unfold fp_write, written, with_files, with_fs. cbn.
  rewrite lookup_insert_eq. cbn. now rewrite insert_insert_eq.
Qed.

(** [_write_cache], case by case. *)
Lemma _write_cache_cases (env : Env) (path : string) (cache : pyval) (w : World) :
  let text := fst (iterencode (float_repr env) cache) in
  let failure := snd (iterencode (float_repr env) cache) in
  (writable (fs w) path /\ failure = None /\
   _write_cache env path cache w = (Ok tt, written path text w))
  \/ (writable (fs w) path /\ failure <> None /\
      _write_cache env path cache w
      = (Ok tt, logged ERROR "writing cache failed" (written path text w)))
  \/ (~ writable (fs w) path /\
      _write_cache env path cache w = (Ok tt, logged ERROR "writing cache failed" w)).
Proof.
  cbn zeta. unfold _write_cache, try_except, bind.
  destruct (writable_dec (fs w) path) as [Hw | Hn].
  - rewrite (open_w_writable _ _ Hw).
    destruct (iterencode (float_repr env) cache) as [text [e |]] eqn:Henc; cbn [fst snd].
    + right. left. split; [exact Hw |]. split; [discriminate |].
      unfold bind. rewrite fp_write_written. reflexivity.
    + left. split; [exact Hw |]. split; [reflexivity |].
      unfold bind. rewrite fp_write_written. reflexivity.
  - right. right. split; [exact Hn |].
    destruct (open_w_refused _ _ Hn) as [e He]. rewrite He. reflexivity.
Qed.

Lemma _read_cache_absent (env : Env) (path : string) (w : World) :
  fs_exists (fs w) path = false -> _read_cache env path w = (Ok (VDict []), w).
Proof. intros He. unfold _read_cache, bind, path_exists. now rewrite He. Qed.

Lemma _read_cache_present (env : Env) (path : string) (w : World) :
  fs_exists (fs w) path = true ->
  _read_cache env path w =
  match fs_read (fs w) path with
  | Ok text =>
      match json_loads env text with
      | Some result => (Ok result, w)
      | None => (Ok (VDict []), logged ERROR "reading cache failed" w)
      end
  | Raise _ => (Ok (VDict []), logged ERROR "reading cache failed" w)
  end.
Proof.
  intros He. unfold _read_cache, bind, path_exists. rewrite He. cbn.
  unfold try_except, bind, open_r.
  destruct (fs_read (fs w) path) as [text | e]; [| reflexivity].
  destruct (json_loads env text); reflexivity.
Qed.

(** C7. Cache input and output never propagate an error. Loading from a
    path that does not exist returns the empty mapping; loading a file
    that cannot be parsed, or cannot be read, logs and returns the empty
    mapping; saving returns normally in every case and logs when the file
    cannot be opened or the mapping cannot be serialized. *)
Theorem cache_io_never_raises (env : Env) (path : string) (cache : pyval) (w : World) :
  (exists result w', _read_cache env path w = (Ok result, w'))
  /\ (fs_exists (fs w) path = false -> _read_cache env path w = (Ok (VDict []), w))
  /\ (forall text,
        fs_exists (fs w) path = true -> fs_read (fs w) path = Ok text ->
        json_loads env text = None ->
        _read_cache env path w = (Ok (VDict []), logged ERROR "reading cache failed" w))
  /\ (forall e,
        fs_exists (fs w) path = true -> fs_read (fs w) path = Raise e ->
        _read_cache env path w = (Ok (VDict []), logged ERROR "reading cache failed" w))
  /\ (exists w',
        _write_cache env path cache w = (Ok tt, w')
        /\ (log w' = log w
            \/ log w' = (log w ++ [(ERROR, "writing cache failed")])%list)
        /\ (~ writable (fs w) path \/ snd (iterencode (float_repr env) cache) <> None ->
            log w' = (log w ++ [(ERROR, "writing cache failed")])%list)).
Proof.
  split; [| split; [| split; [| split]]].
  - destruct (fs_exists (fs w) path) eqn:He.
    + rewrite (_read_cache_present _ _ _ He).
      destruct (fs_read (fs w) path) as [text | e]; [| eauto].
      destruct (json_loads env text); eauto.
    + rewrite (_read_cache_absent _ _ _ He). eauto.
  - apply _read_cache_absent.
  - intros text He Hr Hl. rewrite (_read_cache_present _ _ _ He), Hr, Hl. reflexivity.
  - intros e He Hr. rewrite (_read_cache_present _ _ _ He), Hr. reflexivity.
  - destruct (_write_cache_cases env path cache w)
      as [[Hw [Hf Heq]] | [[Hw [Hf Heq]] | [Hn Heq]]];
      rewrite Heq; eexists; (split; [reflexivity |]); cbn.
    + split; [now left |]. intros [Hn | Hs]; [tauto | congruence].
    + split; [now right | reflexivity].
    + split; [now right | reflexivity].
Qed.

(** ** Components of the world that a computation leaves alone *)

Section Preserves.
Context {X : Type} (component : World -> X).

Lemma preserves_ret {A} (a : A) : preserves component (ret a).
Proof. intros w r w' [= _ <-]. reflexivity. Qed.

Lemma preserves_raise {A} (e : exn) : preserves component (@raise A e).
Proof. intros w r w' [= _ <-]. reflexivity. Qed.

Lemma preserves_lift {A} (r : outcome A) : preserves component (lift r).
Proof. intros w r' w' [= _ <-]. reflexivity. Qed.

Lemma preserves_bind {A B} (m : M A) (k : A -> M B) :
  preserves component m -> (forall a, preserves component (k a)) ->
  preserves component (bind m k).
Proof.
  intros Hm Hk w r w'. unfold bind. destruct (m w) as [[a | e] w1] eqn:Hmw.
  - intros Hkw. rewrite (Hk _ _ _ _ Hkw). eapply Hm; eauto.
  - intros [= _ <-]. eapply Hm; eauto.
Qed.

Lemma preserves_try_except {A} (catches : exn -> bool) (body : M A) (handler : exn -> M A) :
  preserves component body -> (forall e, preserves component (handler e)) ->
  preserves component (try_except catches body handler).
Proof.
  intros Hb Hh w r w'. unfold try_except. destruct (body w) as [[a | e] w1] eqn:Hbw.
  - intros [= _ <-]. eapply Hb; eauto.
  - destruct (catches e).
    + intros Hhw. rewrite (Hh _ _ _ _ Hhw). eapply Hb; eauto.
    + intros [= _ <-]. eapply Hb; eauto.
Qed.

Lemma preserves_for_each {A} (body : A -> M unit) (xs : list A) :
  (forall x, preserves component (body x)) -> preserves component (for_each body xs).
Proof.
  intros Hb. induction xs as [|x xs IH]; simpl.
  - apply preserves_ret.
  - apply preserves_bind; auto.
Qed.

Lemma preserves_for_fold {A S} (body : S -> A -> M S) (xs : list A) (s : S) :
  (forall s x, preserves component (body s x)) ->
  preserves component (for_fold body xs s).
Proof.
  intros Hb. revert s; induction xs as [|x xs IH]; intros s; simpl.
  - apply preserves_ret.
  - apply preserves_bind; auto.
Qed.

Lemma preserves_repeat_M (n : nat) (m : M unit) :
  preserves component m -> preserves component (repeat_M n m).
Proof.
  intros Hm. induction n as [|n IH]; simpl.
  - apply preserves_ret.
  - apply preserves_bind; auto.
Qed.
End Preserves.

(** A primitive: unfold it and read the world it returns. *)
Ltac preserves_primitive :=
  let H := fresh in
  intros ? ? ? H;
  cbv beta delta [logger print path_exists makedirs open_r open_w fp_write call uuid4
                  set_single_run_guard] in H;
  repeat match type of H with
         | context [if ?b then _ else _] => destruct b
         | context [match ?x with _ => _ end] => destruct x
         end;
  inversion H; subst; reflexivity.

Ltac preserves_structure :=
  repeat (intros;
          first
            [ match goal with H : context [preserves] |- _ => apply H end
            | apply preserves_ret | apply preserves_raise | apply preserves_lift
            | apply preserves_bind | apply preserves_try_except
            | apply preserves_for_each | apply preserves_for_fold
            | apply preserves_repeat_M
            | match goal with
              | |- preserves _ (match ?x with _ => _ end) => destruct x
              | |- preserves _ (if ?x then _ else _) => destruct x
              end
            | solve [preserves_primitive] ]).

Lemma build_scad_preserves_guard (self : Project) (args : Args) :
  preserves single_run_guard (build_scad self args).
Proof. unfold build_scad, scad_step. preserves_structure. Qed.

Lemma build_scad_preserves_spawned (self : Project) (args : Args) :
  preserves spawned (build_scad self args).
Proof. unfold build_scad, scad_step. preserves_structure. Qed.

Lemma _get_files_hash_preserves_guard (env : Env) (filenames : list string) :
  preserves single_run_guard (_get_files_hash env filenames).
Proof. unfold _get_files_hash, hash_file. preserves_structure. Qed.

Lemma _read_cache_preserves_guard (env : Env) (path : string) :
  preserves single_run_guard (_read_cache env path).
Proof. unfold _read_cache. preserves_structure. Qed.

Lemma _read_cache_preserves_spawned (env : Env) (path : string) :
  preserves spawned (_read_cache env path).
Proof. unfold _read_cache. preserves_structure. Qed.

Lemma _read_cache_preserves_fs (env : Env) (path : string) :
  preserves fs (_read_cache env path).
Proof. unfold _read_cache. preserves_structure. Qed.

Lemma _write_cache_preserves_guard (env : Env) (path : string) (cache : pyval) :
  preserves single_run_guard (_write_cache env path cache).
Proof. unfold _write_cache. preserves_structure. Qed.

Lemma _write_cache_preserves_spawned (env : Env) (path : string) (cache : pyval) :
  preserves spawned (_write_cache env path cache).
Proof. unfold _write_cache. preserves_structure. Qed.

Lemma stl_step_preserves_guard (env : Env) (args : Args) (cache : pyval)
    (part : string * option Geometry) :
  preserves single_run_guard (stl_step env args cache part).
Proof.
  pose proof (_get_files_hash_preserves_guard env).
  unfold stl_step, is_fresh, compile_and_record. preserves_structure.
Qed.

Lemma build_stl_preserves_guard (env : Env) (self : Project) (args : Args) :
  preserves single_run_guard (build_stl env self args).
Proof.
  pose proof (stl_step_preserves_guard env).
  pose proof (build_scad_preserves_guard self).
  pose proof (_read_cache_preserves_guard env).
  pose proof (_write_cache_preserves_guard env).
  unfold build_stl, stl_prelude. preserves_structure.
Qed.

Lemma watch_preserves_guard (env : Env) (args : Args) :
  preserves single_run_guard (watch env args).
Proof. unfold watch, real_scad_generator. preserves_structure. Qed.

Lemma dispatch_preserves_guard (env : Env) (self : Project) :
  preserves single_run_guard (dispatch env self).
Proof.
  pose proof (build_stl_preserves_guard env self).
  pose proof (build_scad_preserves_guard self).
  pose proof (watch_preserves_guard env).
  unfold dispatch. preserves_structure.
Qed.

(** ** The run guard *)

(** C9. Whatever a call of [run] does and however it ends, it leaves the
    guard set, and with the guard set [run] returns at once and changes
    nothing. So the body runs at most once: on the first call, which after
    setting the guard is exactly the dispatch. *)
Theorem run_body_executes_at_most_once
    (env : Env) (self : Project) (w : World) (r : outcome unit) (w1 : World) :
  run env self w = (r, w1) ->
  single_run_guard w1 = true
  /\ (forall other, run env other w1 = (Ok tt, w1))
  /\ (single_run_guard w = true -> r = Ok tt /\ w1 = w)
  /\ (single_run_guard w = false -> dispatch env self (guarded w) = (r, w1)).
Proof.
  intros Hrun.
  assert (Hset : single_run_guard w1 = true).
  { unfold run in Hrun. destruct (single_run_guard w) eqn:Hg.
    - now inversion Hrun; subst.
    - unfold bind, set_single_run_guard in Hrun.
      now rewrite (dispatch_preserves_guard env self _ _ _ Hrun). }
  split; [exact Hset |]. split; [| split].
  - intros other. unfold run. now rewrite Hset.
  - intros Hg. unfold run in Hrun. rewrite Hg in Hrun. now inversion Hrun.
  - intros Hg. unfold run in Hrun. rewrite Hg in Hrun. exact Hrun.
Qed.

(** ** The [{:.4f}] format *)

Lemma all_digits_string_of_uint (d : Decimal.uint) :
  all_digits (NilEmpty.string_of_uint d) = true.
Proof. induction d; simpl; auto. Qed.

Lemma dec_digits (n : Z) : all_digits (dec n) = true /\ dec n <> "".
Proof.
  unfold dec, NilZero.string_of_uint.
  destruct (N.to_uint (Z.to_N n)) as [|d|d|d|d|d|d|d|d|d|d] eqn:Hd;
    (split; [| simpl; discriminate]);
    first [reflexivity | rewrite <- Hd at 1 | idtac];
    try (simpl; apply all_digits_string_of_uint).
Qed.




(** The integer chosen by [round_half_even] is a nearest one. *)
Lemma round_half_even_nearest (num den : Z) :
  0 < den -> 2 * Z.abs (round_half_even num den * den - num) <= den.
Proof.
  intros Hden. unfold round_half_even.
  pose proof (Z.div_mod num den ltac:(lia)) as Hdm.
  pose proof (Z.mod_pos_bound num den Hden) as Hb.
  destruct (Z.compare_spec (2 * (num mod den)) den) as [Heq | Hlt | Hgt];
    [destruct (Z.even (num / den)) | |]; nia.
Qed.

(** The four decimals are those of the double, correctly rounded: exact
    for a non-negative exponent, within half a ten-thousandth otherwise. *)
Lemma ten_thousandths_nearest (m : positive) (e : Z) :
  if 0 <=? e then ten_thousandths m e = Z.pos m * 2 ^ e * 10000
  else 2 * Z.abs (ten_thousandths m e * 2 ^ (- e) - Z.pos m * 10000) <= 2 ^ (- e).
Proof.
  unfold ten_thousandths. destruct (0 <=? e) eqn:He; [reflexivity |].
  apply round_half_even_nearest. apply Z.pow_pos_nonneg; lia.
Qed.







(** ** Emission of the description files *)

Lemma scad_step_ok (self : Project) (args : Args) (name text : string)
    (geometry : Geometry) (w : World) :
  writable (fs w) (scad_path args name) ->
  config_lines self = Ok text ->
  scad_step self args (name, Some geometry) w
  = (Ok tt, written (scad_path args name) (text ++ to_string geometry)
              (logged INFO ("building " ++ name ++ ".scad") w)).
Proof.
  intros Hw Hc. unfold scad_step, bind, logger.
  rewrite (open_w_writable _ (logged _ _ w) Hw). unfold lift. rewrite Hc.
  rewrite <- (str_app_nil_r "") at 1.
  change (written (scad_path args name) ("" ++ "")) with (written (scad_path args name) "").
  rewrite (fp_write_written _ "" text). cbn [String.append].
  rewrite fp_write_written. reflexivity.
Qed.

(** What one step writes depends on the directories and refusals only;
    [u] holds the file it leaves, if any. *)
Lemma scad_step_effect (self : Project) (args : Args) (part : string * option Geometry)
    (refused directories : gset string) :
  exists (u : gmap string string) (r : outcome unit),
    forall v, denied (fs v) = refused -> dirs (fs v) = directories ->
      exists v', scad_step self args part v = (r, v')
                 /\ files (fs v') = u ∪ files (fs v)
                 /\ denied (fs v') = refused /\ dirs (fs v') = directories.
Proof.
  destruct part as [name model]. set (p := scad_path args name).
  destruct (decide (p ∈ refused)) as [Hd | Hd];
    [| destruct (decide (p ∈ directories)) as [Hr | Hr]].
  - exists ∅, (Raise PermissionError). intros v <- <-. eexists. split.
    + unfold scad_step, bind, logger, open_w. cbn. fold p.
      rewrite (bool_decide_eq_true_2 _ Hd). reflexivity.
    + cbn. now rewrite (left_id_L ∅ (∪)).
  - exists ∅, (Raise IsADirectoryError). intros v <- <-. eexists. split.
    + unfold scad_step, bind, logger, open_w. cbn. fold p.
      rewrite (bool_decide_eq_false_2 _ Hd), (bool_decide_eq_true_2 _ Hr). reflexivity.
    + cbn. now rewrite (left_id_L ∅ (∪)).
  - assert (Hopen : forall v, denied (fs v) = refused -> dirs (fs v) = directories ->
               forall lv msg, open_w p (logged lv msg v) = (Ok tt, written p "" (logged lv msg v))).
    { intros v <- <- lv msg. apply open_w_writable. split; assumption. }
    destruct (config_lines self) as [text | e] eqn:Hc;
      [destruct model as [geometry |] |].
    + exists {[p := text ++ to_string geometry]}, (Ok tt). intros v Hv1 Hv2.
      eexists. split; [apply scad_step_ok; [subst; split; assumption | exact Hc] |].
      cbn. now rewrite insert_union_singleton_l.
    + exists {[p := text]}, (Raise AttributeError). intros v Hv1 Hv2.
      eexists. split.
      * unfold scad_step, bind, logger. fold p. rewrite (Hopen v Hv1 Hv2).
        unfold lift. rewrite Hc. rewrite (fp_write_written p "" text). reflexivity.
      * cbn. now rewrite insert_union_singleton_l.
    + exists {[p := ""]}, (Raise e). intros v Hv1 Hv2. eexists. split.
      * unfold scad_step, bind, logger. fold p. rewrite (Hopen v Hv1 Hv2).
        unfold lift. rewrite Hc. reflexivity.
      * cbn. now rewrite insert_union_singleton_l.
Qed.

Lemma scad_loop_effect (self : Project) (args : Args) (ps : list (string * option Geometry))
    (refused directories : gset string) :
  exists (u : gmap string string) (r : outcome unit),
    forall v, denied (fs v) = refused -> dirs (fs v) = directories ->
      exists v', for_each (scad_step self args) ps v = (r, v')
                 /\ files (fs v') = u ∪ files (fs v)
                 /\ denied (fs v') = refused /\ dirs (fs v') = directories.
Proof.
  induction ps as [|part ps IH].
  - exists ∅, (Ok tt). intros v Hv1 Hv2. exists v. cbn.
    now rewrite (left_id_L ∅ (∪)).
  - destruct (scad_step_effect self args part refused directories) as (u1 & r1 & H1).
    destruct IH as (u2 & r2 & H2).
    destruct r1 as [[] | e].
    + exists (u2 ∪ u1), r2. intros v Hv1 Hv2.
      destruct (H1 v Hv1 Hv2) as (v1 & Hs & Hf & Hd & Hr).
      destruct (H2 v1 Hd Hr) as (v2 & Hs2 & Hf2 & Hd2 & Hr2).
      exists v2. cbn. unfold bind. rewrite Hs. split; [exact Hs2 |].
      rewrite Hf2, Hf. now rewrite (assoc_L (∪)).
    + exists u1, (Raise e). intros v Hv1 Hv2.
      destruct (H1 v Hv1 Hv2) as (v1 & Hs & Hf & Hd & Hr).
      exists v1. cbn. unfold bind. rewrite Hs. auto.
Qed.

Lemma fs_exists_union (s s' : FS) (u : gmap string string) (p : string) :
  files s' = u ∪ files s -> dirs s' = dirs s ->
  fs_exists s p = true -> fs_exists s' p = true.
Proof.
  unfold fs_exists. intros Hf Hd [H | H]%orb_prop; apply orb_true_intro.
  - left. apply bool_decide_eq_true in H. apply bool_decide_eq_true.
    rewrite Hf, dom_union. apply elem_of_union. now right.
  - right. now rewrite Hd.
Qed.

Lemma FS_eq (a b : FS) :
  files a = files b -> dirs a = dirs b -> denied a = denied b -> a = b.
Proof. destruct a, b. cbn. now intros -> -> ->. Qed.

(** C8. Emitting the descriptions twice in a row, with the same parts and
    resolution parameters, leaves after the second run exactly the files
    the first run left: every description file is byte for byte the
    same, and the second run ends as the first did. *)
Theorem emission_is_idempotent
    (self : Project) (args : Args) (w w1 w2 : World) (r1 r2 : outcome unit) :
  build_scad self args w = (r1, w1) ->
  build_scad self args w1 = (r2, w2) ->
  fs w2 = fs w1
  /\ r2 = r1
  /\ (forall name, files (fs w2) !! scad_path args name
                   = files (fs w1) !! scad_path args name).
Proof.
  intros H1 H2.
  assert (Hgoal : fs w2 = fs w1 /\ r2 = r1); [| destruct Hgoal as [-> ->]; auto].
  unfold build_scad, bind, path_exists in H1.
  destruct (fs_exists (fs w) (scad_directory args)) eqn:Hex; cbn [negb] in H1.
  - (* the directory was there *)
    cbn in H1.
    destruct (scad_loop_effect self args (parts self) (denied (fs w)) (dirs (fs w)))
      as (u & r & Hloop).
    destruct (Hloop w eq_refl eq_refl) as (v1 & Hv1 & Hf1 & Hd1 & Hr1).
    rewrite Hv1 in H1. inversion H1; subst r1 w1; clear H1.
    unfold build_scad, bind, path_exists in H2.
    rewrite (fs_exists_union _ _ _ _ Hf1 Hr1 Hex) in H2. cbn in H2.
    destruct (Hloop v1 Hd1 Hr1) as (v2 & Hv2 & Hf2 & Hd2 & Hr2).
    rewrite Hv2 in H2. inversion H2; subst r2 w2; clear H2.
    split; [| reflexivity]. apply FS_eq; [| congruence | congruence].
    rewrite Hf2, Hf1. now rewrite (assoc_L (∪)), (idemp_L (∪)).
  - (* the directory has to be made *)
    unfold makedirs in H1. rewrite Hex in H1.
    destruct (String.eqb (scad_directory args) "") eqn:Hempty.
    { inversion H1; subst r1 w1. unfold build_scad, bind, path_exists, makedirs in H2.
      rewrite Hex in H2. cbn [negb] in H2. rewrite Hempty in H2.
      now inversion H2. }
    destruct (bool_decide (scad_directory args ∈ denied (fs w))) eqn:Hden.
    { inversion H1; subst r1 w1. unfold build_scad, bind, path_exists, makedirs in H2.
      rewrite Hex in H2. cbn [negb] in H2. rewrite Hempty, Hden in H2.
      now inversion H2. }
    set (wd := with_fs (fun s => mkFS (files s) ({[scad_directory args]} ∪ dirs s) (denied s)) w)
      in H1.
    destruct (scad_loop_effect self args (parts self) (denied (fs wd)) (dirs (fs wd)))
      as (u & r & Hloop).
    destruct (Hloop wd eq_refl eq_refl) as (v1 & Hv1 & Hf1 & Hd1 & Hr1).
    rewrite Hv1 in H1. inversion H1; subst r1 w1; clear H1.
    assert (Hex1 : fs_exists (fs v1) (scad_directory args) = true).
    { unfold fs_exists. apply orb_true_intro. right. apply bool_decide_eq_true.
      rewrite Hr1. cbn. apply elem_of_union. left. now apply elem_of_singleton. }
    unfold build_scad, bind, path_exists in H2. rewrite Hex1 in H2. cbn in H2.
    destruct (Hloop v1 Hd1 Hr1) as (v2 & Hv2 & Hf2 & Hd2 & Hr2).
    rewrite Hv2 in H2. inversion H2; subst r2 w2; clear H2.
    split; [| reflexivity]. apply FS_eq; [| congruence | congruence].
    rewrite Hf2, Hf1. now rewrite (assoc_L (∪)), (idemp_L (∪)).
Qed.

Lemma scad_loop_ok (self : Project) (args : Args) (text : string)
    (ps : list (string * option Geometry)) (w : World) :
  config_lines self = Ok text ->
  (forall name model, In (name, model) ps ->
     model <> None /\ writable (fs w) (scad_path args name)) ->
  exists w',
    for_each (scad_step self args) ps w = (Ok tt, w')
    /\ dirs (fs w') = dirs (fs w) /\ denied (fs w') = denied (fs w)
    /\ (forall p, ~ In p (map (scad_path args) (dict_keys ps)) ->
          files (fs w') !! p = files (fs w) !! p)
    /\ (List.NoDup (map (scad_path args) (dict_keys ps)) ->
        forall name geometry, In (name, Some geometry) ps ->
          files (fs w') !! scad_path args name = Some (text ++ to_string geometry)).
Proof.
  intros Hc. revert w. induction ps as [|[name model] ps IH]; intros w Hps.
  - exists w. cbn. repeat split; auto. intros _ ? ? [].
  - destruct (Hps name model (or_introl eq_refl)) as [Hmodel Hw].
    destruct model as [geometry |]; [| congruence].
    set (w1 := written (scad_path args name) (text ++ to_string geometry)
                 (logged INFO ("building " ++ name ++ ".scad") w)).
    destruct (IH w1) as (w' & Hrun & Hdirs & Hden & Hother & Hmine).
    { intros n m Hin. destruct (Hps n m (or_intror Hin)) as [Hm Hwn]. split; [exact Hm |].
      exact Hwn. }
    exists w'. split.
    { cbn [for_each]. unfold bind. rewrite (scad_step_ok _ _ _ _ _ _ Hw Hc). exact Hrun. }
    split; [exact Hdirs |]. split; [exact Hden |]. split.
    + intros p Hp. unfold dict_keys in *. cbn [map fst In] in Hp.
      rewrite Hother by tauto.
      unfold w1, written. cbn. apply lookup_insert_ne. intros Heq. apply Hp. now left.
    + intros Hnd n g Hin. unfold dict_keys in *. cbn [map fst] in Hnd.
      apply NoDup_cons_iff in Hnd as [Hfresh Hnd].
      destruct Hin as [[= -> ->] | Hin].
      * rewrite (Hother _ Hfresh). unfold w1, written. cbn. apply lookup_insert_eq.
      * now apply Hmine.
Qed.



(** *** Paths of parts with relative names *)

Lemma str_app_cancel_r (a b c : string) : a ++ c = b ++ c -> a = b.
Proof.
  revert b; induction a as [|x a IH]; intros [|y b] H.
  - reflexivity.
  - apply (f_equal String.length) in H. cbn in H. rewrite str_length_app in H. lia.
  - apply (f_equal String.length) in H. cbn in H. rewrite str_length_app in H. lia.
  - cbn in H. injection H as -> H. f_equal. now apply IH.
Qed.

Lemma starts_with_slash_app (name suffix : string) :
  starts_with "/" name = false -> starts_with "/" suffix = false ->
  starts_with "/" (name ++ suffix) = false.
Proof. destruct name as [|c name]; cbn; auto. Qed.

Lemma path_join_relative (d b : string) :
  starts_with "/" b = false ->
  path_join d b = (if String.eqb d "" || ends_with_char "/" d then d else d ++ "/") ++ b.
Proof.
  intros Hb. unfold path_join. rewrite Hb.
  destruct (String.eqb d "" || ends_with_char "/" d); [reflexivity |].
  now rewrite str_app_assoc.
Qed.

Lemma part_path_inj (d suffix : string) (n1 n2 : string) :
  starts_with "/" suffix = false ->
  starts_with "/" n1 = false -> starts_with "/" n2 = false ->
  path_join d (n1 ++ suffix) = path_join d (n2 ++ suffix) -> n1 = n2.
Proof.
  intros Hs H1 H2.
  rewrite !path_join_relative by now apply starts_with_slash_app.
  intros H%String.app_inj. now apply str_app_cancel_r in H.
Qed.

(** Unique relative names give every part its own files. *)
Lemma relative_names_distinct_paths (args : Args) (ps : list (string * option Geometry)) :
  List.NoDup (dict_keys ps) ->
  Forall (fun name => starts_with "/" name = false) (dict_keys ps) ->
  distinct_paths args ps.
Proof.
  intros Hnd Hrel. unfold distinct_paths. generalize dependent (dict_keys ps).
  intros names Hnd Hrel.
  assert (Hgen : forall suffix, starts_with "/" suffix = false ->
            List.NoDup (map (fun n => path_join (scad_directory args) (n ++ suffix)) names)
            /\ List.NoDup (map (fun n => path_join (stl_directory args) (n ++ suffix)) names)).
  { intros suffix Hs. induction names as [|n names IH]; [split; constructor |].
    apply NoDup_cons_iff in Hnd as [Hfresh Hnd]. inversion Hrel as [|? ? Hn Hrest]; subst.
    destruct (IH Hnd Hrest) as [IH1 IH2]. split; cbn; constructor; auto.
    - intros (m & Heq & Hin)%in_map_iff. rewrite Forall_forall in Hrest.
      apply part_path_inj in Heq; [subst m; contradiction | assumption | | assumption].
      apply Hrest. now apply list_elem_of_In.
    - intros (m & Heq & Hin)%in_map_iff. rewrite Forall_forall in Hrest.
      apply part_path_inj in Heq; [subst m; contradiction | assumption | | assumption].
      apply Hrest. now apply list_elem_of_In. }
  split; [apply (Hgen ".scad" eq_refl) | apply (Hgen ".stl" eq_refl)].
Qed.

(** ** The artifact build, one part at a time *)

Lemma read_all_Forall2 (s : FS) (filenames contents : list string) :
  read_all s filenames = Some contents <->
  Forall2 (fun f c => fs_read s f = Ok c) filenames contents.
Proof.
  revert contents; induction filenames as [|f rest IH]; intros contents; cbn.
  - split; [intros [= <-]; constructor | intros H; now inversion H].
  - destruct (fs_read s f) as [c | e] eqn:Hf.
    + destruct (read_all s rest) as [cs |] eqn:Hr.
      * split.
        -- intros [= <-]. constructor; [exact Hf | now apply IH].
        -- intros H. inversion H as [|? c' ? cs' Hc Hcs]; subst.
           apply IH in Hcs. congruence.
      * split; [discriminate |]. intros H. inversion H as [|? c' ? cs' Hc Hcs]; subst.
        apply IH in Hcs. discriminate.
    + split; [discriminate |]. intros H. inversion H; congruence.
Qed.

Lemma read_all_None (s : FS) (filenames : list string) :
  read_all s filenames = None <-> exists f e, In f filenames /\ fs_read s f = Raise e.
Proof.
  induction filenames as [|f rest IH]; cbn.
  - split; [discriminate | intros (f & e & [] & _)].
  - destruct (fs_read s f) as [c | e] eqn:Hf.
    + destruct (read_all s rest) as [cs |] eqn:Hr.
      * split; [discriminate |]. intros (g & e & [<- | Hin] & Hg); [congruence |].
        assert (Hnone : Some cs = None) by (apply IH; eauto). discriminate.
      * split; [| reflexivity]. intros _.
        destruct (proj1 IH eq_refl) as (g & e & Hin & Hg). eauto.
    + split; [| reflexivity]. intros _. exists f, e. auto.
Qed.

(** [_get_files_hash] computes [files_fingerprint]; it changes neither
    the files nor the list of spawned processes. *)
Lemma _get_files_hash_spec (env : Env) (filenames : list string) (w : World) :
  exists w',
    _get_files_hash env filenames w
    = (Ok (files_fingerprint env (fs w) filenames (uuids_drawn w)), w')
    /\ fs w' = fs w /\ spawned w' = spawned w
    /\ (read_all (fs w) filenames <> None -> w' = w).
Proof.
  unfold files_fingerprint. destruct (read_all (fs w) filenames) as [cs |] eqn:Hr.
  - apply read_all_Forall2 in Hr. exists w.
    rewrite (_get_files_hash_digest env _ _ _ Hr). auto.
  - destruct (proj1 (read_all_None _ _) Hr) as (f & e & Hin & Hf).
    destruct (_get_files_hash_fallback env filenames w f e Hin Hf) as [e' Heq].
    eexists. split; [exact Heq |]. cbn. split; [reflexivity |]. split; [reflexivity |].
    congruence.
Qed.

Lemma cache_shaped_getitem (d : list (string * pyval)) (entries : list (string * pyval)) :
  dict_get "scad_cache" d = Some (VDict entries) ->
  py_getitem (VDict d) "scad_cache" = Ok (VDict entries).
Proof. intros H. cbn. now rewrite H. Qed.

(** Compilation of a part on a cache of the expected shape. *)
Lemma compile_and_record_cases (env : Env) (args : Args)
    (d entries : list (string * pyval)) (name : string) (v : World) :
  dict_get "scad_cache" d = Some (VDict entries) ->
  let scad := scad_path args name in
  let stl := stl_path args name in
  match subprocess_call env (compile_command args name) (fs v) with
  | None =>
      compile_and_record env args (VDict d) name v
      = (Raise OSError, called (compile_command args name) v)
  | Some (s', status) =>
      exists v',
        compile_and_record env args (VDict d) name v
        = (Ok (VDict (dict_set "scad_cache"
                        (VDict (dict_set scad
                                  (fingerprint_value
                                     (files_fingerprint env s' [scad; stl] (uuids_drawn v)))
                                  entries)) d)), v')
        /\ fs v' = s' /\ spawned v' = (spawned v ++ [compile_command args name])%list
  end.
Proof.
  intros Hd scad stl. unfold compile_and_record. fold scad stl.
  destruct (subprocess_call env (compile_command args name) (fs v)) as [[s' status] |]
    eqn:Hsub; unfold bind at 1; unfold call; rewrite Hsub; [| reflexivity].
  set (v1 := with_fs (fun _ => s') (called (compile_command args name) v)).
  destruct (_get_files_hash_spec env [scad; stl] v1) as (v' & Hh & Hfs' & Hsp' & _).
  exists v'. unfold bind. rewrite Hh. unfold lift. rewrite (cache_shaped_getitem _ _ Hd).
  cbn [py_setitem]. split; [reflexivity |]. split; [exact Hfs' |].
  rewrite Hsp'. reflexivity.
Qed.

(** The freshness check on a cache of the expected shape. *)
Lemma is_fresh_spec (env : Env) (args : Args) (d entries : list (string * pyval))
    (name : string) (w : World) :
  dict_get "scad_cache" d = Some (VDict entries) ->
  let scad := scad_path args name in
  let stl := stl_path args name in
  let hc := files_fingerprint env (fs w) [scad; stl] (uuids_drawn w) in
  exists v,
    is_fresh env args (VDict d) name w
    = (Ok (fs_exists (fs w) stl && negb (force args)
           && py_eq_fingerprint (default (VStr "") (dict_get scad entries)) hc), v)
    /\ fs v = fs w /\ spawned v = spawned w
    /\ (uuids_drawn v = uuids_drawn w \/ read_all (fs w) [scad; stl] = None).
Proof.
  intros Hd scad stl hc. unfold is_fresh. fold scad stl.
  unfold bind at 1. unfold path_exists.
  destruct (fs_exists (fs w) stl && negb (force args)) eqn:Hcheck.
  - destruct (_get_files_hash_spec env [scad; stl] w) as (v & Hh & Hfs & Hsp & Hsame).
    exists v. unfold bind. rewrite Hh. unfold lift.
    rewrite (cache_shaped_getitem _ _ Hd). cbn [py_get andb].
    replace (match dict_get scad entries with Some v0 => v0 | None => VStr "" end)
      with (default (VStr "") (dict_get scad entries))
      by (destruct (dict_get scad entries); reflexivity).
    split; [reflexivity |]. split; [exact Hfs |]. split; [exact Hsp |].
    destruct (read_all (fs w) [scad; stl]) eqn:Hr; [left | now right].
    now rewrite Hsame.
  - exists w. cbn [andb]. auto.
Qed.

(** *** Dictionaries and the shape of the cache *)

Lemma dict_get_set_eq {V} (k : string) (v : V) (d : list (string * V)) :
  dict_get k (dict_set k v d) = Some v.
Proof.
  induction d as [|[k' v'] d IH]; cbn.
  - now rewrite String.eqb_refl.
  - destruct (String.eqb k k') eqn:Hk; cbn; rewrite Hk; [reflexivity | exact IH].
Qed.

Lemma dict_get_set_ne {V} (k k' : string) (v : V) (d : list (string * V)) :
  k <> k' -> dict_get k' (dict_set k v d) = dict_get k' d.
Proof.
  intros Hne. induction d as [|[k0 v0] d IH]; cbn.
  - apply String.eqb_neq in Hne. rewrite String.eqb_sym. now rewrite Hne.
  - destruct (String.eqb k k0) eqn:Hk; cbn.
    + apply String.eqb_eq in Hk. subst k0.
      assert (Hf : String.eqb k' k = false) by (apply String.eqb_neq; congruence).
      now rewrite Hf.
    + now rewrite IH.
Qed.

Lemma dict_get_In {V} (k : string) (v : V) (d : list (string * V)) :
  dict_get k d = Some v -> In (k, v) d.
Proof.
  induction d as [|[k' v'] d IH]; cbn; [discriminate |].
  destruct (String.eqb_spec k k') as [<- | _].
  - intros [= <-]. now left.
  - intros H. right. now apply IH.
Qed.

Lemma dict_keys_set {V} (k : string) (v : V) (d : list (string * V)) :
  dict_keys (dict_set k v d) = dict_keys d \/
  dict_keys (dict_set k v d) = (dict_keys d ++ [k])%list.
Proof.
  unfold dict_keys. induction d as [|[k' v'] d IH]; cbn; [now right |].
  destruct (String.eqb k k'); cbn; [now left |].
  destruct IH as [-> | ->]; auto.
Qed.

Lemma cache_entry_shaped (d entries : list (string * pyval)) (key : string) :
  dict_get "scad_cache" d = Some (VDict entries) ->
  cache_entry (VDict d) key = dict_get key entries.
Proof. intros H. cbn. now rewrite H. Qed.

(** Recording a fingerprint: the entry under the key is the value, every
    other entry is as before. *)
Lemma cache_recorded (d entries : list (string * pyval)) (key : string) (value : pyval) :
  dict_get "scad_cache" d = Some (VDict entries) ->
  let cache' := VDict (dict_set "scad_cache" (VDict (dict_set key value entries)) d) in
  cache_shaped cache'
  /\ cache_entry cache' key = Some value
  /\ (forall other, other <> key -> cache_entry cache' other = cache_entry (VDict d) other).
Proof.
  intros Hd cache'.
  assert (Hnew : dict_get "scad_cache" (dict_set "scad_cache"
                   (VDict (dict_set key value entries)) d)
                 = Some (VDict (dict_set key value entries))) by apply dict_get_set_eq.
  split; [eexists; eexists; split; [reflexivity | exact Hnew] |].
  split.
  - unfold cache', cache_entry. rewrite Hnew. apply dict_get_set_eq.
  - intros other Hne. unfold cache', cache_entry. rewrite Hnew, Hd.
    now apply dict_get_set_ne.
Qed.

(** *** Description paths and artifact paths never coincide *)

Lemma last_char_app (a b : string) : b <> "" -> last_char (a ++ b) = last_char b.
Proof.
  intros Hb. induction a as [|c a IH]; [reflexivity |].
  cbn [String.append last_char]. rewrite IH.
  destruct (a ++ b) eqn:Hab; [| reflexivity].
  destruct a, b; cbn in Hab; congruence.
Qed.

Lemma last_char_path_join (a b : string) :
  b <> "" -> last_char (path_join a b) = last_char b.
Proof.
  intros Hb. unfold path_join. destruct (starts_with "/" b); [reflexivity |].
  destruct (String.eqb a "" || ends_with_char "/" a).
  - now apply last_char_app.
  - rewrite last_char_app; [now apply (last_char_app "/") |].
    destruct b; cbn; congruence.
Qed.

Lemma scad_path_not_stl_path (args : Args) (n n' : string) :
  scad_path args n <> stl_path args n'.
Proof.
  intros H. apply (f_equal last_char) in H. unfold scad_path, stl_path in H.
  rewrite !last_char_path_join in H by (destruct n; destruct n'; cbn; congruence).
  rewrite !last_char_app in H by discriminate. discriminate.
Qed.

(** *** One step of the loop *)

(** Every way a step can end on a cache of the expected shape: the part
    is skipped, or compiled and recorded, or the compiler fails to start. *)
Lemma stl_step_summary (env : Env) (args : Args) (cache : pyval)
    (part : string * option Geometry) (w : World) (r : outcome pyval) (w' : World) :
  cache_shaped cache ->
  stl_step env args cache part w = (r, w') ->
  let scad := scad_path args (fst part) in
  let stl := stl_path args (fst part) in
  let command := compile_command args (fst part) in
  (r = Ok cache /\ fs w' = fs w /\ spawned w' = spawned w
   /\ force args = false /\ fs_exists (fs w) stl = true
   /\ py_eq_fingerprint (default (VStr "") (cache_entry cache scad))
        (files_fingerprint env (fs w) [scad; stl] (uuids_drawn w)) = true)
  \/ (exists status n cache',
        subprocess_call env command (fs w) = Some (fs w', status)
        /\ spawned w' = (spawned w ++ [command])%list
        /\ r = Ok cache' /\ cache_shaped cache'
        /\ cache_entry cache' scad
           = Some (fingerprint_value (files_fingerprint env (fs w') [scad; stl] n))
        /\ (forall key, key <> scad -> cache_entry cache' key = cache_entry cache key))
  \/ (subprocess_call env command (fs w) = None
      /\ r = Raise OSError /\ fs w' = fs w
      /\ spawned w' = (spawned w ++ [command])%list).
Proof.
  intros (d & entries & -> & Hd) Hstep scad stl command.
  unfold stl_step in Hstep. unfold bind at 1 in Hstep. unfold logger in Hstep.
  set (w0 := logged INFO ("building " ++ fst part ++ ".stl") w) in Hstep.
  destruct (is_fresh_spec env args d entries (fst part) w0 Hd) as (v & Hfresh & Hfs & Hsp & _).
  change (fs w0) with (fs w) in *. change (spawned w0) with (spawned w) in *.
  change (uuids_drawn w0) with (uuids_drawn w) in *.
  unfold bind at 1 in Hstep. rewrite Hfresh in Hstep. fold scad stl in Hstep.
  rewrite (cache_entry_shaped _ _ _ Hd).
  destruct (fs_exists (fs w) stl && negb (force args)
            && py_eq_fingerprint (default (VStr "") (dict_get scad entries))
                 (files_fingerprint env (fs w) [scad; stl] (uuids_drawn w))) eqn:Hb.
  - left. inversion Hstep; subst r w'.
    apply andb_prop in Hb as [[Hex Hforce]%andb_prop Heq].
    apply negb_true_iff in Hforce. auto 10.
  - right.
    pose proof (compile_and_record_cases env args d entries (fst part) v Hd) as Hc.
    cbn zeta in Hc. fold scad stl command in Hc. rewrite Hfs in Hc.
    destruct (subprocess_call env command (fs w)) as [[s' status] |] eqn:Hsub.
    + left. destruct Hc as (v' & Hrun & Hfs' & Hsp').
      rewrite Hrun in Hstep. inversion Hstep; subst r w'.
      destruct (cache_recorded d entries scad
                  (fingerprint_value (files_fingerprint env s' [scad; stl] (uuids_drawn v))) Hd)
        as (Hshape & Hentry & Hothers).
      exists status, (uuids_drawn v). eexists.
      split; [now rewrite Hfs' |]. split; [now rewrite Hsp', Hsp |].
      split; [reflexivity |]. split; [exact Hshape |].
      split; [now rewrite Hfs' |].
      intros key Hkey. now rewrite (Hothers key Hkey).
    + right. rewrite Hc in Hstep. inversion Hstep; subst r w'.
      cbn. rewrite Hfs, Hsp. auto.
Qed.

(** A part that is up to date is skipped. *)
Lemma stl_step_skips (env : Env) (args : Args) (cache : pyval) (name : string)
    (model : option Geometry) (w : World) :
  force args = false ->
  up_to_date env args cache (fs w) name ->
  exists v, stl_step env args cache (name, model) w = (Ok cache, v)
            /\ fs v = fs w /\ spawned v = spawned w.
Proof.
  intros Hforce (Hex & c1 & c2 & Hr1 & Hr2 & (d & entries & -> & Hd) & Hentry).
  rewrite (cache_entry_shaped _ _ _ Hd) in Hentry.
  unfold stl_step. unfold bind at 1. unfold logger.
  set (w0 := logged INFO ("building " ++ fst (name, model) ++ ".stl") w).
  destruct (is_fresh_spec env args d entries name w0 Hd) as (v & Hfresh & Hfs & Hsp & _).
  change (fs w0) with (fs w) in *. change (spawned w0) with (spawned w) in *.
  cbn [fst]. unfold bind at 1. rewrite Hfresh. rewrite Hex, Hforce, Hentry.
  unfold files_fingerprint. cbn [read_all]. rewrite Hr1, Hr2.
  cbn -[message sha256_hexdigest compile_and_record]. rewrite String.eqb_refl.
  exists v. auto.
Qed.

(** *** Processes spawned by the loop *)

Lemma _get_files_hash_preserves_spawned (env : Env) (filenames : list string) :
  preserves spawned (_get_files_hash env filenames).
Proof. unfold _get_files_hash, hash_file. preserves_structure. Qed.

Lemma is_fresh_preserves_spawned (env : Env) (args : Args) (cache : pyval) (name : string) :
  preserves spawned (is_fresh env args cache name).
Proof.
  pose proof (_get_files_hash_preserves_spawned env).
  unfold is_fresh. preserves_structure.
Qed.

Lemma compile_and_record_spawned (env : Env) (args : Args) (cache : pyval) (name : string)
    (v : World) (r : outcome pyval) (v' : World) :
  compile_and_record env args cache name v = (r, v') ->
  spawned v' = (spawned v ++ [compile_command args name])%list.
Proof.
  unfold compile_and_record. unfold bind at 1. unfold call.
  destruct (subprocess_call env (compile_command args name) (fs v)) as [[s' status] |].
  - intros Hrest.
    assert (Hp : preserves spawned
              (hc <- _get_files_hash env [scad_path args name; stl_path args name] ;;
               scad_cache <- lift (py_getitem cache "scad_cache") ;;
               scad_cache <- lift (py_setitem scad_cache (scad_path args name)
                                     (fingerprint_value hc)) ;;
               lift (py_setitem cache "scad_cache" scad_cache))%py).
    { pose proof (_get_files_hash_preserves_spawned env). preserves_structure. }
    now rewrite (Hp _ _ _ Hrest).
  - now intros [= _ <-].
Qed.

Lemma stl_step_spawned (env : Env) (args : Args) (cache : pyval)
    (part : string * option Geometry) (w : World) (r : outcome pyval) (w' : World) :
  stl_step env args cache part w = (r, w') ->
  spawned w' = spawned w \/
  spawned w' = (spawned w ++ [compile_command args (fst part)])%list.
Proof.
  unfold stl_step. unfold bind at 1. unfold logger.
  set (w0 := logged INFO ("building " ++ fst part ++ ".stl") w).
  unfold bind. destruct (is_fresh env args cache (fst part) w0) as [[fresh | e] v] eqn:Hf.
  - pose proof (is_fresh_preserves_spawned env args cache (fst part) _ _ _ Hf) as Hsp.
    change (spawned w0) with (spawned w) in Hsp.
    destruct fresh.
    + intros [= _ <-]. now left.
    + intros Hc%compile_and_record_spawned. right. now rewrite Hc, Hsp.
  - pose proof (is_fresh_preserves_spawned env args cache (fst part) _ _ _ Hf) as Hsp.
    intros [= _ <-]. now left.
Qed.

(** The loop spawns nothing but compilations of the parts it walks. *)
Lemma stl_loop_spawned (env : Env) (args : Args) (ps : list (string * option Geometry))
    (cache : pyval) (w : World) (r : outcome pyval) (w' : World) :
  for_fold (stl_step env args) ps cache w = (r, w') ->
  exists new,
    spawned w' = (spawned w ++ new)%list
    /\ forall c, In c new -> exists n, In n (dict_keys ps) /\ c = compile_command args n.
Proof.
  revert cache w; induction ps as [|part ps IH]; intros cache w; cbn [for_fold].
  - intros [= _ <-]. exists []. split; [now rewrite app_nil_r | intros c []].
  - unfold bind. destruct (stl_step env args cache part w) as [[cache1 | e] w1] eqn:Hs.
    + intros Hrest. destruct (IH _ _ Hrest) as (new & Hnew & Hin).
      destruct (stl_step_spawned _ _ _ _ _ _ _ Hs) as [Hsp | Hsp].
      * exists new. rewrite Hnew, Hsp. split; [reflexivity |].
        intros c Hc. destruct (Hin c Hc) as (n & Hn & ->). exists n. split; [now right | easy].
      * exists (compile_command args (fst part) :: new). rewrite Hnew, Hsp.
        split; [now rewrite <- app_assoc |].
        intros c [<- | Hc]; [exists (fst part); split; [now left | easy] |].
        destruct (Hin c Hc) as (n & Hn & ->). exists n. split; [now right | easy].
    + intros [= _ <-]. destruct (stl_step_spawned _ _ _ _ _ _ _ Hs) as [Hsp | Hsp].
      * exists []. split; [now rewrite app_nil_r | intros c []].
      * exists [compile_command args (fst part)]. split; [exact Hsp |].
        intros c [<- | []]. exists (fst part). split; [now left | easy].
Qed.


(** *** The loop and a part that is up to date *)



(** *** The loop under the force flag *)


(** *** The whole build *)

Lemma stl_prelude_preserves_spawned (env : Env) (self : Project) (args : Args) :
  preserves spawned (stl_prelude env self args).
Proof.
  pose proof (build_scad_preserves_spawned self).
  pose proof (_read_cache_preserves_spawned env).
  unfold stl_prelude. preserves_structure.
Qed.

Lemma build_stl_after_prelude (env : Env) (self : Project) (args : Args)
    (w w0 : World) (cache : pyval) :
  stl_prelude env self args w = (Ok cache, w0) ->
  build_stl env self args w
  = match for_fold (stl_step env args) (parts self) cache w0 with
    | (Ok cache', w1) => _write_cache env (cache_file args) cache' w1
    | (Raise e, w1) => (Raise e, w1)
    end.
Proof. intros Hp. unfold build_stl. unfold bind. now rewrite Hp. Qed.


(** C1, as the code has it. The freshness check of a part consults the
    cache entry under the path of the part's description file, and the
    fingerprint taken after the part is compiled is recorded under that
    same description path; every other entry, the one under the artifact
    path included, stays as it was. So [scad_cache] maps the paths of
    description files to fingerprints. *)
Theorem fingerprint_is_keyed_by_description_path
    (env : Env) (args : Args) (cache : pyval) (name : string) (w : World) :
  cache_shaped cache ->
  let scad := scad_path args name in
  let stl := stl_path args name in
  scad <> stl
  /\ (exists v,
        is_fresh env args cache name w
        = (Ok (fs_exists (fs w) stl && negb (force args)
               && py_eq_fingerprint (default (VStr "") (cache_entry cache scad))
                    (files_fingerprint env (fs w) [scad; stl] (uuids_drawn w))), v))
  /\ (forall s' status,
        subprocess_call env (compile_command args name) (fs w) = Some (s', status) ->
        exists cache' w',
          compile_and_record env args cache name w = (Ok cache', w')
          /\ fs w' = s'
          /\ cache_entry cache' scad
             = Some (fingerprint_value
                       (files_fingerprint env s' [scad; stl] (uuids_drawn w)))
          /\ cache_entry cache' stl = cache_entry cache stl
          /\ (forall key, key <> scad -> cache_entry cache' key = cache_entry cache key)).
Proof.
  intros (d & entries & -> & Hd) scad stl.
  assert (Hne : scad <> stl) by apply scad_path_not_stl_path.
  split; [exact Hne |]. split.
  - destruct (is_fresh_spec env args d entries name w Hd) as (v & Hf & _).
    exists v. now rewrite (cache_entry_shaped _ _ _ Hd).
  - intros s' status Hsub.
    pose proof (compile_and_record_cases env args d entries name w Hd) as Hc.
    cbn zeta in Hc. rewrite Hsub in Hc. destruct Hc as (w' & Hrun & Hfs & _).
    destruct (cache_recorded d entries scad
                (fingerprint_value (files_fingerprint env s' [scad; stl] (uuids_drawn w))) Hd)
      as (_ & Hentry & Hothers).
    eexists. exists w'. split; [exact Hrun |]. split; [exact Hfs |].
    split; [exact Hentry |]. split; [apply Hothers; congruence | exact Hothers].
Qed.

(** ** The encoder and what it leaves behind when it fails *)

Lemma pyval_nested_ind (P : pyval -> Prop) :
  P VNone -> (forall b, P (VBool b)) -> (forall z, P (VInt z)) ->
  (forall f, P (VFloat f)) -> (forall s, P (VStr s)) ->
  (forall l, Forall P l -> P (VList l)) ->
  (forall d, Forall (fun kv => P (snd kv)) d -> P (VDict d)) ->
  (forall u, P (VUuid u)) ->
  forall v, P v.
Proof.
  intros Hnone Hbool Hint Hfloat Hstr Hlist Hdict Huuid.
  fix IH 1.
  intros [| b | z | f | s | l | d | u];
    [exact Hnone | apply Hbool | apply Hint | apply Hfloat | apply Hstr | | | apply Huuid].
  - apply Hlist. revert l. fix IHl 1. intros [|x l]; constructor; [apply IH | apply IHl].
  - apply Hdict. revert d. fix IHd 1. intros [|[k x] d]; constructor; [apply IH | apply IHd].
Qed.

Lemma emit_then_emit (s : string) (b : emitted) :
  emit_then (emit s) b = (s ++ fst b, snd b).
Proof. reflexivity. Qed.

Lemma emit_then_failed (s : string) (e : exn) (b : emitted) :
  emit_then (s, Some e) b = (s, Some e).
Proof. reflexivity. Qed.

Lemma emit_then_ok (s : string) (b : emitted) :
  emit_then (s, None) b = (s ++ fst b, snd b).
Proof. reflexivity. Qed.

Lemma iterencode_dict (float_repr : spec_float -> string) (d : list (string * pyval)) :
  d <> [] ->
  iterencode float_repr (VDict d)
  = emit_then (emit "{") (encode_members (iterencode float_repr) true d).
Proof. destruct d; [congruence | reflexivity]. Qed.

Lemma iterencode_list (float_repr : spec_float -> string) (l : list pyval) :
  l <> [] ->
  iterencode float_repr (VList l)
  = emit_then (emit "[") (encode_items (iterencode float_repr) true l).
Proof. destruct l; [congruence | reflexivity]. Qed.

Lemma encode_members_fails (enc : pyval -> emitted) (first : bool)
    (d : list (string * pyval)) (k : string) (v : pyval) :
  In (k, v) d -> snd (enc v) <> None -> snd (encode_members enc first d) <> None.
Proof.
  intros Hin Hv. revert first. induction d as [|[k0 x] d IH]; intros first; [destruct Hin |].
  cbn [encode_members]. rewrite emit_then_emit. cbn [snd].
  destruct (enc x) as [xt [e |]] eqn:Hx.
  - rewrite emit_then_failed. cbn. discriminate.
  - rewrite emit_then_ok. cbn [snd]. destruct Hin as [[= -> ->] | Hin].
    + rewrite Hx in Hv. now cbn in Hv.
    + now apply IH.
Qed.

(** A mapping that holds a [UUID] under [scad_cache] cannot be
    serialized. *)
Lemma iterencode_fails_on_uuid (float_repr : spec_float -> string) (cache : pyval)
    (key : string) (u : N) :
  cache_entry cache key = Some (VUuid u) ->
  snd (iterencode float_repr cache) <> None.
Proof.
  unfold cache_entry. destruct cache as [| | | | | | d |]; try discriminate.
  destruct (dict_get "scad_cache" d) as [[| | | | | | entries |] |] eqn:Hd; try discriminate.
  intros Hentry. apply dict_get_In in Hd. apply dict_get_In in Hentry.
  rewrite iterencode_dict by (intros ->; destruct Hd).
  rewrite emit_then_emit. cbn [snd].
  apply (encode_members_fails _ _ _ _ _ Hd).
  rewrite iterencode_dict by (intros ->; destruct Hentry).
  rewrite emit_then_emit. cbn [snd].
  apply (encode_members_fails _ _ _ _ _ Hentry). cbn. discriminate.
Qed.

Lemma ends_with_refl (s : string) : ends_with s s = true.
Proof. destruct s; cbn; [reflexivity |]. now rewrite Ascii.eqb_refl, String.eqb_refl. Qed.

Lemma ends_with_app (suffix pre t : string) :
  ends_with suffix t = true -> ends_with suffix (pre ++ t) = true.
Proof.
  intros Ht. induction pre as [|c pre IH]; [exact Ht |].
  cbn [String.append ends_with]. rewrite IH. apply orb_true_r.
Qed.

Lemma ends_open_app (pre t : string) : ends_open t = true -> ends_open (pre ++ t) = true.
Proof.
  unfold ends_open. intros [[H | H]%orb_prop | H]%orb_prop;
    rewrite (ends_with_app _ pre _ H); rewrite ?orb_true_r; reflexivity.
Qed.

Lemma ends_open_after (pre t separator : string) :
  ends_open separator = true -> dangling t -> ends_open (pre ++ separator ++ t) = true.
Proof.
  intros Hsep [-> | Ht].
  - rewrite str_app_nil_r. now apply ends_open_app.
  - now apply ends_open_app, ends_open_app.
Qed.

(** When the encoder stops at a value it cannot serialize, it raises
    [TypeError] and the text it has emitted is dangling. *)
Lemma iterencode_failure_dangling (float_repr : spec_float -> string) (v : pyval) :
  forall text e, iterencode float_repr v = (text, Some e) ->
                 dangling text /\ e = TypeError.
Proof.
  induction v as [| b | z | f | s | l IHl | d IHd | u] using pyval_nested_ind;
    intros text e; try (cbn; discriminate).
  - destruct b; cbn; discriminate.
  - (* list *)
    destruct l as [|x0 l0] eqn:Hl; [cbn; discriminate |]. rewrite <- Hl in *.
    rewrite iterencode_list by (subst l; discriminate). rewrite emit_then_emit.
    assert (Hitems : forall first t e',
              encode_items (iterencode float_repr) first l = (t, Some e') ->
              (if first then dangling t else ends_open t = true) /\ e' = TypeError).
    { clear Hl x0 l0. induction IHl as [|x l Hx _ IH]; intros first t e'.
      - cbn. discriminate.
      - cbn [encode_items]. rewrite emit_then_emit.
        destruct (iterencode float_repr x) as [xt [ex |]] eqn:Henc.
        + rewrite emit_then_failed. cbn [fst snd]. intros [= <- <-].
          destruct (Hx _ _ eq_refl) as [Hxt ->]. split; [| reflexivity]. destruct first.
          * destruct Hxt as [-> | Hxt]; [now left | right]. exact Hxt.
          * apply (ends_open_after "" xt ", "); [reflexivity | exact Hxt].
        + rewrite emit_then_ok. cbn [fst snd].
          destruct (encode_items (iterencode float_repr) false l) as [rt [er |]] eqn:Hrest;
            cbn [fst snd]; [| discriminate].
          intros [= <- <-]. destruct (IH false rt er Hrest) as [Hrt ->].
          split; [| reflexivity].
          assert (Hopen : ends_open ((if first then "" else ", ") ++ xt ++ rt) = true)
            by now apply ends_open_app, ends_open_app.
          destruct first; [now right | exact Hopen]. }
    destruct (encode_items (iterencode float_repr) true l) as [t [e' |]] eqn:Henc;
      cbn [fst snd]; [| discriminate].
    intros [= <- <-]. destruct (Hitems true t e' Henc) as [Ht ->]. split; [| reflexivity].
    right. apply (ends_open_after "" t "["); [reflexivity | exact Ht].
  - (* dict *)
    destruct d as [|m0 d0] eqn:Hdd; [cbn; discriminate |]. rewrite <- Hdd in *.
    rewrite iterencode_dict by (subst d; discriminate). rewrite emit_then_emit.
    assert (Hmembers : forall first t e',
              encode_members (iterencode float_repr) first d = (t, Some e') ->
              ends_open t = true /\ e' = TypeError).
    { clear Hdd m0 d0. induction IHd as [|[k x] d Hx _ IH]; intros first t e'.
      - cbn. discriminate.
      - cbn [encode_members]. rewrite emit_then_emit. cbn [snd] in Hx.
        destruct (iterencode float_repr x) as [xt [ex |]] eqn:Henc.
        + rewrite emit_then_failed. cbn [fst snd]. intros [= <- <-].
          destruct (Hx _ _ eq_refl) as [Hxt ->]. split; [| reflexivity].
          apply (ends_open_after ((if first then "" else ", ") ++ encode_str k) xt ": ")
            in Hxt; [| reflexivity].
          match goal with
          | |- ends_open ?A = true =>
              match type of Hxt with
              | ends_open ?B = true => replace A with B; [exact Hxt |]
              end
          end.
          unfold encode_str. destruct first; cbn; rewrite ?str_app_assoc; reflexivity.
        + rewrite emit_then_ok. cbn [fst snd].
          destruct (encode_members (iterencode float_repr) false d) as [rt [er |]] eqn:Hrest;
            cbn [fst snd]; [| discriminate].
          intros [= <- <-]. destruct (IH false rt er Hrest) as [Hrt ->].
          split; [| reflexivity]. now apply ends_open_app, ends_open_app. }
    destruct (encode_members (iterencode float_repr) true d) as [t [e' |]] eqn:Henc;
      cbn [fst snd]; [| discriminate].
    intros [= <- <-]. destruct (Hmembers true t e' Henc) as [Ht ->]. split; [| reflexivity].
    right. now apply (ends_open_app "{").
  - cbn. intros [= <- <-]. split; [now left | reflexivity].
Qed.

(** ** A fingerprint that could not be computed *)

Lemma pair_unreadable_read_all (args : Args) (s : FS) (name : string) :
  pair_unreadable args s name <->
  read_all s [scad_path args name; stl_path args name] = None.
Proof.
  rewrite read_all_None. split.
  - intros (e & [H | H]); [exists (scad_path args name) | exists (stl_path args name)];
      exists e; cbn; auto.
  - intros (f & e & [<- | [<- | []]] & H); exists e; auto.
Qed.

(** A step that ends normally had a cache of the expected shape. *)
Lemma stl_step_ok_shaped (env : Env) (args : Args) (cache : pyval)
    (part : string * option Geometry) (w : World) (cache1 : pyval) (w1 : World) :
  stl_step env args cache part w = (Ok cache1, w1) -> cache_shaped cache.
Proof.
  assert (Hshape : forall sc, py_getitem cache "scad_cache" = Ok (VDict sc) ->
                              cache_shaped cache).
  { intros sc. destruct cache as [| | | | | | d |]; try discriminate. cbn.
    destruct (dict_get "scad_cache" d) as [v |] eqn:Hd; [| discriminate].
    intros [= ->]. now exists d, sc. }
  unfold stl_step. unfold bind at 1. unfold logger.
  set (w0 := logged INFO ("building " ++ fst part ++ ".stl") w).
  unfold bind at 1.
  destruct (is_fresh env args cache (fst part) w0) as [[fresh | e] v] eqn:Hf; [| discriminate].
  destruct fresh.
  - intros _. unfold is_fresh in Hf. unfold bind at 1 in Hf. unfold path_exists in Hf.
    destruct (fs_exists (fs w0) (stl_path args (fst part)) && negb (force args));
      [| discriminate].
    destruct (_get_files_hash_spec env [scad_path args (fst part); stl_path args (fst part)] w0)
      as (v' & Hh & _).
    unfold bind at 1 in Hf. rewrite Hh in Hf. unfold bind at 1 in Hf. unfold lift at 1 in Hf.
    destruct (py_getitem cache "scad_cache") as [sc |] eqn:Hg; [| discriminate].
    unfold bind, lift in Hf. destruct sc; try discriminate. eapply Hshape; eauto.
  - unfold compile_and_record. unfold bind at 1.
    destruct (call env (compile_command args (fst part)) v) as [[status | e] v1];
      [| discriminate].
    destruct (_get_files_hash_spec env [scad_path args (fst part); stl_path args (fst part)] v1)
      as (v' & Hh & _).
    unfold bind at 1. rewrite Hh. unfold bind at 1. unfold lift at 1.
    destruct (py_getitem cache "scad_cache") as [sc |] eqn:Hg; [| discriminate].
    unfold bind, lift. destruct sc; try discriminate. intros _. eapply Hshape; eauto.
Qed.

(** When a step ends and the pair of its part cannot be read, the cache
    holds a [UUID] for the part. *)
Lemma stl_step_unreadable (env : Env) (args : Args) (cache : pyval)
    (part : string * option Geometry) (w : World) (cache1 : pyval) (w1 : World) :
  stl_step env args cache part w = (Ok cache1, w1) ->
  pair_unreadable args (fs w1) (fst part) ->
  exists u, cache_entry cache1 (scad_path args (fst part)) = Some (VUuid u).
Proof.
  intros Hs Hbad. pose proof (stl_step_ok_shaped _ _ _ _ _ _ _ Hs) as Hshape.
  apply pair_unreadable_read_all in Hbad.
  destruct (stl_step_summary env args cache part w _ _ Hshape Hs)
    as [(Hr & Hfs & _ & _ & _ & Heq) | [(status & n & cache' & _ & _ & Hr & _ & Hentry & _)
                                       | (_ & Hr & _)]]; [| | discriminate].
  - inversion Hr; subst cache1. rewrite Hfs in Hbad.
    unfold files_fingerprint in Heq. rewrite Hbad in Heq.
    destruct (cache_entry cache (scad_path args (fst part))) as [[| | | | | | | u] |];
      cbn in Heq; try discriminate. now exists u.
  - inversion Hr; subst cache'. unfold files_fingerprint in Hentry. rewrite Hbad in Hentry.
    cbn in Hentry. eauto.
Qed.

(** What the loop leaves alone: cache entries under keys that are not
    description paths of its parts and, the compiler writing only its
    output, files that are not artifacts of its parts. *)
Lemma stl_loop_invariants (env : Env) (args : Args) (ps : list (string * option Geometry))
    (cache : pyval) (w : World) (r : outcome pyval) (w' : World) :
  cache_shaped cache ->
  for_fold (stl_step env args) ps cache w = (r, w') ->
  (forall cache', r = Ok cache' ->
     cache_shaped cache' /\
     forall key, ~ In key (map (scad_path args) (dict_keys ps)) ->
       cache_entry cache' key = cache_entry cache key)
  /\ (compiler_frame env ->
      forall p, ~ In p (map (stl_path args) (dict_keys ps)) ->
        fs_read (fs w') p = fs_read (fs w) p /\ fs_exists (fs w') p = fs_exists (fs w) p).
Proof.
  revert cache w. induction ps as [|part ps IH]; intros cache w Hshape; cbn [for_fold].
  - intros [= <- <-]. split; [intros cache' [= <-] |]; auto.
  - unfold bind. destruct (stl_step env args cache part w) as [r1 w1] eqn:Hs.
    unfold dict_keys. cbn [map].
    destruct (stl_step_summary env args cache part w r1 w1 Hshape Hs)
      as [(-> & Hfs & _) | [(status & n & cache1 & Hsub & _ & -> & Hshape1 & _ & Hothers)
                           | (_ & -> & Hfs & _)]].
    + intros Hrest. destruct (IH _ _ Hshape Hrest) as [Hc Hf]. rewrite <- Hfs. split.
      * intros cache' Hr. destruct (Hc cache' Hr) as [Hs' He]. split; [exact Hs' |].
        intros key Hkey. apply He. intros Hin. apply Hkey. now right.
      * intros Hframe p Hp. apply (Hf Hframe). intros Hin. apply Hp. now right.
    + intros Hrest. destruct (IH _ _ Hshape1 Hrest) as [Hc Hf]. split.
      * intros cache' Hr. destruct (Hc cache' Hr) as [Hs' He]. split; [exact Hs' |].
        intros key Hkey. rewrite He by (intros Hin; apply Hkey; now right).
        apply Hothers. intros ->. apply Hkey. now left.
      * intros Hframe p Hp.
        destruct (Hf Hframe p) as [H1 H2]; [intros Hin; apply Hp; now right |].
        destruct (Hframe _ _ _ _ _ Hsub p) as [H3 H4]; [intros ->; apply Hp; now left |].
        split; congruence.
    + intros [= <- <-]. split; [discriminate |]. intros _ p _. now rewrite Hfs.
Qed.

Lemma stl_loop_unreadable (env : Env) (args : Args) (ps : list (string * option Geometry))
    (name : string) (cache : pyval) (w : World) (cache' : pyval) (w' : World) :
  compiler_frame env -> distinct_paths args ps ->
  for_fold (stl_step env args) ps cache w = (Ok cache', w') ->
  In name (dict_keys ps) ->
  pair_unreadable args (fs w') name ->
  exists u, cache_entry cache' (scad_path args name) = Some (VUuid u).
Proof.
  intros Hframe. revert cache w.
  induction ps as [|[q model] ps IH]; intros cache w [Hnd1 Hnd2] Hloop Hin Hbad;
    [destruct Hin |].
  unfold dict_keys in Hnd1, Hnd2, Hin. cbn [map fst] in Hnd1, Hnd2, Hin.
  apply NoDup_cons_iff in Hnd1 as [Hq1 Hnd1]. apply NoDup_cons_iff in Hnd2 as [Hq2 Hnd2].
  cbn [for_fold] in Hloop. unfold bind in Hloop.
  destruct (stl_step env args cache (q, model) w) as [[cache1 | e] w1] eqn:Hs;
    [| discriminate].
  pose proof (stl_step_ok_shaped _ _ _ _ _ _ _ Hs) as Hshape.
  assert (Hshape1 : cache_shaped cache1).
  { destruct (stl_step_summary env args cache (q, model) w _ _ Hshape Hs)
      as [(Hr & _) | [(? & ? & ? & _ & _ & Hr & Hsh & _) | (_ & Hr & _)]];
      inversion Hr; subst; assumption. }
  destruct (stl_loop_invariants env args ps cache1 w1 _ _ Hshape1 Hloop) as [Hc Hf].
  destruct (Hc cache' eq_refl) as [_ Hentries].
  destruct (String.eqb_spec q name) as [-> | Hne].
  - assert (Hbad1 : pair_unreadable args (fs w1) name).
    { destruct Hbad as (e & Hbad). exists e.
      destruct (Hf Hframe (scad_path args name)) as [Hr1 _].
      { intros (n & Heq & _)%in_map_iff. symmetry in Heq.
        now apply scad_path_not_stl_path in Heq. }
      destruct (Hf Hframe (stl_path args name) Hq2) as [Hr2 _].
      now rewrite <- Hr1, <- Hr2. }
    destruct (stl_step_unreadable env args cache (name, model) w cache1 w1 Hs Hbad1)
      as (u & Hu).
    exists u. cbn [fst] in Hu. now rewrite (Hentries _ Hq1).
  - destruct Hin as [Hin | Hin]; [congruence |].
    now apply (IH cache1 w1 (conj Hnd1 Hnd2) Hloop Hin Hbad).
Qed.

(** C10. Let the compiler write only its output file, and let no two
    parts share a file. If the part loop ends and the description or the
    artifact of some part cannot be read then (as when the compiler
    produced no artifact), the mapping holds the [UUID] fallback under
    that part, the mapping cannot be serialized, and the single final
    [_write_cache] fails: the failure is logged, the build returns
    normally, and nothing of this build is persisted. Either the cache
    file could not be opened and the file system is as the loop left it,
    or the file holds a truncated document, which a decoder rejects: the
    next [_read_cache] returns the empty mapping, without the
    fingerprints of the parts that were hashed successfully. *)
Theorem hashing_failure_discards_the_whole_cache
    (env : Env) (self : Project) (args : Args) (w w0 w1 : World)
    (cache0 cache1 : pyval) (name : string) :
  compiler_frame env ->
  decoder_rejects_dangling env ->
  distinct_paths args (parts self) ->
  stl_prelude env self args w = (Ok cache0, w0) ->
  for_fold (stl_step env args) (parts self) cache0 w0 = (Ok cache1, w1) ->
  In name (dict_keys (parts self)) ->
  pair_unreadable args (fs w1) name ->
  (exists u, cache_entry cache1 (scad_path args name) = Some (VUuid u))
  /\ snd (iterencode (float_repr env) cache1) = Some TypeError
  /\ exists w',
       build_stl env self args w = (Ok tt, w')
       /\ log w' = (log w1 ++ [(ERROR, "writing cache failed")])%list
       /\ (~ writable (fs w1) (cache_file args) -> fs w' = fs w1)
       /\ (writable (fs w1) (cache_file args) ->
           files (fs w') !! cache_file args
             = Some (fst (iterencode (float_repr env) cache1))
           /\ _read_cache env (cache_file args) w'
              = (Ok (VDict []), logged ERROR "reading cache failed" w')).
Proof.
  intros Hframe Hdecoder Hdistinct Hprelude Hloop Hin Hbad.
  destruct (stl_loop_unreadable env args _ name cache0 w0 cache1 w1
              Hframe Hdistinct Hloop Hin Hbad) as (u & Hu).
  pose proof (iterencode_fails_on_uuid (float_repr env) _ _ _ Hu) as Hfail.
  destruct (iterencode (float_repr env) cache1) as [text [e |]] eqn:Henc;
    [| now cbn in Hfail].
  destruct (iterencode_failure_dangling (float_repr env) cache1 text e Henc)
    as [Hdangling ->].
  cbn [fst snd] in *.
  split; [now exists u |]. split; [reflexivity |].
  rewrite (build_stl_after_prelude _ _ _ _ _ _ Hprelude), Hloop.
  pose proof (_write_cache_cases env (cache_file args) cache1 w1) as Hcases.
  cbn zeta in Hcases. rewrite Henc in Hcases. cbn [fst snd] in Hcases.
  destruct Hcases as [(_ & Hnone & _) | [(Hw & _ & Heq) | (Hn & Heq)]]; [discriminate | |].
  - eexists. split; [exact Heq |]. split; [reflexivity |]. split; [tauto |].
    intros _. split; [cbn; apply lookup_insert_eq |].
    set (w' := logged ERROR "writing cache failed" (written (cache_file args) text w1)).
    assert (Hread : fs_read (fs w') (cache_file args) = Ok text).
    { destruct Hw as [Hd Hr]. unfold fs_read. cbn.
      rewrite (bool_decide_eq_false_2 _ Hd), (bool_decide_eq_false_2 _ Hr).
      now rewrite lookup_insert_eq. }
    assert (Hexists : fs_exists (fs w') (cache_file args) = true).
    { unfold fs_exists. cbn. apply orb_true_intro. left. apply bool_decide_eq_true.
      rewrite dom_insert. apply elem_of_union. left. now apply elem_of_singleton. }
    rewrite (_read_cache_present _ _ _ Hexists), Hread.
    now rewrite (Hdecoder _ Hdangling).
  - eexists. split; [exact Heq |]. split; [reflexivity |]. split; [reflexivity |]. tauto.
Qed.

(** * The concrete environment at work *)

Lemma demo_compiler_frame (cli : option (Args * Command)) : compiler_frame (Demo.env cli).
Proof.
  intros input output s s' status. cbn [subprocess_call Demo.env].
  unfold Demo.run_process. cbn.
  destruct (fs_read s input) as [text | e].
  - destruct (str_contains "undefined" text).
    + now intros [= <- _].
    + intros [= <- _] p Hp. unfold fs_read, fs_exists. cbn.
      rewrite lookup_insert_ne by congruence. split; [reflexivity |].
      f_equal. apply bool_decide_ext. rewrite dom_insert, elem_of_union, elem_of_singleton.
      split; [intros [? | ?]; [congruence | assumption] | now right].
  - now intros [= <- _].
Qed.

Lemma demo_compiler_installed (cli : option (Args * Command)) :
  compiler_installed (Demo.env cli).
Proof.
  intros input output s. cbn [subprocess_call Demo.env]. unfold Demo.run_process. cbn.
  destruct (fs_read s input) as [text | e]; [destruct (str_contains "undefined" text) |];
    discriminate.
Qed.

Lemma demo_decoder_rejects_dangling (cli : option (Args * Command)) :
  decoder_rejects_dangling (Demo.env cli).
Proof.
  intros text [-> | Hopen]; cbn [json_loads Demo.env]; unfold Demo.loads.
  - reflexivity.
  - rewrite Hopen. now rewrite orb_true_r.
Qed.

Lemma demo_distinct_paths (force : bool) (fs : list callable) :
  dict_keys (parts (Demo.project_of fs)) = ["bolt"; "nut"]
  \/ dict_keys (parts (Demo.project_of fs)) = ["bolt"; "washer"; "nut"] ->
  distinct_paths (Demo.args force) (parts (Demo.project_of fs)).
Proof.
  intros Hkeys. apply relative_names_distinct_paths.
  - destruct Hkeys as [-> | ->]; repeat constructor; cbn; intuition discriminate.
  - destruct Hkeys as [-> | ->]; repeat constructor.
Qed.

(** ** The theorems at concrete inputs *)

(** The pair of bolt, hashed in the world a first build leaves. *)
Lemma fingerprint_is_digest_of_separated_contents_witness :
  exists hex,
    _get_files_hash (Demo.env None) ["scad/bolt.scad"; "stl/bolt.stl"] Demo.built_world
    = (Ok (Digest hex), Demo.built_world).
Proof.
  eexists.
  apply (fingerprint_is_digest_of_separated_contents (Demo.env None)
           ["scad/bolt.scad"; "stl/bolt.stl"]
           [default "" (files (fs Demo.built_world) !! "scad/bolt.scad");
            default "" (files (fs Demo.built_world) !! "stl/bolt.stl")]
           Demo.built_world).
  repeat constructor; vm_compute; reflexivity.
Defined.

(** An artifact that is not there. *)
Lemma hashing_failure_yields_distinct_fallback_witness :
  exists u w',
    _get_files_hash (Demo.env None) ["scad/bolt.scad"; "stl/missing.stl"] Demo.built_world
    = (Ok (Fallback u), w')
    /\ forall hex, py_eq_fingerprint (VStr hex) (Fallback u) = false.
Proof.
  destruct (hashing_failure_yields_distinct_fallback (Demo.env None)
              ["scad/bolt.scad"; "stl/missing.stl"] Demo.built_world
              "stl/missing.stl" FileNotFoundError)
    as (u & w' & Hrun & _ & _ & _ & Hmiss & _).
  - right. left. reflexivity.
  - vm_compute. reflexivity.
  - exists u, w'. split; [exact Hrun | exact Hmiss].
Defined.

(** A part whose construction raises, registered after bolt and nut. *)
Lemma failing_registration_is_swallowed_witness :
  exists self' w',
    add_part Demo.bolt_and_nut (Method Demo.broken) None Demo.fresh_world
    = (Ok (self', Some Demo.broken), w')
    /\ parts self' = parts Demo.bolt_and_nut.
Proof.
  destruct (failing_registration_is_swallowed Demo.bolt_and_nut Demo.broken None
              "Broken_Part" (UserError "ZeroDivisionError") Demo.fresh_world Demo.fresh_world)
    as (self' & w' & Hrun & Hparts & _).
  - reflexivity.
  - reflexivity.
  - exists self', w'. split; [exact Hrun | exact Hparts].
Defined.

(** No cache file yet. *)
Lemma cache_io_never_raises_witness :
  _read_cache (Demo.env None) ".yaost.cache" Demo.fresh_world
  = (Ok (VDict []), Demo.fresh_world).
Proof.
  apply (proj1 (proj2 (cache_io_never_raises (Demo.env None) ".yaost.cache" (VDict [])
                         Demo.fresh_world))).
  vm_compute. reflexivity.
Defined.

(** Two runs of [build-scad] on bolt and nut. *)
Lemma emission_is_idempotent_witness :
  let first := build_scad Demo.bolt_and_nut (Demo.args false) Demo.fresh_world in
  let second := build_scad Demo.bolt_and_nut (Demo.args false) (snd first) in
  fs (snd second) = fs (snd first) /\ fst second = fst first.
Proof.
  intros first second.
  destruct (emission_is_idempotent Demo.bolt_and_nut (Demo.args false) Demo.fresh_world
              (snd first) (snd second) (fst first) (fst second))
    as (Hfs & Hr & _).
  - apply surjective_pairing.
  - apply surjective_pairing.
  - split; [exact Hfs | exact Hr].
Defined.

(** [run] called twice with the sub-command [build-scad]. *)
Lemma run_body_executes_at_most_once_witness :
  let first := run (Demo.env (Some (Demo.args false, BuildScad))) Demo.bolt_and_nut
                 Demo.fresh_world in
  run (Demo.env (Some (Demo.args false, BuildScad))) Demo.bolt_and_nut (snd first)
  = (Ok tt, snd first).
Proof.
  intros first.
  destruct (run_body_executes_at_most_once (Demo.env (Some (Demo.args false, BuildScad)))
              Demo.bolt_and_nut Demo.fresh_world (fst first) (snd first))
    as (_ & Hagain & _).
  - apply surjective_pairing.
  - apply Hagain.
Defined.


(** Bolt, compiled for the first time. *)
Lemma fingerprint_is_keyed_by_description_path_witness :
  exists cache' w',
    compile_and_record (Demo.env None) (Demo.args false) Demo.empty_cache "bolt"
      Demo.emitted_world = (Ok cache', w')
    /\ cache_entry cache' "scad/bolt.scad" = Some (VStr "1093150342")
    /\ cache_entry cache' "stl/bolt.stl" = None.
Proof.
  destruct (fingerprint_is_keyed_by_description_path (Demo.env None) (Demo.args false)
              Demo.empty_cache "bolt" Demo.emitted_world) as (_ & _ & Hrecord).
  - exists [("scad_cache", VDict [])], []. split; reflexivity.
  - destruct (Hrecord
                (fs (Demo.world_after
                       (call (Demo.env None) (compile_command (Demo.args false) "bolt"))
                       Demo.emitted_world)) 0)
      as (cache' & w' & Hrun & Hfs & Hscad & Hstl & _).
    + vm_compute. reflexivity.
    + exists cache', w'. split; [exact Hrun |]. split.
      * etransitivity; [exact Hscad |]. vm_compute. reflexivity.
      * etransitivity; [exact Hstl |]. reflexivity.
Defined.

(** C1 as the specification words it does not hold: after bolt is
    compiled, nothing is recorded under the path of its artifact. *)
Lemma fingerprint_is_not_recorded_under_artifact_path :
  ~ recorded_under_artifact_path (Demo.env None) (Demo.args false) Demo.empty_cache "bolt"
      Demo.emitted_world.
Proof.
  intros Hclaim.
  pose (outcome_and_world :=
          compile_and_record (Demo.env None) (Demo.args false) Demo.empty_cache "bolt"
            Demo.emitted_world).
  specialize (Hclaim (Demo.value_of (fst outcome_and_world)) (snd outcome_and_world)).
  assert (Hrun : compile_and_record (Demo.env None) (Demo.args false) Demo.empty_cache "bolt"
                   Demo.emitted_world
                 = (Ok (Demo.value_of (fst outcome_and_world)), snd outcome_and_world))
    by (vm_compute; reflexivity).
  specialize (Hclaim Hrun). clear Hrun. vm_compute in Hclaim. discriminate Hclaim.
Qed.


(** Bolt, washer and nut: the compiler rejects the washer, so its
    artifact is missing when the loop ends. *)
Lemma hashing_failure_discards_the_whole_cache_witness :
  exists w',
    build_stl (Demo.env None) Demo.with_washer (Demo.args false) Demo.fresh_world = (Ok tt, w')
    /\ _read_cache (Demo.env None) ".yaost.cache" w'
       = (Ok (VDict []), logged ERROR "reading cache failed" w').
Proof.
  pose (prelude := stl_prelude (Demo.env None) Demo.with_washer (Demo.args false)
                     Demo.fresh_world).
  pose (loop := for_fold (stl_step (Demo.env None) (Demo.args false))
                  (parts Demo.with_washer) (Demo.value_of (fst prelude)) (snd prelude)).
  destruct (hashing_failure_discards_the_whole_cache (Demo.env None) Demo.with_washer
              (Demo.args false) Demo.fresh_world (snd prelude) (snd loop)
              (Demo.value_of (fst prelude)) (Demo.value_of (fst loop)) "washer")
    as (_ & _ & w' & Hrun & _ & _ & Hread).
  - apply demo_compiler_frame.
  - apply demo_decoder_rejects_dangling.
  - apply (demo_distinct_paths false [Demo.bolt; Demo.washer; Demo.nut]). now right.
  - vm_compute. reflexivity.
  - vm_compute. reflexivity.
  - right. now left.
  - exists FileNotFoundError. right. vm_compute. reflexivity.
  - exists w'. split; [exact Hrun |]. apply Hread.
    split; intros Hin; apply (bool_decide_eq_true_2 _) in Hin; vm_compute in Hin;
      discriminate Hin.
Defined.

(** ** The example of the specification

    Bolt and nut: the first [build-stl] compiles both parts and writes a
    cache with two entries; a second one compiles nothing; after
    [nut.stl] is deleted a third one compiles the nut alone. *)
Example bolt_and_nut_three_builds :
  let build := build_stl (Demo.env None) Demo.bolt_and_nut (Demo.args false) in
  let w1 := Demo.world_after build Demo.fresh_world in
  let w2 := Demo.world_after build w1 in
  let w3 := Demo.world_after build (Demo.remove "stl/nut.stl" w2) in
  spawned w1 = [compile_command (Demo.args false) "bolt";
                compile_command (Demo.args false) "nut"]
  /\ fst (_read_cache (Demo.env None) ".yaost.cache" w1)
     = Ok (VDict [("scad_cache", VDict [("scad/bolt.scad", VStr "1093150342");
                                        ("scad/nut.scad", VStr "1298475178")])])
  /\ spawned w2 = spawned w1
  /\ spawned w3 = (spawned w2 ++ [compile_command (Demo.args false) "nut"])%list.
Proof. vm_compute. repeat split. Qed.

(** With a part that does not compile, the cache of the first build is
    lost and the second build compiles every part again. *)
Example washer_spoils_the_cache :
  let build := build_stl (Demo.env None) Demo.with_washer (Demo.args false) in
  let w1 := Demo.world_after build Demo.fresh_world in
  let w2 := Demo.world_after build w1 in
  fst (_read_cache (Demo.env None) ".yaost.cache" w1) = Ok (VDict [])
  /\ spawned w2 = (spawned w1 ++ spawned w1)%list
  /\ length (spawned w1) = 3%nat.
Proof. vm_compute. repeat split. Qed.

(** * Further properties of the code *)

(** ** Registration and lookup *)

Lemma dict_keys_set_mem {V} (k : string) (v : V) (d : list (string * V)) :
  dict_keys (dict_set k v d)
  = (if dict_mem k d then dict_keys d else dict_keys d ++ [k])%list.
Proof.
  unfold dict_mem, dict_keys. induction d as [|[k' v'] d IH]; cbn; [reflexivity |].
  destruct (String.eqb_spec k k') as [-> | Hne]; cbn; [reflexivity |].
  rewrite IH. now destruct (dict_get k d).
Qed.

Lemma dict_mem_keys {V} (k : string) (d : list (string * V)) :
  dict_mem k d = true <-> In k (dict_keys d).
Proof.
  unfold dict_mem, dict_keys. induction d as [|[k' v'] d IH]; cbn; [easy |].
  destruct (String.eqb_spec k k') as [-> | Hne]; [tauto |].
  rewrite IH. split; [tauto | intros [? | ?]; [congruence | assumption]].
Qed.

(** X1. [add_part] used as a decorator on a function that returns: the
    model the function built is registered under the derived name,
    whatever was passed as [model]; the function itself is handed back;
    [get_part] of the derived name returns the model, and every other
    name is looked up as before. A name already there keeps its place in
    the registry, a new one goes last. *)
Theorem registered_part_is_retrievable
    (self : Project) (method : callable) (model : option Geometry)
    (identifier : string) (built : option Geometry) (w w1 : World) :
  fn_name method = Some identifier ->
  fn_call method w = (Ok built, w1) ->
  exists self',
    add_part self (Method method) model w = (Ok (self', Some method), w1)
    /\ get_part self' (part_name identifier) = Ok built
    /\ (forall other, other <> part_name identifier ->
          get_part self' other = get_part self other)
    /\ dict_keys (parts self')
       = (if dict_mem (part_name identifier) (parts self) then dict_keys (parts self)
          else dict_keys (parts self) ++ [part_name identifier])%list
    /\ (_fa self', _fs self', _fn self', name self')
       = (_fa self, _fs self, _fn self, name self).
Proof.
  intros Hname Hcall.
  exists (set_parts self (dict_set (part_name identifier) built (parts self))).
  split; [exact (add_part_registers self method model identifier built w w1 Hname Hcall) |].
  unfold get_part. cbn [parts set_parts]. split; [now rewrite dict_get_set_eq |].
  split; [intros other Hne; rewrite dict_get_set_ne by congruence; reflexivity |].
  split; [apply dict_keys_set_mem | reflexivity].
Qed.

(** X2. [add_part] given a plain name stores the model under that very
    name, without deriving anything from it, returns [None] and touches
    nothing else; [get_part] of the name returns the model. [get_part]
    raises [KeyError] exactly for the names that are not in the
    registry. *)
Theorem named_part_is_stored_verbatim
    (self : Project) (s : string) (model : option Geometry) (w : World) :
  exists self',
    add_part self (Name s) model w = (Ok (self', None), w)
    /\ get_part self' s = Ok model
    /\ (forall other, other <> s -> get_part self' other = get_part self other)
    /\ (forall other, get_part self' other = Raise KeyError
                      <-> other <> s /\ ~ In other (dict_keys (parts self)))
    /\ dict_keys (parts self')
       = (if dict_mem s (parts self) then dict_keys (parts self)
          else dict_keys (parts self) ++ [s])%list.
Proof.
  eexists. split; [reflexivity |]. unfold get_part. cbn [parts set_parts].
  split; [now rewrite dict_get_set_eq |].
  split; [intros other Hne; rewrite dict_get_set_ne by congruence; reflexivity |].
  split; [| apply dict_keys_set_mem].
  intros other. destruct (String.eqb_spec other s) as [-> | Hne].
  - rewrite dict_get_set_eq. split; [discriminate | tauto].
  - rewrite dict_get_set_ne by congruence. rewrite <- dict_mem_keys. unfold dict_mem.
    destruct (dict_get other (parts self)); intuition (try discriminate; congruence).
Qed.

Lemma part_name_char (c : ascii) :
  let f := fun c => let c' := lower_char c in if Ascii.eqb c' "_" then "-"%char else c' in
  is_upper (f c) = false /\ Ascii.eqb (f c) "_" = false /\ f (f c) = f c
  /\ Ascii.eqb "/" (f c) = Ascii.eqb "/" c.
Proof.
  destruct c as [[] [] [] [] [] [] [] []]; vm_compute; repeat split.
Qed.

Lemma part_name_starts_with_slash (identifier : string) :
  starts_with "/" (part_name identifier) = starts_with "/" identifier.
Proof.
  unfold part_name. destruct identifier as [|c s]; [reflexivity |]. cbn [map_str starts_with].
  destruct (part_name_char c) as (_ & _ & _ & H4). cbn zeta in H4. now rewrite H4.
Qed.

(** X3. The name derived from a function name has as many characters as
    the function name, holds no upper-case ASCII letter and no
    underscore, and deriving again changes nothing; it begins with a
    slash only if the function name did. *)
Theorem part_name_normal_form (identifier : string) :
  String.length (part_name identifier) = String.length identifier
  /\ all_chars (fun c => negb (is_upper c) && negb (Ascii.eqb c "_")) (part_name identifier)
     = true
  /\ part_name (part_name identifier) = part_name identifier
  /\ starts_with "/" (part_name identifier) = starts_with "/" identifier.
Proof.
  unfold part_name. split; [| split; [| split]].
  - induction identifier as [|c s IH]; cbn; [reflexivity | now rewrite IH].
  - induction identifier as [|c s IH]; [reflexivity |].
    cbn [map_str all_chars]. rewrite IH.
    destruct (part_name_char c) as (H1 & H2 & _). cbn zeta in H1, H2.
    now rewrite H1, H2.
  - induction identifier as [|c s IH]; [reflexivity |].
    cbn [map_str]. rewrite IH. f_equal.
    destruct (part_name_char c) as (_ & _ & H3 & _). exact H3.
  - apply (part_name_starts_with_slash identifier).
Qed.

(** X4. Two functions whose names differ only in letter case, or in
    underscores against hyphens, derive the same part name: decorating
    both leaves one entry, at the place of the first, holding the model
    of the second. *)
Theorem colliding_identifiers_share_one_entry
    (self : Project) (first second : callable) (id1 id2 : string)
    (g1 g2 : option Geometry) (w w1 w2 : World) :
  fn_name first = Some id1 -> fn_name second = Some id2 ->
  part_name id1 = part_name id2 ->
  fn_call first w = (Ok g1, w1) -> fn_call second w1 = (Ok g2, w2) ->
  exists self1 self2,
    add_part self (Method first) None w = (Ok (self1, Some first), w1)
    /\ add_part self1 (Method second) None w1 = (Ok (self2, Some second), w2)
    /\ get_part self1 (part_name id1) = Ok g1
    /\ get_part self2 (part_name id1) = Ok g2
    /\ dict_keys (parts self2) = dict_keys (parts self1).
Proof.
  intros Hn1 Hn2 Hsame Hc1 Hc2.
  exists (set_parts self (dict_set (part_name id1) g1 (parts self))).
  eexists.
  split; [exact (add_part_registers self first None id1 g1 w w1 Hn1 Hc1) |].
  split; [exact (add_part_registers _ second None id2 g2 w1 w2 Hn2 Hc2) |].
  unfold get_part. cbn [parts set_parts]. rewrite <- Hsame.
  rewrite !dict_get_set_eq. split; [reflexivity |]. split; [reflexivity |].
  rewrite (dict_keys_set_mem (part_name id1) g2). unfold dict_mem.
  now rewrite dict_get_set_eq.
Qed.

(** *** Decorating a script's functions *)



(** ** Emission: what is written, and where *)

Lemma for_each_app {A} (body : A -> M unit) (xs ys : list A) (w : World) :
  for_each body (xs ++ ys) w
  = match for_each body xs w with
    | (Ok _, w1) => for_each body ys w1
    | (Raise e, w1) => (Raise e, w1)
    end.
Proof.
  revert w. induction xs as [|x xs IH]; intros w; [reflexivity |].
  cbn [for_each app]. unfold bind. destruct (body x w) as [[[] | e] w1]; [apply IH | reflexivity].
Qed.

(** One step writes no file but the description of its part, and leaves
    directories, refusals, processes and identifiers alone. *)
Lemma scad_step_frame (self : Project) (args : Args) (part : string * option Geometry)
    (w : World) (r : outcome unit) (w' : World) :
  scad_step self args part w = (r, w') ->
  dirs (fs w') = dirs (fs w) /\ denied (fs w') = denied (fs w)
  /\ (forall p, p <> scad_path args (fst part) -> files (fs w') !! p = files (fs w) !! p)
  /\ spawned w' = spawned w /\ uuids_drawn w' = uuids_drawn w /\ stdout w' = stdout w.
Proof.
  destruct part as [n model]. cbn [fst].
  unfold scad_step, bind, logger, open_w, lift, fp_write, raise. cbn [fs logged].
  destruct (bool_decide (scad_path args n ∈ denied (fs w)));
    [intros [= <- <-]; cbn; auto 10 |].
  destruct (bool_decide (scad_path args n ∈ dirs (fs w)));
    [intros [= <- <-]; cbn; auto 10 |].
  destruct (config_lines self) as [text | e].
  - destruct model as [geometry |]; intros [= <- <-]; cbn;
      (repeat (split; [reflexivity |])); (split; [| auto]);
      intros p Hp; now rewrite !lookup_insert_ne by congruence.
  - intros [= <- <-]; cbn. repeat (split; [reflexivity |]). split; [| auto].
    intros p Hp. now rewrite lookup_insert_ne by congruence.
Qed.

Lemma scad_loop_frame (self : Project) (args : Args) (ps : list (string * option Geometry))
    (w : World) (r : outcome unit) (w' : World) :
  for_each (scad_step self args) ps w = (r, w') ->
  dirs (fs w') = dirs (fs w) /\ denied (fs w') = denied (fs w)
  /\ (forall p, ~ In p (map (scad_path args) (dict_keys ps)) ->
        files (fs w') !! p = files (fs w) !! p)
  /\ spawned w' = spawned w /\ uuids_drawn w' = uuids_drawn w /\ stdout w' = stdout w.
Proof.
  revert w. induction ps as [|part ps IH]; intros w; cbn [for_each].
  - intros [= <- <-]. auto 10.
  - unfold bind. destruct (scad_step self args part w) as [[[] | e] w1] eqn:Hs;
      destruct (scad_step_frame _ _ _ _ _ _ Hs) as (H1 & H2 & H3 & H4 & H5 & H6).
    + intros (I1 & I2 & I3 & I4 & I5 & I6)%IH.
      repeat (split; [congruence |]). split; [| split; [| split]]; try congruence.
      intros p Hp. unfold dict_keys in *. cbn [map] in Hp.
      rewrite I3 by (intros Hin; apply Hp; now right).
      apply H3. intros ->. apply Hp. now left.
    + intros [= <- <-]. repeat (split; [assumption |]). split; [| auto].
      intros p Hp. apply H3. intros ->. apply Hp. unfold dict_keys. cbn [map]. now left.
Qed.

(** What the emission does to the file system, however it ends. *)
Lemma build_scad_frame
    (self : Project) (args : Args) (w : World) (r : outcome unit) (w' : World) :
  build_scad self args w = (r, w') ->
  (forall p, ~ In p (map (scad_path args) (dict_keys (parts self))) ->
     files (fs w') !! p = files (fs w) !! p)
  /\ denied (fs w') = denied (fs w)
  /\ (dirs (fs w') = dirs (fs w)
      \/ (fs_exists (fs w) (scad_directory args) = false
          /\ dirs (fs w') = {[scad_directory args]} ∪ dirs (fs w))).
Proof.
  unfold build_scad, bind, path_exists.
  destruct (fs_exists (fs w) (scad_directory args)) eqn:Hex; cbn [negb].
  - cbn [ret]. intros (H1 & H2 & H3 & _)%scad_loop_frame. auto.
  - unfold makedirs. rewrite Hex.
    destruct (String.eqb (scad_directory args) ""); [intros [= <- <-]; auto |].
    destruct (bool_decide (scad_directory args ∈ denied (fs w)));
      [intros [= <- <-]; auto |].
    intros (H1 & H2 & H3 & _)%scad_loop_frame. cbn in *. auto.
Qed.


(** The output directory is there or can be made: the loop of
    [build_scad] starts, on the files and refusals it found. *)
Lemma build_scad_after_directory (self : Project) (args : Args) (w : World) :
  (fs_exists (fs w) (scad_directory args) = true
   \/ (scad_directory args <> "" /\ scad_directory args ∉ denied (fs w))) ->
  exists wd,
    build_scad self args w = for_each (scad_step self args) (parts self) wd
    /\ files (fs wd) = files (fs w) /\ denied (fs wd) = denied (fs w)
    /\ (forall p, p ∈ dirs (fs wd) -> p ∈ dirs (fs w) \/ p = scad_directory args).
Proof.
  intros Hdir. unfold build_scad, bind, path_exists.
  destruct (fs_exists (fs w) (scad_directory args)) eqn:Hex; cbn [negb].
  - exists w. cbn. auto.
  - destruct Hdir as [Hdir | [Hne Hden]]; [congruence |].
    unfold makedirs. rewrite Hex.
    apply String.eqb_neq in Hne. rewrite Hne.
    rewrite (bool_decide_eq_false_2 _ Hden).
    eexists. split; [reflexivity |]. cbn. split; [reflexivity |]. split; [reflexivity |].
    intros p [->%elem_of_singleton | Hp]%elem_of_union; auto.
Qed.

(** X7. A part registered by name without a model stops the emission:
    once the parts before it are emitted, [build_scad] raises
    [AttributeError], the description file of that part is left holding
    the three configuration lines and nothing else, and no file of a
    later part is written. *)
Theorem part_without_model_stops_the_emission
    (self : Project) (args : Args) (w : World)
    (before after : list (string * option Geometry)) (name text : string) :
  parts self = (before ++ (name, None) :: after)%list ->
  config_lines self = Ok text ->
  (fs_exists (fs w) (scad_directory args) = true
   \/ (scad_directory args <> "" /\ scad_directory args ∉ denied (fs w))) ->
  (forall n m, In (n, m) before -> m <> None) ->
  (forall n, In n (dict_keys before ++ [name])%list ->
     writable (fs w) (scad_path args n) /\ scad_path args n <> scad_directory args) ->
  exists w',
    build_scad self args w = (Raise AttributeError, w')
    /\ files (fs w') !! scad_path args name = Some text
    /\ (forall p, ~ In p (map (scad_path args) (dict_keys before ++ [name])%list) ->
          files (fs w') !! p = files (fs w) !! p).
Proof.
  intros Hparts Hc Hdir Hmodels Hpaths.
  destruct (build_scad_after_directory self args w Hdir) as (wd & -> & Hfiles & Hden & Hdirs).
  assert (Hwd : forall n, In n (dict_keys before ++ [name])%list ->
                          writable (fs wd) (scad_path args n)).
  { intros n Hn. destruct (Hpaths n Hn) as [[Hd Hr] Hneq]. split; [now rewrite Hden |].
    intros [Hp | Hp]%Hdirs; tauto. }
  rewrite Hparts, for_each_app.
  destruct (scad_loop_ok self args text before wd Hc) as (w1 & Hrun & Hdirs1 & Hden1 & Hother & _).
  { intros n m Hin. split; [now apply (Hmodels n m) |]. apply Hwd.
    apply in_or_app. left. unfold dict_keys. apply in_map_iff. now exists (n, m). }
  rewrite Hrun. cbn [for_each]. unfold bind at 1.
  assert (Hw1 : writable (fs w1) (scad_path args name)).
  { destruct (Hwd name) as [Hd Hr]; [apply in_or_app; right; now left |].
    split; [now rewrite Hden1 | now rewrite Hdirs1]. }
  assert (Hstep : scad_step self args (name, None) w1
                  = (Raise AttributeError,
                     written (scad_path args name) text
                       (logged INFO ("building " ++ name ++ ".scad") w1))).
  { unfold scad_step, bind, logger.
    rewrite (open_w_writable _ (logged _ _ w1) Hw1). unfold lift. rewrite Hc.
    rewrite (fp_write_written (scad_path args name) "" text). reflexivity. }
  rewrite Hstep. eexists. split; [reflexivity |]. cbn. split; [apply lookup_insert_eq |].
  intros p Hp. unfold dict_keys in *. rewrite map_app in Hp. cbn [map] in Hp.
  rewrite lookup_insert_ne by (intros <-; apply Hp; apply in_or_app; right; now left).
  rewrite Hother by (intros Hin; apply Hp; apply in_or_app; now left).
  now rewrite Hfiles.
Qed.

(** X8. When two parts share a description path, the file ends up with
    the description of the part registered last: every part whose path
    no later part uses finds its own description in its file. *)
Theorem last_part_owns_a_shared_description_file
    (self : Project) (args : Args) (w : World)
    (front back : list (string * option Geometry)) (name text : string)
    (geometry : Geometry) :
  parts self = (front ++ (name, Some geometry) :: back)%list ->
  config_lines self = Ok text ->
  can_emit self args (fs w) ->
  ~ In (scad_path args name) (map (scad_path args) (dict_keys back)) ->
  exists w',
    build_scad self args w = (Ok tt, w')
    /\ files (fs w') !! scad_path args name = Some (text ++ to_string geometry).
Proof.
  intros Hparts Hc [Hdir Hcan] Hlast.
  destruct (build_scad_after_directory self args w Hdir) as (wd & -> & Hfiles & Hden & Hdirs).
  assert (Hwd : forall n m, In (n, m) (parts self) ->
                            m <> None /\ writable (fs wd) (scad_path args n)).
  { intros n m Hin. destruct (Hcan n m Hin) as (Hm & [Hd Hr] & Hneq).
    split; [exact Hm |]. split; [now rewrite Hden |].
    intros [Hp | Hp]%Hdirs; tauto. }
  rewrite Hparts in Hwd |- *. rewrite for_each_app.
  destruct (scad_loop_ok self args text front wd Hc) as (w1 & Hrun & Hdirs1 & Hden1 & _).
  { intros n m Hin. apply Hwd. apply in_or_app. now left. }
  rewrite Hrun. cbn [for_each]. unfold bind at 1.
  assert (Hw1 : writable (fs w1) (scad_path args name)).
  { destruct (Hwd name (Some geometry)) as [_ [Hd Hr]]; [apply in_or_app; right; now left |].
    split; [now rewrite Hden1 | now rewrite Hdirs1]. }
  rewrite (scad_step_ok self args name text geometry w1 Hw1 Hc).
  set (w2 := written (scad_path args name) (text ++ to_string geometry)
               (logged INFO ("building " ++ name ++ ".scad") w1)).
  destruct (scad_loop_ok self args text back w2 Hc) as (w' & Hback & _ & _ & Hother & _).
  { intros n m Hin. destruct (Hwd n m) as [Hm [Hd Hr]];
      [apply in_or_app; right; now right |].
    split; [exact Hm |]. unfold w2. cbn. split; [now rewrite Hden1 | now rewrite Hdirs1]. }
  exists w'. split; [exact Hback |]. rewrite (Hother _ Hlast).
  unfold w2. cbn. apply lookup_insert_eq.
Qed.

(** ** What the fingerprint tells apart *)

Lemma str_app_inj_length (a a' x y : string) :
  String.length a = String.length a' -> a ++ x = a' ++ y -> a = a' /\ x = y.
Proof.
  revert a'. induction a as [|c a IH]; intros [|c' a'] Hlen H; cbn in Hlen; try discriminate.
  - auto.
  - cbn in H. injection H as -> H. injection Hlen as Hlen.
    destruct (IH a' Hlen H) as [-> ->]. auto.
Qed.

Lemma hashed_pair (w : World) (f1 f2 a b : string) :
  fs_read (fs w) f1 = Ok a -> fs_read (fs w) f2 = Ok b ->
  for_fold hash_file [f1; f2] "" w = (Ok (separator ++ a ++ separator ++ b), w).
Proof.
  intros H1 H2. rewrite (hash_files_ok w [f1; f2] [a; b] "") by (repeat constructor; assumption).
  cbn [message String.append]. now rewrite str_app_nil_r.
Qed.

(** X9. The separator precedes each file but does not delimit it: a
    description [a] with an artifact that begins with the separator has
    the same fingerprint as the description [a] followed by the
    separator with the rest of that artifact. Moving the six bytes from
    the head of one file to the tail of the other goes unnoticed. *)
Theorem separator_can_move_between_files
    (env : Env) (w w' : World) (f1 f2 a b : string) :
  fs_read (fs w) f1 = Ok a -> fs_read (fs w) f2 = Ok (separator ++ b) ->
  fs_read (fs w') f1 = Ok (a ++ separator) -> fs_read (fs w') f2 = Ok b ->
  exists hex,
    _get_files_hash env [f1; f2] w = (Ok (Digest hex), w)
    /\ _get_files_hash env [f1; f2] w' = (Ok (Digest hex), w').
Proof.
  intros H1 H2 H1' H2'.
  exists (sha256_hexdigest env (message [a; separator ++ b])). split.
  - apply _get_files_hash_digest. repeat constructor; assumption.
  - replace (message [a; separator ++ b]) with (message [a ++ separator; b]).
    + apply _get_files_hash_digest. repeat constructor; assumption.
    + cbn [message]. now rewrite !str_app_assoc.
Qed.

(** X10. As long as the description keeps its length (in particular
    when it is unchanged), the bytes fed to the hash determine both
    files: two pairs that feed the same bytes are the same pair, so no
    change of the artifact alone leaves the hashed bytes as they were. *)
Theorem hashed_bytes_determine_files_of_known_length
    (w w' : World) (f1 f2 a b a' b' : string) :
  fs_read (fs w) f1 = Ok a -> fs_read (fs w) f2 = Ok b ->
  fs_read (fs w') f1 = Ok a' -> fs_read (fs w') f2 = Ok b' ->
  String.length a = String.length a' ->
  fst (for_fold hash_file [f1; f2] "" w) = fst (for_fold hash_file [f1; f2] "" w') ->
  a = a' /\ b = b'.
Proof.
  intros H1 H2 H1' H2' Hlen.
  rewrite (hashed_pair w f1 f2 a b H1 H2), (hashed_pair w' f1 f2 a' b' H1' H2').
  cbn [fst]. intros Heq. injection Heq as Heq.
  apply (str_app_inj_length a a') in Heq as [-> Heq]; [| exact Hlen].
  injection Heq as ->. auto.
Qed.

(** ** The artifact build: what is compiled *)

Lemma stl_loop_sublist (env : Env) (args : Args) (ps : list (string * option Geometry))
    (cache : pyval) (w : World) (r : outcome pyval) (w' : World) :
  for_fold (stl_step env args) ps cache w = (r, w') ->
  exists new,
    spawned w' = (spawned w ++ new)%list
    /\ sublist new (map (compile_command args) (dict_keys ps)).
Proof.
  revert cache w; induction ps as [|part ps IH]; intros cache w; cbn [for_fold].
  - intros [= _ <-]. exists []. split; [now rewrite app_nil_r | constructor].
  - unfold bind. unfold dict_keys. cbn [map].
    destruct (stl_step env args cache part w) as [[cache1 | e] w1] eqn:Hs;
      destruct (stl_step_spawned _ _ _ _ _ _ _ Hs) as [Hsp | Hsp].
    + intros (new & Hnew & Hsub)%IH. exists new. rewrite Hnew, Hsp.
      split; [reflexivity | now constructor].
    + intros (new & Hnew & Hsub)%IH. exists (compile_command args (fst part) :: new).
      rewrite Hnew, Hsp. split; [now rewrite <- app_assoc | now constructor].
    + intros [= _ <-]. exists []. split; [now rewrite app_nil_r | apply sublist_nil_l].
    + intros [= _ <-]. exists [compile_command args (fst part)]. split; [exact Hsp |].
      constructor. apply sublist_nil_l.
Qed.

(** X11. Whatever happens, [build_stl] starts no process other than
    compilations of the registered parts, none of them twice, and in the
    order of registration: the commands it spawns form a subsequence of
    the commands of the parts. *)
Theorem build_compiles_each_part_at_most_once
    (env : Env) (self : Project) (args : Args) (w : World) (r : outcome unit) (w' : World) :
  build_stl env self args w = (r, w') ->
  exists new,
    spawned w' = (spawned w ++ new)%list
    /\ sublist new (map (compile_command args) (dict_keys (parts self))).
Proof.
  unfold build_stl. unfold bind at 1.
  destruct (stl_prelude env self args w) as [[cache | e] w0] eqn:Hp;
    pose proof (stl_prelude_preserves_spawned env self args _ _ _ Hp) as Hsp0.
  - unfold bind.
    destruct (for_fold (stl_step env args) (parts self) cache w0) as [[cache' | e] w1] eqn:Hl;
      destruct (stl_loop_sublist _ _ _ _ _ _ _ Hl) as (new & Hnew & Hsub).
    + intros Hw. exists new. split; [| exact Hsub].
      rewrite (_write_cache_preserves_spawned env _ _ _ _ _ Hw). now rewrite Hnew, Hsp0.
    + intros [= _ <-]. exists new. split; [| exact Hsub]. now rewrite Hnew, Hsp0.
  - intros [= _ <-]. exists []. split; [now rewrite app_nil_r, Hsp0 | apply sublist_nil_l].
Qed.

(** *** A part that is stale *)

Lemma stl_loop_installed (env : Env) (args : Args) (ps : list (string * option Geometry))
    (cache : pyval) (w : World) :
  compiler_installed env -> cache_shaped cache ->
  exists cache' w',
    for_fold (stl_step env args) ps cache w = (Ok cache', w') /\ cache_shaped cache'.
Proof.
  intros Hinst. revert cache w.
  induction ps as [|part ps IH]; intros cache w Hshape.
  - exists cache, w. auto.
  - cbn [for_fold]. unfold bind.
    destruct (stl_step env args cache part w) as [r1 w1] eqn:Hs.
    destruct (stl_step_summary env args cache part w r1 w1 Hshape Hs)
      as [(-> & _) | [(status & n & cache1 & _ & _ & -> & Hshape1 & _) | (Hnone & _)]].
    + now apply IH.
    + now apply IH.
    + exfalso. unfold compile_command in Hnone. now apply (Hinst _ _ _ Hnone).
Qed.

(** A stale part fails the freshness test of its step. *)
Lemma stale_not_fresh (env : Env) (args : Args) (cache : pyval) (s : FS) (name : string)
    (n : nat) :
  stale env args cache s name ->
  force args = false -> fs_exists s (stl_path args name) = true ->
  py_eq_fingerprint (default (VStr "") (cache_entry cache (scad_path args name)))
    (files_fingerprint env s [scad_path args name; stl_path args name] n) = true ->
  False.
Proof.
  intros [Hforce | [Hmissing | (d & a & H1 & H2 & Hne)]] Hf Hex Heq; [congruence | congruence |].
  unfold files_fingerprint in Heq. cbn [read_all] in Heq. rewrite H1, H2 in Heq.
  congruence.
Qed.

Lemma stale_transfer (env : Env) (args : Args) (cache cache' : pyval) (s s' : FS)
    (name : string) :
  stale env args cache s name ->
  cache_entry cache' (scad_path args name) = cache_entry cache (scad_path args name) ->
  (forall p, p = scad_path args name \/ p = stl_path args name ->
     fs_read s' p = fs_read s p /\ fs_exists s' p = fs_exists s p) ->
  stale env args cache' s' name.
Proof.
  intros Hstale Hentry Hsame.
  destruct (Hsame _ (or_introl eq_refl)) as [Hr1 _].
  destruct (Hsame _ (or_intror eq_refl)) as [Hr2 Hx2].
  destruct Hstale as [Hforce | [Hmissing | (d & a & H1 & H2 & Hne)]].
  - now left.
  - right. left. now rewrite Hx2.
  - right. right. exists d, a. rewrite Hr1, Hr2, Hentry. auto.
Qed.

Lemma stl_loop_compiles_stale_part (env : Env) (args : Args)
    (ps : list (string * option Geometry)) (name : string) (cache : pyval) (w : World) :
  compiler_frame env -> compiler_installed env ->
  distinct_paths args ps -> In name (dict_keys ps) ->
  cache_shaped cache -> stale env args cache (fs w) name ->
  exists cache' w' new,
    for_fold (stl_step env args) ps cache w = (Ok cache', w')
    /\ spawned w' = (spawned w ++ new)%list
    /\ In (compile_command args name) new.
Proof.
  intros Hframe Hinst. revert cache w.
  induction ps as [|[q model] ps IH]; intros cache w [Hnd1 Hnd2] Hin Hshape Hstale;
    [destruct Hin |].
  unfold dict_keys in Hnd1, Hnd2, Hin. cbn [map fst] in Hnd1, Hnd2, Hin.
  apply NoDup_cons_iff in Hnd1 as [Hq1 Hnd1]. apply NoDup_cons_iff in Hnd2 as [Hq2 Hnd2].
  cbn [for_fold]. unfold bind.
  destruct (stl_step env args cache (q, model) w) as [r1 w1] eqn:Hs.
  destruct (stl_step_summary env args cache (q, model) w r1 w1 Hshape Hs)
    as [(-> & Hfs & Hsp & Hforce & Hex & Heq)
       | [(status & n & cache1 & Hsub & Hsp & -> & Hshape1 & _ & Hothers)
         | (Hnone & _)]]; cbn [fst] in *.
  - (* the step skipped its part: it is not the stale one *)
    destruct (String.eqb_spec q name) as [-> | Hne];
      [exfalso; exact (stale_not_fresh _ _ _ _ _ _ Hstale Hforce Hex Heq) |].
    destruct Hin as [Hin | Hin]; [congruence |].
    rewrite <- Hfs in Hstale.
    destruct (IH cache w1 (conj Hnd1 Hnd2) Hin Hshape Hstale) as (cache' & w' & new & Hrun & Hnew & Hc).
    exists cache', w', new. split; [exact Hrun |]. split; [now rewrite Hnew, Hsp | exact Hc].
  - destruct (String.eqb_spec q name) as [-> | Hne].
    + (* the stale part, compiled *)
      destruct (stl_loop_installed env args ps cache1 w1 Hinst Hshape1) as (cache' & w' & Hrun & _).
      destruct (stl_loop_spawned _ _ _ _ _ _ _ Hrun) as (new & Hnew & _).
      exists cache', w', (compile_command args name :: new).
      split; [exact Hrun |]. split; [rewrite Hnew, Hsp; now rewrite <- app_assoc | now left].
    + destruct Hin as [Hin | Hin]; [congruence |].
      assert (Hstl : stl_path args name <> stl_path args q).
      { intros Heq. apply Hq2. rewrite <- Heq. apply in_map_iff. exists name. auto. }
      assert (Hscad : scad_path args name <> scad_path args q).
      { intros Heq. apply Hq1. rewrite <- Heq. apply in_map_iff. exists name. auto. }
      assert (Hstale1 : stale env args cache1 (fs w1) name).
      { apply (stale_transfer env args cache cache1 (fs w) (fs w1) name Hstale).
        - now apply Hothers.
        - intros p Hp. apply (Hframe _ _ _ _ _ Hsub).
          destruct Hp as [-> | ->]; [apply scad_path_not_stl_path | exact Hstl]. }
      destruct (IH cache1 w1 (conj Hnd1 Hnd2) Hin Hshape1 Hstale1)
        as (cache' & w' & new & Hrun & Hnew & Hc).
      exists cache', w', (compile_command args q :: new).
      split; [exact Hrun |]. split; [rewrite Hnew, Hsp; now rewrite <- app_assoc | now right].
  - exfalso. unfold compile_command in Hnone. now apply (Hinst _ _ _ Hnone).
Qed.

(** X12. The converse of skipping. Let the build have reached its part
    loop with a cache of the expected shape, the compiler start and write
    only its output, and no two parts share a file. A part that is stale
    then (the force flag is set, or its artifact is missing, or the cache
    entry under its description path is not the digest of its two
    files) is handed to the compiler by this build, which ends
    normally. *)
Theorem stale_part_is_compiled
    (env : Env) (self : Project) (args : Args) (w w0 : World) (cache : pyval)
    (name : string) :
  compiler_frame env -> compiler_installed env ->
  distinct_paths args (parts self) ->
  stl_prelude env self args w = (Ok cache, w0) ->
  cache_shaped cache ->
  In name (dict_keys (parts self)) ->
  stale env args cache (fs w0) name ->
  exists w' new,
    build_stl env self args w = (Ok tt, w')
    /\ spawned w' = (spawned w ++ new)%list
    /\ In (compile_command args name) new.
Proof.
  intros Hframe Hinst Hdistinct Hprelude Hshape Hin Hstale.
  pose proof (stl_prelude_preserves_spawned env self args _ _ _ Hprelude) as Hsp0.
  rewrite (build_stl_after_prelude _ _ _ _ _ _ Hprelude).
  destruct (stl_loop_compiles_stale_part env args (parts self) name cache w0
              Hframe Hinst Hdistinct Hin Hshape Hstale) as (cache' & w1 & new & Hrun & Hnew & Hc).
  rewrite Hrun.
  destruct (_write_cache env (cache_file args) cache' w1) as [r w'] eqn:Hw.
  pose proof (_write_cache_preserves_spawned env _ _ _ _ _ Hw) as Hsp2.
  exists w', new. split; [| split; [now rewrite Hsp2, Hnew, Hsp0 | exact Hc]].
  destruct (_write_cache_cases env (cache_file args) cache' w1)
    as [(_ & _ & Heq) | [(_ & _ & Heq) | (_ & Heq)]];
    rewrite Heq in Hw; now inversion Hw.
Qed.

(** *** A compiler that cannot be started *)

Lemma stl_loop_without_compiler (env : Env) (args : Args)
    (ps : list (string * option Geometry)) (cache : pyval) (w : World)
    (r : outcome pyval) (w' : World) :
  compiler_absent env -> cache_shaped cache ->
  for_fold (stl_step env args) ps cache w = (r, w') ->
  fs w' = fs w
  /\ ((r = Ok cache /\ spawned w' = spawned w)
      \/ (r = Raise OSError
          /\ exists n, In n (dict_keys ps)
                       /\ spawned w' = (spawned w ++ [compile_command args n])%list))
  /\ (forall name, In name (dict_keys ps) -> stale env args cache (fs w) name ->
        r = Raise OSError).
Proof.
  intros Habsent Hshape. revert w.
  induction ps as [|part ps IH]; intros w; cbn [for_fold].
  - intros [= <- <-]. split; [reflexivity |]. split; [now left | intros name []].
  - unfold bind. destruct (stl_step env args cache part w) as [r1 w1] eqn:Hs.
    unfold dict_keys. cbn [map].
    destruct (stl_step_summary env args cache part w r1 w1 Hshape Hs)
      as [(-> & Hfs & Hsp & Hforce & Hex & Heq)
         | [(status & n & cache1 & Hsub & _) | (_ & -> & Hfs & Hsp)]].
    + intros (Hfs' & Hcases & Hstale)%IH. split; [congruence |]. split.
      * destruct Hcases as [[-> Hsp'] | (-> & n & Hn & Hsp')].
        -- left. split; [reflexivity | congruence].
        -- right. split; [reflexivity |]. exists n. split; [now right | congruence].
      * intros name [<- | Hin] Hst.
        -- exfalso. exact (stale_not_fresh _ _ _ _ _ _ Hst Hforce Hex Heq).
        -- apply (Hstale name Hin). now rewrite Hfs.
    + exfalso. unfold compile_command in Hsub. now rewrite Habsent in Hsub.
    + intros [= <- <-]. split; [exact Hfs |]. split; [| reflexivity].
      right. split; [reflexivity |]. exists (fst part). split; [now left | exact Hsp].
Qed.

(** X13. When the [openscad] executable cannot be started, the [OSError]
    of [subprocess.call] is not caught. With a cache of the expected
    shape at the part loop, the build either finds every part up to date
    and starts nothing, or raises [OSError] at the first part it would
    have compiled: one command was attempted, no later part is looked
    at, and the file system is as the loop found it, the cache file not
    being written. A stale part makes the build raise. *)
Theorem missing_compiler_aborts_the_build
    (env : Env) (self : Project) (args : Args) (w w0 : World) (cache : pyval)
    (r : outcome unit) (w' : World) :
  compiler_absent env ->
  stl_prelude env self args w = (Ok cache, w0) ->
  cache_shaped cache ->
  build_stl env self args w = (r, w') ->
  ((r = Ok tt /\ spawned w' = spawned w)
   \/ (r = Raise OSError /\ fs w' = fs w0
       /\ exists n, In n (dict_keys (parts self))
                    /\ spawned w' = (spawned w ++ [compile_command args n])%list))
  /\ (forall name, In name (dict_keys (parts self)) ->
        stale env args cache (fs w0) name -> r = Raise OSError).
Proof.
  intros Habsent Hprelude Hshape.
  pose proof (stl_prelude_preserves_spawned env self args _ _ _ Hprelude) as Hsp0.
  rewrite (build_stl_after_prelude _ _ _ _ _ _ Hprelude).
  destruct (for_fold (stl_step env args) (parts self) cache w0) as [r1 w1] eqn:Hloop.
  destruct (stl_loop_without_compiler env args _ cache w0 r1 w1 Habsent Hshape Hloop)
    as (Hfs & Hcases & Hstale).
  destruct Hcases as [[-> Hsp] | (-> & n & Hn & Hsp)].
  - intros Hw. pose proof (_write_cache_preserves_spawned env _ _ _ _ _ Hw) as Hsp2.
    split.
    + left. split; [| congruence].
      destruct (_write_cache_cases env (cache_file args) cache w1)
        as [(_ & _ & Heq) | [(_ & _ & Heq) | (_ & Heq)]];
        rewrite Heq in Hw; now inversion Hw.
    + intros name Hin Hst. specialize (Hstale name Hin Hst). discriminate Hstale.
  - intros [= <- <-]. split; [| reflexivity].
    right. split; [reflexivity |]. split; [exact Hfs |]. exists n. split; [exact Hn |].
    now rewrite Hsp, Hsp0.
Qed.

(** *** A cache file of the wrong shape *)

Lemma malformed_getitem (cache : pyval) :
  malformed cache ->
  py_getitem cache "scad_cache" = Raise TypeError
  \/ exists v, py_getitem cache "scad_cache" = Ok v
               /\ (forall k x, py_get v k x = Raise AttributeError)
               /\ (forall k x, py_setitem v k x = Raise TypeError).
Proof.
  destruct cache as [| | | | | | d |]; cbn; auto.
  destruct (dict_get "scad_cache" d) as [[| | | | | | e |] |]; intros H; try destruct H;
    right; eexists; (split; [reflexivity |]); split; intros; reflexivity.
Qed.

Lemma is_fresh_malformed (env : Env) (args : Args) (cache : pyval) (name : string)
    (w : World) :
  malformed cache ->
  (exists v, is_fresh env args cache name w = (Ok false, v))
  \/ (exists e v, is_fresh env args cache name w = (Raise e, v)
                  /\ (e = TypeError \/ e = AttributeError)).
Proof.
  intros Hbad.
  destruct (fs_exists (fs w) (stl_path args name) && negb (force args)) eqn:Hb;
    [right | left]; unfold is_fresh; unfold bind at 1; unfold path_exists; rewrite Hb.
  - destruct (_get_files_hash_spec env [scad_path args name; stl_path args name] w)
      as (v & Hh & _).
    unfold bind at 1. rewrite Hh. unfold bind at 1. unfold lift at 1.
    destruct (malformed_getitem cache Hbad) as [Hg | (x & Hg & Hget & _)]; rewrite Hg.
    + eauto.
    + unfold bind at 1. unfold lift at 1. rewrite Hget. eauto.
  - exists w. reflexivity.
Qed.

Lemma compile_and_record_malformed (env : Env) (args : Args) (cache : pyval) (name : string)
    (w : World) :
  malformed cache ->
  exists e v, compile_and_record env args cache name w = (Raise e, v)
              /\ (e = TypeError \/ e = OSError).
Proof.
  intros Hbad. unfold compile_and_record. unfold bind at 1. unfold call.
  destruct (subprocess_call env (compile_command args name) (fs w)) as [[s' status] |];
    [| eauto].
  set (w1 := with_fs (fun _ => s') (called (compile_command args name) w)).
  destruct (_get_files_hash_spec env [scad_path args name; stl_path args name] w1)
    as (v & Hh & _).
  unfold bind at 1. rewrite Hh. unfold bind at 1. unfold lift at 1.
  destruct (malformed_getitem cache Hbad) as [Hg | (x & Hg & _ & Hset)]; rewrite Hg.
  - eauto.
  - unfold bind at 1. unfold lift at 1. rewrite Hset. eauto.
Qed.

Lemma stl_step_malformed (env : Env) (args : Args) (cache : pyval)
    (part : string * option Geometry) (w : World) :
  malformed cache ->
  exists e v, stl_step env args cache part w = (Raise e, v)
              /\ (e = TypeError \/ e = AttributeError \/ e = OSError).
Proof.
  intros Hbad. unfold stl_step. unfold bind at 1. unfold logger.
  set (w0 := logged INFO ("building " ++ fst part ++ ".stl") w).
  unfold bind at 1.
  destruct (is_fresh_malformed env args cache (fst part) w0 Hbad)
    as [(v & ->) | (e & v & -> & He)].
  - destruct (compile_and_record_malformed env args cache (fst part) v Hbad)
      as (e & v' & -> & He). exists e, v'. split; [reflexivity | tauto].
  - exists e, v. split; [reflexivity | tauto].
Qed.

Lemma makedirs_raises_OSError (p : string) (w : World) (e : exn) (w' : World) :
  makedirs p w = (Raise e, w') -> is_OSError e = true.
Proof.
  unfold makedirs.
  destruct (String.eqb p ""); [now intros [= <- _] |].
  destruct (bool_decide (p ∈ denied (fs w))); [now intros [= <- _] |].
  destruct (fs_exists (fs w) p); [now intros [= <- _] | discriminate].
Qed.

(** X14. A cache file that holds valid JSON of the wrong shape (anything
    but an object, or an object whose [scad_cache] is not an object)
    is returned by [_read_cache] as it is, and the build of a project
    with at least one part then raises: [TypeError] or [AttributeError]
    from the operations on the cache, unless making the artifact
    directory or starting the compiler failed first. It never reaches
    the end of [build_stl]. *)
Theorem malformed_cache_aborts_the_build
    (env : Env) (self : Project) (args : Args) (w wa wb : World) (cache : pyval) :
  build_scad self args w = (Ok tt, wa) ->
  _read_cache env (cache_file args) wa = (Ok cache, wb) ->
  malformed cache ->
  parts self <> [] ->
  exists e w',
    build_stl env self args w = (Raise e, w')
    /\ (e = TypeError \/ e = AttributeError \/ is_OSError e = true).
Proof.
  intros Hscad Hread Hbad Hparts.
  assert (Hloop : forall wc, exists e w',
             (cache <- for_fold (stl_step env args) (parts self) cache ;;
              _write_cache env (cache_file args) cache)%py wc = (Raise e, w')
             /\ (e = TypeError \/ e = AttributeError \/ is_OSError e = true)).
  { intros wc. destruct (parts self) as [|part ps]; [congruence |].
    cbn [for_fold]. unfold bind.
    destruct (stl_step_malformed env args cache part wc Hbad) as (e & v & -> & He).
    exists e, v. split; [reflexivity |]. destruct He as [-> | [-> | ->]]; auto. }
  unfold build_stl. unfold bind at 1. unfold stl_prelude.
  unfold bind at 1. rewrite Hscad. unfold bind at 1. rewrite Hread.
  unfold bind at 1. unfold lift at 1.
  destruct (py_contains "scad_cache" cache) as [known | e] eqn:Hc.
  - destruct known; cbn [negb].
    + unfold bind at 1. unfold ret at 1. unfold bind at 1. unfold path_exists.
      destruct (fs_exists (fs wb) (stl_directory args)); cbn [negb].
      * unfold bind at 1. unfold ret at 1 2. apply Hloop.
      * unfold bind at 1.
        destruct (makedirs (stl_directory args) wb) as [[[] | e] wc] eqn:Hm.
        -- unfold ret at 1. apply Hloop.
        -- exists e, wc. split; [reflexivity |]. right. right.
           exact (makedirs_raises_OSError _ _ _ _ Hm).
    + unfold bind at 1. unfold lift at 1.
      destruct cache as [| | | | s | l | d |]; try discriminate Hc.
      * exists TypeError, wb. auto.
      * exists TypeError, wb. auto.
      * exfalso. cbn in Hc. injection Hc as Hc. unfold dict_mem in Hc. cbn in Hbad.
        now destruct (dict_get "scad_cache" d).
  - exists e, wb. split; [reflexivity |]. left.
    destruct cache; cbn in Hc; congruence.
Qed.

(** *** What a step records *)

Lemma fs_read_Ok_exists (s : FS) (p c : string) :
  fs_read s p = Ok c -> fs_exists s p = true.
Proof.
  unfold fs_read, fs_exists.
  destruct (bool_decide (p ∈ denied s)); [discriminate |].
  destruct (bool_decide (p ∈ dirs s)); [discriminate |].
  destruct (files s !! p) as [data |] eqn:Hp; [| discriminate].
  intros _. rewrite orb_false_r. apply bool_decide_eq_true.
  apply elem_of_dom. now exists data.
Qed.

(** A step that ends with both files of its part readable leaves the
    cache entry of the part equal to their digest. *)
Lemma stl_step_readable (env : Env) (args : Args) (cache : pyval)
    (part : string * option Geometry) (w : World) (cache1 : pyval) (w1 : World)
    (description artifact : string) :
  digest_nonempty env ->
  stl_step env args cache part w = (Ok cache1, w1) ->
  fs_read (fs w1) (scad_path args (fst part)) = Ok description ->
  fs_read (fs w1) (stl_path args (fst part)) = Ok artifact ->
  cache_shaped cache1
  /\ cache_entry cache1 (scad_path args (fst part))
     = Some (VStr (sha256_hexdigest env (message [description; artifact]))).
Proof.
  intros Hdigest Hs H1 H2. pose proof (stl_step_ok_shaped _ _ _ _ _ _ _ Hs) as Hshape.
  destruct (stl_step_summary env args cache part w _ _ Hshape Hs)
    as [(Hr & Hfs & _ & _ & _ & Heq) | [(status & n & cache' & _ & _ & Hr & Hshape1 & Hentry & _)
                                       | (_ & Hr & _)]]; [| | discriminate].
  - inversion Hr; subst cache1. split; [exact Hshape |]. rewrite Hfs in H1, H2.
    unfold files_fingerprint in Heq. cbn [read_all] in Heq. rewrite H1, H2 in Heq.
    destruct (cache_entry cache (scad_path args (fst part))) as [[| | | | s | | |] |];
      cbn in Heq; try discriminate.
    + apply String.eqb_eq in Heq. now subst s.
    + exfalso. apply (Hdigest (message [description; artifact])).
      symmetry. now apply String.eqb_eq.
  - inversion Hr; subst cache'. split; [exact Hshape1 |].
    unfold files_fingerprint in Hentry. cbn [read_all] in Hentry.
    now rewrite H1, H2 in Hentry.
Qed.

(** X15. The exit status of the compiler is not looked at. Let a stale
    part have an artifact from before, and let the compiler run and
    change nothing, as when it fails on the description: the step still
    records the digest of the description with the old artifact, the
    part is up to date from then on, and a later step skips it. *)
Theorem exit_status_is_ignored
    (env : Env) (args : Args) (cache : pyval) (name : string) (model : option Geometry)
    (w : World) (status : Z) (description artifact : string) :
  cache_shaped cache ->
  digest_nonempty env ->
  stale env args cache (fs w) name ->
  subprocess_call env (compile_command args name) (fs w) = Some (fs w, status) ->
  fs_read (fs w) (scad_path args name) = Ok description ->
  fs_read (fs w) (stl_path args name) = Ok artifact ->
  exists cache' w',
    stl_step env args cache (name, model) w = (Ok cache', w')
    /\ spawned w' = (spawned w ++ [compile_command args name])%list
    /\ fs w' = fs w
    /\ up_to_date env args cache' (fs w') name
    /\ (force args = false ->
        exists v, stl_step env args cache' (name, model) w' = (Ok cache', v)
                  /\ spawned v = spawned w').
Proof.
  intros Hshape Hdigest Hstale Hsub H1 H2.
  destruct (stl_step env args cache (name, model) w) as [r w'] eqn:Hs.
  destruct (stl_step_summary env args cache (name, model) w r w' Hshape Hs)
    as [(_ & _ & _ & Hforce & Hex & Heq)
       | [(status' & n & cache' & Hsub' & Hsp & -> & Hshape' & _) | (Hnone & _)]];
    cbn [fst] in *.
  - exfalso. exact (stale_not_fresh _ _ _ _ _ _ Hstale Hforce Hex Heq).
  - rewrite Hsub in Hsub'. injection Hsub' as Hfs _.
    assert (Hup : up_to_date env args cache' (fs w') name).
    { rewrite Hfs in H1, H2.
      destruct (stl_step_readable env args cache (name, model) w cache' w' description artifact
                  Hdigest Hs H1 H2) as [_ Hentry].
      split; [exact (fs_read_Ok_exists _ _ _ H2) |]. exists description, artifact. auto. }
    exists cache', w'. split; [reflexivity |]. split; [exact Hsp |]. split; [now symmetry |].
    split; [exact Hup |].
    intros Hforce. destruct (stl_step_skips env args cache' name model w' Hforce Hup)
      as (v & Hskip & _ & Hspv). now exists v.
  - congruence.
Qed.

(** When the loop ends, a part whose two files can be read has their
    digest as its cache entry, whether the loop compiled or skipped
    it. *)
Lemma stl_loop_readable (env : Env) (args : Args) (ps : list (string * option Geometry))
    (name : string) (cache : pyval) (w : World) (cache' : pyval) (w' : World)
    (description artifact : string) :
  compiler_frame env -> digest_nonempty env -> distinct_paths args ps ->
  for_fold (stl_step env args) ps cache w = (Ok cache', w') ->
  In name (dict_keys ps) ->
  fs_read (fs w') (scad_path args name) = Ok description ->
  fs_read (fs w') (stl_path args name) = Ok artifact ->
  cache_shaped cache'
  /\ cache_entry cache' (scad_path args name)
     = Some (VStr (sha256_hexdigest env (message [description; artifact]))).
Proof.
  intros Hframe Hdigest. revert cache w.
  induction ps as [|[q model] ps IH]; intros cache w [Hnd1 Hnd2] Hloop Hin H1 H2;
    [destruct Hin |].
  unfold dict_keys in Hnd1, Hnd2, Hin. cbn [map fst] in Hnd1, Hnd2, Hin.
  apply NoDup_cons_iff in Hnd1 as [Hq1 Hnd1]. apply NoDup_cons_iff in Hnd2 as [Hq2 Hnd2].
  cbn [for_fold] in Hloop. unfold bind in Hloop.
  destruct (stl_step env args cache (q, model) w) as [[cache1 | e] w1] eqn:Hs;
    [| discriminate].
  pose proof (stl_step_ok_shaped _ _ _ _ _ _ _ Hs) as Hshape.
  assert (Hshape1 : cache_shaped cache1).
  { destruct (stl_step_summary env args cache (q, model) w _ _ Hshape Hs)
      as [(Hr & _) | [(? & ? & ? & _ & _ & Hr & Hsh & _) | (_ & Hr & _)]];
      inversion Hr; subst; assumption. }
  destruct (stl_loop_invariants env args ps cache1 w1 _ _ Hshape1 Hloop) as [Hc Hf].
  destruct (Hc cache' eq_refl) as [Hshape' Hentries].
  destruct (String.eqb_spec q name) as [-> | Hne].
  - destruct (Hf Hframe (scad_path args name)) as [Hr1 _].
    { intros (n & Heq & _)%in_map_iff. symmetry in Heq.
      now apply scad_path_not_stl_path in Heq. }
    destruct (Hf Hframe (stl_path args name) Hq2) as [Hr2 _].
    rewrite Hr1 in H1. rewrite Hr2 in H2.
    destruct (stl_step_readable env args cache (name, model) w cache1 w1 description artifact
                Hdigest Hs H1 H2) as [_ Hentry].
    split; [exact Hshape' |]. cbn [fst] in Hentry. now rewrite (Hentries _ Hq1).
  - destruct Hin as [Hin | Hin]; [congruence |].
    now apply (IH cache1 w1 (conj Hnd1 Hnd2) Hloop Hin H1 H2).
Qed.

(** X16. Let the compiler write only its output file, and let no two
    parts share a file. When the part loop ends, every part whose
    description and artifact can be read is up to date: the cache holds,
    under its description path, the digest of the two files as the loop
    leaves them, whether the part was compiled or skipped. *)
Theorem build_records_fingerprints_of_final_files
    (env : Env) (self : Project) (args : Args) (cache0 cache1 : pyval) (w0 w1 : World)
    (name description artifact : string) :
  compiler_frame env -> digest_nonempty env -> distinct_paths args (parts self) ->
  for_fold (stl_step env args) (parts self) cache0 w0 = (Ok cache1, w1) ->
  In name (dict_keys (parts self)) ->
  fs_read (fs w1) (scad_path args name) = Ok description ->
  fs_read (fs w1) (stl_path args name) = Ok artifact ->
  up_to_date env args cache1 (fs w1) name
  /\ cache_entry cache1 (scad_path args name)
     = Some (VStr (sha256_hexdigest env (message [description; artifact]))).
Proof.
  intros Hframe Hdigest Hdistinct Hloop Hin H1 H2.
  destruct (stl_loop_readable env args _ name cache0 w0 cache1 w1 description artifact
              Hframe Hdigest Hdistinct Hloop Hin H1 H2) as [Hshape Hentry].
  split; [| exact Hentry].
  split; [exact (fs_read_Ok_exists _ _ _ H2) |]. exists description, artifact. auto.
Qed.

(** *** What the loop leaves in the cache *)

Lemma stl_step_cache_cases (env : Env) (args : Args) (d entries : list (string * pyval))
    (part : string * option Geometry) (w : World) (cache' : pyval) (w' : World) :
  dict_get "scad_cache" d = Some (VDict entries) ->
  stl_step env args (VDict d) part w = (Ok cache', w') ->
  cache' = VDict d
  \/ exists value,
       cache' = VDict (dict_set "scad_cache"
                         (VDict (dict_set (scad_path args (fst part)) value entries)) d).
Proof.
  intros Hd. unfold stl_step. unfold bind at 1. unfold logger.
  set (w0 := logged INFO ("building " ++ fst part ++ ".stl") w).
  destruct (is_fresh_spec env args d entries (fst part) w0 Hd) as (v & Hfresh & _).
  unfold bind at 1. rewrite Hfresh.
  destruct (fs_exists (fs w0) (stl_path args (fst part)) && negb (force args)
            && py_eq_fingerprint
                 (default (VStr "") (dict_get (scad_path args (fst part)) entries))
                 (files_fingerprint env (fs w0)
                    [scad_path args (fst part); stl_path args (fst part)] (uuids_drawn w0))).
  - intros [= <- _]. now left.
  - pose proof (compile_and_record_cases env args d entries (fst part) v Hd) as Hc.
    cbn zeta in Hc.
    destruct (subprocess_call env (compile_command args (fst part)) (fs v)) as [[s' status] |].
    + destruct Hc as (v' & Hrun & _). rewrite Hrun. intros [= <- _]. right. eauto.
    + rewrite Hc. discriminate.
Qed.

Lemma stl_loop_cache (env : Env) (args : Args) (ps : list (string * option Geometry))
    (cache : pyval) (w : World) (cache' : pyval) (w' : World) :
  cache_shaped cache ->
  for_fold (stl_step env args) ps cache w = (Ok cache', w') ->
  top_level_keys cache' = top_level_keys cache
  /\ (forall k, k <> "scad_cache" -> top_level cache' k = top_level cache k)
  /\ (forall key, cache_entry cache key <> None -> cache_entry cache' key <> None).
Proof.
  revert cache w. induction ps as [|part ps IH]; intros cache w Hshape; cbn [for_fold].
  - intros [= <- _]. auto.
  - unfold bind. destruct (stl_step env args cache part w) as [[cache1 | e] w1] eqn:Hs;
      [| discriminate].
    destruct Hshape as (d & entries & -> & Hd).
    destruct (stl_step_cache_cases env args d entries part w cache1 w1 Hd Hs)
      as [-> | (value & ->)].
    + apply IH. now exists d, entries.
    + intros Hrest.
      destruct (cache_recorded d entries (scad_path args (fst part)) value Hd)
        as (Hshape1 & Hentry & Hothers).
      destruct (IH _ _ Hshape1 Hrest) as (Hkeys & Htop & Hkept).
      split; [| split].
      * rewrite Hkeys. cbn [top_level_keys]. rewrite dict_keys_set_mem.
        unfold dict_mem. now rewrite Hd.
      * intros k Hk. rewrite (Htop k Hk). cbn [top_level].
        apply dict_get_set_ne. congruence.
      * intros key Hkey. apply Hkept.
        destruct (String.eqb_spec key (scad_path args (fst part))) as [-> | Hne].
        -- now rewrite Hentry.
        -- now rewrite (Hothers key Hne).
Qed.

(** X17. The part loop only ever adds to the cache it was given. The
    top-level keys stay, in their order, and every top-level member other
    than [scad_cache] keeps its value; an entry of [scad_cache] is never
    removed, and an entry under a path that is not the description path
    of a current part keeps its value. So what a later version, or a
    part since removed from the project, left in the cache file is
    carried over to the mapping that is written back. *)
Theorem build_keeps_what_it_does_not_own
    (env : Env) (self : Project) (args : Args) (cache0 cache1 : pyval) (w0 w1 : World) :
  cache_shaped cache0 ->
  for_fold (stl_step env args) (parts self) cache0 w0 = (Ok cache1, w1) ->
  top_level_keys cache1 = top_level_keys cache0
  /\ (forall k, k <> "scad_cache" -> top_level cache1 k = top_level cache0 k)
  /\ (forall key, cache_entry cache0 key <> None -> cache_entry cache1 key <> None)
  /\ (forall key, ~ In key (map (scad_path args) (dict_keys (parts self))) ->
        cache_entry cache1 key = cache_entry cache0 key).
Proof.
  intros Hshape Hloop.
  destruct (stl_loop_cache env args _ cache0 w0 cache1 w1 Hshape Hloop) as (H1 & H2 & H3).
  destruct (stl_loop_invariants env args _ cache0 w0 _ w1 Hshape Hloop) as [Hc _].
  destruct (Hc cache1 eq_refl) as [_ H4]. auto.
Qed.

(** ** Writing the cache *)

Lemma snd_emit_then (a b : emitted) :
  snd (emit_then a b) = match snd a with None => snd b | Some e => Some e end.
Proof. now destruct a as [s [e |]]. Qed.

Lemma encode_items_snd (enc : pyval -> emitted) (first : bool) (l : list pyval) :
  Forall (fun x => snd (enc x) = if contains_uuid x then Some TypeError else None) l ->
  snd (encode_items enc first l)
  = if existsb contains_uuid l then Some TypeError else None.
Proof.
  intros Hl. revert first. induction Hl as [|x l Hx _ IH]; intros first; [reflexivity |].
  cbn [encode_items existsb]. rewrite !snd_emit_then. cbn [emit snd].
  rewrite Hx, IH. now destruct (contains_uuid x).
Qed.

Lemma encode_members_snd (enc : pyval -> emitted) (first : bool)
    (d : list (string * pyval)) :
  Forall (fun kv => snd (enc (snd kv))
                    = if contains_uuid (snd kv) then Some TypeError else None) d ->
  snd (encode_members enc first d)
  = if existsb (fun kv => contains_uuid (snd kv)) d then Some TypeError else None.
Proof.
  intros Hd. revert first. induction Hd as [|[k x] d Hx _ IH]; intros first; [reflexivity |].
  cbn [encode_members existsb]. rewrite !snd_emit_then. cbn [emit snd] in *.
  rewrite Hx, IH. now destruct (contains_uuid x).
Qed.

(** The encoder fails, with [TypeError], exactly on the values that hold
    a [UUID]. *)
Lemma iterencode_snd (float_repr : spec_float -> string) (v : pyval) :
  snd (iterencode float_repr v) = if contains_uuid v then Some TypeError else None.
Proof.
  induction v as [| b | z | f | s | l IH | d IH | u] using pyval_nested_ind;
    try reflexivity.
  - now destruct b.
  - destruct l as [|x l]; [reflexivity |].
    rewrite iterencode_list by discriminate. rewrite snd_emit_then. cbn [emit snd].
    now rewrite (encode_items_snd _ true _ IH).
  - destruct d as [|kv d]; [reflexivity |].
    rewrite iterencode_dict by discriminate. rewrite snd_emit_then. cbn [emit snd].
    now rewrite (encode_members_snd _ true _ IH).
Qed.


(** X19. A mapping written by [_write_cache] is what the next
    [_read_cache] returns, when the file can be opened, the mapping
    holds no [UUID] and the decoder reads back the document the encoder
    wrote for it; nothing is logged on the way. *)
Theorem written_cache_is_read_back
    (env : Env) (path : string) (cache : pyval) (w : World) :
  writable (fs w) path ->
  contains_uuid cache = false ->
  json_loads env (fst (iterencode (float_repr env) cache)) = Some cache ->
  exists w',
    _write_cache env path cache w = (Ok tt, w')
    /\ _read_cache env path w' = (Ok cache, w')
    /\ log w' = log w.
Proof.
  intros Hw Hfree Hloads. pose proof (iterencode_snd (float_repr env) cache) as Hsnd.
  rewrite Hfree in Hsnd.
  destruct (_write_cache_cases env path cache w)
    as [(_ & _ & Heq) | [(_ & Hsome & _) | (Hn & _)]]; [| congruence | tauto].
  rewrite Heq. eexists. split; [reflexivity |]. split; [| reflexivity].
  set (text := fst (iterencode (float_repr env) cache)) in *.
  assert (Hread : fs_read (fs (written path text w)) path = Ok text).
  { destruct Hw as [Hd Hr]. unfold fs_read. cbn.
    rewrite (bool_decide_eq_false_2 _ Hd), (bool_decide_eq_false_2 _ Hr).
    now rewrite lookup_insert_eq. }
  rewrite (_read_cache_present _ _ _ (fs_read_Ok_exists _ _ _ Hread)), Hread.
  now rewrite Hloads.
Qed.

(** ** The callback of the watch *)

(** X20. The rebuild callback re-invokes the running script with
    [--scad-directory] and the directory of this run, [--debug] exactly
    when this run has it, and [build-scad]; no other option of this
    run is passed on. It starts the script once, and a second time only
    when the first attempt could not be started; it makes no third
    attempt, logs nothing and touches no file itself. *)
Theorem rebuild_callback_tries_at_most_twice
    (env : Env) (args : Args) (w : World) (r : outcome unit) (w' : World) :
  real_scad_generator env args w = (r, w') ->
  let command :=
    ([main_file env; "--scad-directory"; scad_directory args]
       ++ (if debug args then ["--debug"] else []) ++ ["build-scad"])%list in
  log w' = log w
  /\ ((exists s' status,
         subprocess_call env command (fs w) = Some (s', status)
         /\ r = Ok tt /\ fs w' = s'
         /\ spawned w' = (spawned w ++ [command])%list)
      \/ (subprocess_call env command (fs w) = None
          /\ spawned w' = (spawned w ++ [command; command])%list)).
Proof.
  unfold real_scad_generator. cbn zeta.
  set (command := ([main_file env; "--scad-directory"; scad_directory args]
                     ++ (if debug args then ["--debug"] else []) ++ ["build-scad"])%list).
  unfold try_except, bind, call.
  destruct (subprocess_call env command (fs w)) as [[s' status] |] eqn:Hfirst.
  - intros [= <- <-]. split; [reflexivity |]. left. exists s', status. auto.
  - cbn [is_OSError called fs]. rewrite Hfirst.
    intros [= <- <-]. split; [reflexivity |]. right. split; [reflexivity |].
    cbn. now rewrite <- app_assoc.
Qed.

(** ** A build after a build *)

Lemma scad_step_Ok_inv (self : Project) (args : Args) (n : string) (m : option Geometry)
    (w w1 : World) :
  scad_step self args (n, m) w = (Ok tt, w1) ->
  exists text g,
    config_lines self = Ok text /\ m = Some g
    /\ writable (fs w) (scad_path args n)
    /\ w1 = written (scad_path args n) (text ++ to_string g)
              (logged INFO ("building " ++ n ++ ".scad") w).
Proof.
  intros Hs.
  destruct (writable_dec (fs w) (scad_path args n)) as [Hw | Hn].
  - destruct (config_lines self) as [text | e] eqn:Hc.
    + destruct m as [g |].
      * rewrite (scad_step_ok self args n text g w Hw Hc) in Hs. injection Hs as <-.
        eauto 10.
      * exfalso. unfold scad_step, bind, logger in Hs.
        rewrite (open_w_writable _ (logged _ _ w) Hw) in Hs. unfold lift in Hs.
        rewrite Hc in Hs. rewrite (fp_write_written (scad_path args n) "" text) in Hs.
        discriminate Hs.
    + exfalso. unfold scad_step, bind, logger in Hs.
      rewrite (open_w_writable _ (logged _ _ w) Hw) in Hs. unfold lift in Hs.
      rewrite Hc in Hs. discriminate Hs.
  - exfalso.
    destruct (open_w_refused (scad_path args n) (logged INFO ("building " ++ n ++ ".scad") w) Hn)
      as (e & He).
    unfold scad_step, bind, logger in Hs. rewrite He in Hs. discriminate Hs.
Qed.

Lemma fs_read_written_ne (p q text : string) (w : World) :
  q <> p -> fs_read (fs (written p text w)) q = fs_read (fs w) q.
Proof. intros Hne. unfold fs_read. cbn. now rewrite lookup_insert_ne by congruence. Qed.

(** An emission that ends normally leaves in each description file the
    configuration lines and the geometry of its part. *)
Lemma scad_loop_Ok_inv (self : Project) (args : Args) (ps : list (string * option Geometry))
    (w w' : World) :
  for_each (scad_step self args) ps w = (Ok tt, w') ->
  List.NoDup (map (scad_path args) (dict_keys ps)) ->
  forall n m, In (n, m) ps ->
    exists text g,
      config_lines self = Ok text /\ m = Some g
      /\ fs_read (fs w') (scad_path args n) = Ok (text ++ to_string g).
Proof.
  revert w. induction ps as [|[q model] ps IH]; intros w Hrun Hnd n m Hin; [destruct Hin |].
  cbn [for_each] in Hrun. unfold bind in Hrun.
  destruct (scad_step self args (q, model) w) as [[[] | e] w1] eqn:Hs; [| discriminate].
  unfold dict_keys in Hnd. cbn [map fst] in Hnd. apply NoDup_cons_iff in Hnd as [Hq Hnd].
  destruct Hin as [[= -> ->] | Hin]; [| exact (IH w1 Hrun Hnd n m Hin)].
  destruct (scad_step_Ok_inv _ _ _ _ _ _ Hs) as (text & g & Hc & -> & [Hd Hr] & ->).
  exists text, g. split; [exact Hc |]. split; [reflexivity |].
  destruct (scad_loop_frame _ _ _ _ _ _ Hrun) as (Hdirs & Hden & Hfiles & _).
  unfold fs_read. rewrite Hden, Hdirs, (Hfiles _ Hq). cbn.
  rewrite (bool_decide_eq_false_2 _ Hd), (bool_decide_eq_false_2 _ Hr).
  now rewrite lookup_insert_eq.
Qed.

Lemma build_scad_Ok_inv (self : Project) (args : Args) (w w' : World) :
  build_scad self args w = (Ok tt, w') ->
  List.NoDup (map (scad_path args) (dict_keys (parts self))) ->
  forall n m, In (n, m) (parts self) ->
    exists text g,
      config_lines self = Ok text /\ m = Some g
      /\ fs_read (fs w') (scad_path args n) = Ok (text ++ to_string g).
Proof.
  unfold build_scad, bind, path_exists.
  destruct (fs_exists (fs w) (scad_directory args)); cbn [negb].
  - cbn [ret]. apply scad_loop_Ok_inv.
  - destruct (makedirs (scad_directory args) w) as [[[] | e] wd];
      [apply scad_loop_Ok_inv | discriminate].
Qed.

Lemma new_directory_keeps_readable (s : FS) (d p c : string) :
  fs_exists s d = false -> fs_read s p = Ok c ->
  fs_read (mkFS (files s) ({[d]} ∪ dirs s) (denied s)) p = Ok c.
Proof.
  intros Hex Hread. pose proof (fs_read_Ok_exists _ _ _ Hread) as Hp.
  unfold fs_read in *. cbn.
  destruct (bool_decide (p ∈ denied s)); [discriminate |].
  destruct (bool_decide (p ∈ dirs s)) eqn:Hd; [discriminate |].
  rewrite bool_decide_eq_false_2; [exact Hread |].
  intros [->%elem_of_singleton | Hin]%elem_of_union; [congruence |].
  apply bool_decide_eq_false in Hd. contradiction.
Qed.

Lemma makedirs_keeps_readable (d : string) (w w' : World) (p c : string) :
  makedirs d w = (Ok tt, w') -> fs_read (fs w) p = Ok c -> fs_read (fs w') p = Ok c.
Proof.
  unfold makedirs.
  destruct (String.eqb d ""); [discriminate |].
  destruct (bool_decide (d ∈ denied (fs w))); [discriminate |].
  destruct (fs_exists (fs w) d) eqn:Hex; [discriminate |].
  intros [= <-] Hread. cbn. now apply new_directory_keeps_readable.
Qed.

Lemma build_scad_keeps_readable (self : Project) (args : Args) (w : World)
    (r : outcome unit) (w' : World) (p c : string) :
  build_scad self args w = (r, w') ->
  ~ In p (map (scad_path args) (dict_keys (parts self))) ->
  fs_read (fs w) p = Ok c -> fs_read (fs w') p = Ok c.
Proof.
  intros (Hfiles & Hden & Hdirs)%build_scad_frame Hp Hread.
  destruct Hdirs as [Hdirs | [Hnew Hdirs]].
  - unfold fs_read in *. now rewrite Hden, Hdirs, (Hfiles p Hp).
  - pose proof (new_directory_keeps_readable _ _ _ _ Hnew Hread) as Hkept.
    unfold fs_read in *. cbn in Hkept. now rewrite Hden, Hdirs, (Hfiles p Hp).
Qed.

Lemma stl_prelude_Ok_inv (env : Env) (self : Project) (args : Args) (w : World)
    (cache : pyval) (w0 : World) :
  stl_prelude env self args w = (Ok cache, w0) ->
  exists wa wb loaded,
    build_scad self args w = (Ok tt, wa)
    /\ _read_cache env (cache_file args) wa = (Ok loaded, wb)
    /\ (cache_shaped loaded -> cache = loaded)
    /\ (w0 = wb \/ makedirs (stl_directory args) wb = (Ok tt, w0)).
Proof.
  unfold stl_prelude. unfold bind at 1.
  destruct (build_scad self args w) as [[[] | e] wa] eqn:Hscad; [| discriminate].
  unfold bind at 1.
  destruct (_read_cache env (cache_file args) wa) as [[loaded | e] wb] eqn:Hread;
    [| discriminate].
  unfold bind at 1. unfold lift at 1.
  destruct (py_contains "scad_cache" loaded) as [known | e] eqn:Hk; [| discriminate].
  intros H. exists wa, wb, loaded. split; [reflexivity |]. split; [exact Hread |].
  assert (Hshape : cache_shaped loaded -> known = true).
  { intros (d & entries & -> & Hd). cbn in Hk. unfold dict_mem in Hk. rewrite Hd in Hk.
    congruence. }
  assert (Hrest : forall c : pyval,
             (present <- path_exists (stl_directory args) ;;
              (if negb present then makedirs (stl_directory args) else ret tt) ;;
              ret c)%py wb = (Ok cache, w0) ->
             cache = c /\ (w0 = wb \/ makedirs (stl_directory args) wb = (Ok tt, w0))).
  { intros c. unfold bind at 1. unfold path_exists.
    destruct (fs_exists (fs wb) (stl_directory args)); cbn [negb]; unfold bind.
    - unfold ret. intros [= <- <-]. auto.
    - destruct (makedirs (stl_directory args) wb) as [[[] | e] wc]; [| discriminate].
      unfold ret. intros [= <- <-]. auto. }
  destruct known; cbn [negb] in H; unfold bind at 1 in H.
  - unfold ret at 1 in H. destruct (Hrest _ H) as [-> Hw]. auto.
  - unfold lift at 1 in H.
    destruct (py_setitem loaded "scad_cache" (VDict [])) as [c |]; [| discriminate].
    destruct (Hrest _ H) as [-> Hw]. split; [| exact Hw].
    intros Hs. specialize (Hshape Hs). discriminate.
Qed.

Lemma stl_loop_Ok_shaped (env : Env) (args : Args) (ps : list (string * option Geometry))
    (cache : pyval) (w : World) (cache' : pyval) (w' : World) :
  for_fold (stl_step env args) ps cache w = (Ok cache', w') ->
  ps <> [] -> cache_shaped cache.
Proof.
  destruct ps as [|part ps]; [congruence |]. intros Hrun _.
  cbn [for_fold] in Hrun. unfold bind in Hrun.
  destruct (stl_step env args cache part w) as [[cache1 | e] w1] eqn:Hs; [| discriminate].
  exact (stl_step_ok_shaped _ _ _ _ _ _ _ Hs).
Qed.

(** When every part is up to date, the loop skips them all. *)
Lemma stl_loop_all_fresh (env : Env) (args : Args) (ps : list (string * option Geometry))
    (cache : pyval) (w : World) :
  force args = false ->
  (forall name, In name (dict_keys ps) -> up_to_date env args cache (fs w) name) ->
  exists v,
    for_fold (stl_step env args) ps cache w = (Ok cache, v)
    /\ fs v = fs w /\ spawned v = spawned w.
Proof.
  intros Hforce. revert w. induction ps as [|[q model] ps IH]; intros w Hup.
  - exists w. auto.
  - destruct (stl_step_skips env args cache q model w Hforce (Hup q (or_introl eq_refl)))
      as (v1 & Hs & Hfs & Hsp).
    destruct (IH v1) as (v & Hrun & Hfs' & Hsp').
    { intros name Hin. rewrite Hfs. apply Hup. now right. }
    exists v. cbn [for_fold]. unfold bind. rewrite Hs.
    split; [exact Hrun |]. split; congruence.
Qed.

(** The descriptions as the part loop of a build leaves them: what the
    emission at the start of that build wrote. *)
Lemma descriptions_after_loop (env : Env) (self : Project) (args : Args)
    (w w0 w1 : World) (cache0 cache1 : pyval) :
  compiler_frame env ->
  List.NoDup (map (scad_path args) (dict_keys (parts self))) ->
  stl_prelude env self args w = (Ok cache0, w0) ->
  for_fold (stl_step env args) (parts self) cache0 w0 = (Ok cache1, w1) ->
  forall n m, In (n, m) (parts self) ->
    exists text g,
      config_lines self = Ok text /\ m = Some g
      /\ fs_read (fs w0) (scad_path args n) = Ok (text ++ to_string g)
      /\ fs_read (fs w1) (scad_path args n) = Ok (text ++ to_string g).
Proof.
  intros Hframe Hnd Hprelude Hloop n m Hin.
  destruct (stl_prelude_Ok_inv env self args w cache0 w0 Hprelude)
    as (wa & wb & loaded & Hscad & Hread & _ & Hw0).
  destruct (build_scad_Ok_inv self args w wa Hscad Hnd n m Hin) as (text & g & Hc & -> & Ha).
  exists text, g. split; [exact Hc |]. split; [reflexivity |].
  rewrite <- (_read_cache_preserves_fs env _ _ _ _ Hread) in Ha.
  assert (H0 : fs_read (fs w0) (scad_path args n) = Ok (text ++ to_string g)).
  { destruct Hw0 as [-> | Hm]; [exact Ha | exact (makedirs_keeps_readable _ _ _ _ _ Hm Ha)]. }
  split; [exact H0 |].
  assert (Hshape : cache_shaped cache0).
  { apply (stl_loop_Ok_shaped env args _ cache0 w0 cache1 w1 Hloop).
    intros Hnil. rewrite Hnil in Hin. destruct Hin. }
  destruct (stl_loop_invariants env args _ cache0 w0 _ w1 Hshape Hloop) as [_ Hf].
  destruct (Hf Hframe (scad_path args n)) as [Hr _]; [| now rewrite Hr].
  intros (n' & Heq & _)%in_map_iff. symmetry in Heq. now apply scad_path_not_stl_path in Heq.
Qed.

(** X21. The purpose of the cache. Let a build without the force flag
    end its part loop with the artifact of every part readable, the
    compiler writing only its output, no two parts sharing a file and
    the cache file being none of their files. When the cache file can be
    written and the decoder reads back the document written there, the
    build returns normally, and a second build started in the world it
    leaves hands nothing to the compiler, however it ends. *)
Theorem second_build_compiles_nothing
    (env : Env) (self : Project) (args : Args) (w w0 w1 : World) (cache0 cache1 : pyval) :
  compiler_frame env -> digest_nonempty env -> distinct_paths args (parts self) ->
  force args = false ->
  ~ In (cache_file args) (map (scad_path args) (dict_keys (parts self))) ->
  ~ In (cache_file args) (map (stl_path args) (dict_keys (parts self))) ->
  stl_prelude env self args w = (Ok cache0, w0) ->
  for_fold (stl_step env args) (parts self) cache0 w0 = (Ok cache1, w1) ->
  (forall name, In name (dict_keys (parts self)) ->
     exists artifact, fs_read (fs w1) (stl_path args name) = Ok artifact) ->
  writable (fs w1) (cache_file args) ->
  contains_uuid cache1 = false ->
  json_loads env (fst (iterencode (float_repr env) cache1)) = Some cache1 ->
  exists w2,
    build_stl env self args w = (Ok tt, w2)
    /\ forall r w3, build_stl env self args w2 = (r, w3) -> spawned w3 = spawned w2.
Proof.
  intros Hframe Hdigest Hdistinct Hforce Hcs Hct Hprelude Hloop Hartifacts Hw Hfree Hloads.
  pose proof (proj1 Hdistinct) as Hnd.
  set (doc := fst (iterencode (float_repr env) cache1)) in *.
  (* the first build writes the cache *)
  assert (Hwrite : _write_cache env (cache_file args) cache1 w1
                   = (Ok tt, written (cache_file args) doc w1)).
  { pose proof (iterencode_snd (float_repr env) cache1) as Hsnd. rewrite Hfree in Hsnd.
    destruct (_write_cache_cases env (cache_file args) cache1 w1)
      as [(_ & _ & Heq) | [(_ & Hsome & _) | (Hn & _)]]; [exact Heq | congruence | tauto]. }
  set (w2 := written (cache_file args) doc w1) in *.
  exists w2. split; [now rewrite (build_stl_after_prelude _ _ _ _ _ _ Hprelude), Hloop |].
  (* what the second build finds *)
  assert (Hdoc : fs_read (fs w2) (cache_file args) = Ok doc).
  { destruct Hw as [Hd Hr]. unfold fs_read. cbn.
    rewrite (bool_decide_eq_false_2 _ Hd), (bool_decide_eq_false_2 _ Hr).
    now rewrite lookup_insert_eq. }
  intros r w3. unfold build_stl. unfold bind at 1.
  destruct (stl_prelude env self args w2) as [[cache2 | e] w20] eqn:Hp2;
    pose proof (stl_prelude_preserves_spawned env self args _ _ _ Hp2) as Hsp2;
    [| now intros [= _ <-]].
  destruct (stl_prelude_Ok_inv env self args w2 cache2 w20 Hp2)
    as (wa & wb & loaded & Hscad & Hread & Hcache & Hw20).
  (* the cache it loads is the one that was written *)
  assert (Hloaded : loaded = cache1 /\ wb = wa).
  { pose proof (build_scad_keeps_readable self args w2 _ wa _ _ Hscad Hcs Hdoc) as Hdoc'.
    rewrite (_read_cache_present _ _ _ (fs_read_Ok_exists _ _ _ Hdoc')), Hdoc', Hloads in Hread.
    now injection Hread as <- <-. }
  destruct Hloaded as [-> ->].
  assert (Hkept : forall p c, fs_read (fs wa) p = Ok c -> fs_read (fs w20) p = Ok c).
  { intros p c Hp. destruct Hw20 as [-> | Hm];
      [exact Hp | exact (makedirs_keeps_readable _ _ _ _ _ Hm Hp)]. }
  (* every part is up to date *)
  assert (Hup : forall name, In name (dict_keys (parts self)) ->
                             cache2 = cache1 /\ up_to_date env args cache1 (fs w20) name).
  { intros name Hin. pose proof Hin as Hin'. unfold dict_keys in Hin'.
    apply in_map_iff in Hin' as ([n m] & Hn & Hpart). cbn in Hn. subst n.
    destruct (descriptions_after_loop env self args w w0 w1 cache0 cache1
                Hframe Hnd Hprelude Hloop name m Hpart) as (text & g & Hc & -> & _ & Hd1).
    destruct (Hartifacts name Hin) as (artifact & Ha1).
    destruct (stl_loop_readable env args _ name cache0 w0 cache1 w1 _ _
                Hframe Hdigest Hdistinct Hloop Hin Hd1 Ha1) as [Hshape Hentry].
    split; [exact (Hcache Hshape) |].
    destruct (build_scad_Ok_inv self args w2 wa Hscad Hnd name (Some g) Hpart)
      as (text' & g' & Hc' & Hg & Hd2).
    rewrite Hc in Hc'. injection Hc' as <-. injection Hg as <-.
    assert (Ha2 : fs_read (fs w20) (stl_path args name) = Ok artifact).
    { apply Hkept. apply (build_scad_keeps_readable self args w2 _ wa _ _ Hscad).
      - intros (n' & Heq & _)%in_map_iff. now apply scad_path_not_stl_path in Heq.
      - unfold w2. rewrite fs_read_written_ne; [exact Ha1 |].
        intros Heq. apply Hct. rewrite <- Heq. apply in_map_iff. now exists name. }
    split; [exact (fs_read_Ok_exists _ _ _ Ha2) |].
    exists (text ++ to_string g), artifact. auto. }
  (* so the loop skips them all *)
  destruct (stl_loop_all_fresh env args (parts self) cache2 w20 Hforce) as (v & Hrun & _ & Hspv).
  { intros name Hin. destruct (Hup name Hin) as [-> H]. exact H. }
  unfold bind. rewrite Hrun. intros Hw3.
  rewrite (_write_cache_preserves_spawned env _ _ _ _ _ Hw3). congruence.
Qed.

(** ** A build without a usable cache *)

Lemma _read_cache_unusable (env : Env) (path : string) (w : World) :
  cache_unusable env (fs w) path ->
  exists w', _read_cache env path w = (Ok (VDict []), w') /\ fs w' = fs w
             /\ spawned w' = spawned w.
Proof.
  intros Hbad. destruct (fs_exists (fs w) path) eqn:Hex.
  - rewrite (_read_cache_present env path w Hex).
    destruct Hbad as [Habsent | [(e & Hr) | (text & Hr & Hl)]]; [congruence | |];
      rewrite Hr; [| rewrite Hl]; eexists; (split; [reflexivity |]); auto.
  - rewrite (_read_cache_absent env path w Hex). eauto.
Qed.

Lemma stl_loop_cold (env : Env) (args : Args) (ps : list (string * option Geometry))
    (cache : pyval) (w : World) :
  digest_nonempty env -> compiler_installed env ->
  List.NoDup (map (scad_path args) (dict_keys ps)) ->
  cache_shaped cache ->
  (forall name, In name (dict_keys ps) -> cache_entry cache (scad_path args name) = None) ->
  exists cache' w',
    for_fold (stl_step env args) ps cache w = (Ok cache', w')
    /\ spawned w' = (spawned w ++ map (compile_command args) (dict_keys ps))%list.
Proof.
  intros Hdigest Hinst. revert cache w.
  induction ps as [|part ps IH]; intros cache w Hnd Hshape Hcold.
  - exists cache, w. cbn. now rewrite app_nil_r.
  - unfold dict_keys in Hnd, Hcold. cbn [map] in Hnd, Hcold.
    apply NoDup_cons_iff in Hnd as [Hfresh Hnd].
    cbn [for_fold]. unfold bind.
    destruct (stl_step env args cache part w) as [r1 w1] eqn:Hs.
    destruct (stl_step_summary env args cache part w r1 w1 Hshape Hs)
      as [(_ & _ & _ & _ & _ & Heq)
         | [(status & n & cache1 & _ & Hsp & -> & Hshape1 & _ & Hothers) | (Hnone & _)]].
    + exfalso. rewrite (Hcold (fst part) (or_introl eq_refl)) in Heq.
      destruct (files_fingerprint env (fs w)
                  [scad_path args (fst part); stl_path args (fst part)] (uuids_drawn w))
        as [hex | u] eqn:Hfp; [| discriminate Heq].
      cbn in Heq. destruct hex as [|c hex]; [| discriminate Heq].
      unfold files_fingerprint in Hfp.
      destruct (read_all (fs w) [scad_path args (fst part); stl_path args (fst part)]);
        [| discriminate Hfp].
      injection Hfp as Hfp. now apply Hdigest in Hfp.
    + destruct (IH cache1 w1 Hnd Hshape1) as (cache' & w' & Hrun & Hsp').
      { intros name Hin. rewrite Hothers; [apply Hcold; now right |].
        intros Heq. apply Hfresh. rewrite <- Heq. apply in_map_iff. now exists name. }
      exists cache', w'. split; [exact Hrun |].
      rewrite Hsp', Hsp. unfold dict_keys. cbn [map]. now rewrite <- app_assoc.
    + exfalso. unfold compile_command in Hnone. now apply (Hinst _ _ _ Hnone).
Qed.

(** X22. Losing the cache costs a full build and nothing else. When the
    descriptions are emitted and the cache file is then missing,
    unreadable or rejected by the decoder, the artifact directory being
    there or makeable and the compiler starting, [build_stl] returns
    normally after compiling every part, once each and in the order of
    registration, whatever artifacts are already there. *)
Theorem unusable_cache_costs_a_full_build
    (env : Env) (self : Project) (args : Args) (w wa : World) :
  digest_nonempty env -> compiler_installed env ->
  List.NoDup (map (scad_path args) (dict_keys (parts self))) ->
  build_scad self args w = (Ok tt, wa) ->
  cache_unusable env (fs wa) (cache_file args) ->
  (fs_exists (fs wa) (stl_directory args) = true
   \/ (stl_directory args <> "" /\ stl_directory args ∉ denied (fs wa))) ->
  exists w',
    build_stl env self args w = (Ok tt, w')
    /\ spawned w' = (spawned w ++ map (compile_command args) (dict_keys (parts self)))%list.
Proof.
  intros Hdigest Hinst Hnd Hscad Hbad Hdir.
  destruct (_read_cache_unusable env (cache_file args) wa Hbad) as (wb & Hread & Hfs & Hspb).
  pose proof (build_scad_preserves_spawned self args _ _ _ Hscad) as Hspa.
  assert (Hprelude : exists w0,
             stl_prelude env self args w = (Ok (VDict [("scad_cache", VDict [])]), w0)
             /\ spawned w0 = spawned w).
  { unfold stl_prelude. unfold bind at 1. rewrite Hscad. unfold bind at 1. rewrite Hread.
    unfold bind at 1. unfold lift at 1. cbn [py_contains dict_mem dict_get negb].
    unfold bind at 1. unfold lift at 1. cbn [py_setitem dict_set].
    unfold bind at 1. unfold path_exists. rewrite Hfs.
    destruct (fs_exists (fs wa) (stl_directory args)) eqn:Hex; cbn [negb]; unfold bind.
    - unfold ret. eexists. split; [reflexivity | congruence].
    - destruct Hdir as [Hdir | [Hne Hden]]; [congruence |].
      unfold makedirs. rewrite Hfs, Hex. apply String.eqb_neq in Hne. rewrite Hne.
      rewrite (bool_decide_eq_false_2 _ Hden). unfold ret.
      eexists. split; [reflexivity |]. cbn. congruence. }
  destruct Hprelude as (w0 & Hprelude & Hsp0).
  rewrite (build_stl_after_prelude _ _ _ _ _ _ Hprelude).
  destruct (stl_loop_cold env args (parts self) (VDict [("scad_cache", VDict [])]) w0
              Hdigest Hinst Hnd) as (cache' & w1 & Hrun & Hsp1).
  { eexists. eexists. split; reflexivity. }
  { intros name _. reflexivity. }
  rewrite Hrun.
  destruct (_write_cache env (cache_file args) cache' w1) as [r w'] eqn:Hw.
  pose proof (_write_cache_preserves_spawned env _ _ _ _ _ Hw) as Hsp2.
  exists w'. split; [| now rewrite Hsp2, Hsp1, Hsp0].
  destruct (_write_cache_cases env (cache_file args) cache' w1)
    as [(_ & _ & Heq) | [(_ & _ & Heq) | (_ & Heq)]];
    rewrite Heq in Hw; now inversion Hw.
Qed.

(** ** The example script *)

Lemma relative_path_not_directory (d b : string) :
  starts_with "/" b = false -> b <> "" -> path_join d b <> d.
Proof.
  intros Hrel Hne Heq. rewrite (path_join_relative d b Hrel) in Heq.
  apply (f_equal String.length) in Heq. rewrite str_length_app in Heq.
  assert (String.length b <> 0)%nat by (destruct b; [congruence | discriminate]).
  destruct (String.eqb d "" || ends_with_char "/" d); [lia |].
  rewrite str_length_app in Heq. cbn in Heq. lia.
Qed.

(** X23. [examples/bolt_and_nut.py], run with the sub-command
    [build-scad]. Whatever geometry its two functions build, the script
    registers the parts [bolt] and [nut], and leaves for each a
    description file that begins with the default resolution,
    [$fa=3.0000;], [$fs=0.5000;] and [$fn=0.0000;], followed by the
    geometry; it starts no process, and the guard of [run] is set. *)
Theorem example_script_emits_bolt_and_nut
    (env : Env) (args : Args) (bolt_body nut_body : M (option Geometry))
    (bolt_model nut_model : Geometry) (w w1 w2 : World) :
  bolt_body w = (Ok (Some bolt_model), w1) ->
  nut_body w1 = (Ok (Some nut_model), w2) ->
  parse_args env = Some (args, BuildScad) ->
  single_run_guard w2 = false ->
  (fs_exists (fs w2) (scad_directory args) = true
   \/ (scad_directory args <> "" /\ scad_directory args ∉ denied (fs w2))) ->
  writable (fs w2) (scad_path args "bolt") ->
  writable (fs w2) (scad_path args "nut") ->
  let script :=
    (p <- decorate [mkCallable (Some "bolt") bolt_body; mkCallable (Some "nut") nut_body]
            (Project_init "bolt and nut" (PyFloat (S754_finite false 3 0))
               (PyFloat (S754_finite false 1 (-1))) (PyInt 0)) ;;
     run env p)%py in
  let header := "$fa=3.0000;" ++ newline ++ "$fs=0.5000;" ++ newline
                  ++ "$fn=0.0000;" ++ newline in
  exists w',
    script w = (Ok tt, w')
    /\ files (fs w') !! scad_path args "bolt" = Some (header ++ to_string bolt_model)
    /\ files (fs w') !! scad_path args "nut" = Some (header ++ to_string nut_model)
    /\ spawned w' = spawned w2
    /\ single_run_guard w' = true.
Proof.
  intros Hb Hn Hparse Hguard Hdir Hwb Hwn script header.
  set (p0 := Project_init "bolt and nut" (PyFloat (S754_finite false 3 0))
               (PyFloat (S754_finite false 1 (-1))) (PyInt 0)) in *.
  set (p2 := set_parts p0 [("bolt", Some bolt_model); ("nut", Some nut_model)]).
  assert (Hdec : decorate [mkCallable (Some "bolt") bolt_body; mkCallable (Some "nut") nut_body]
                   p0 w = (Ok p2, w2)).
  { unfold decorate. cbn [for_fold]. unfold bind at 1. unfold bind at 1.
    rewrite (add_part_registers p0 (mkCallable (Some "bolt") bolt_body) None "bolt"
               (Some bolt_model) w w1 eq_refl Hb).
    unfold ret at 1. cbn [fst]. unfold bind at 1. unfold bind at 1.
    rewrite (add_part_registers _ (mkCallable (Some "nut") nut_body) None "nut"
               (Some nut_model) w1 w2 eq_refl Hn).
    reflexivity. }
  assert (Hc : config_lines p2 = Ok header) by (vm_compute; reflexivity).
  assert (Hpaths : distinct_paths args (parts p2)).
  { apply relative_names_distinct_paths.
    - repeat constructor; cbn; intuition discriminate.
    - repeat constructor. }
  destruct (build_scad_after_directory p2 args (guarded w2) Hdir)
    as (wd & Hbuild & Hfiles & Hden & Hdirs).
  destruct (scad_loop_ok p2 args header (parts p2) wd Hc)
    as (w' & Hrun & _ & _ & _ & Hmine).
  { assert (Hw : forall n, n = "bolt" \/ n = "nut" -> writable (fs wd) (scad_path args n)).
    { intros n Hn'. assert (Hwn' : writable (fs w2) (scad_path args n))
        by (destruct Hn' as [-> | ->]; assumption).
      destruct Hwn' as [Hd Hr]. split; [now rewrite Hden |].
      intros [Hp | Hp]%Hdirs; [contradiction |].
      revert Hp. apply relative_path_not_directory; [| destruct n; discriminate].
      destruct Hn' as [-> | ->]; reflexivity. }
    intros n m [[= <- <-] | [[= <- <-] | []]]; (split; [discriminate |]); apply Hw; auto. }
  exists w'. split.
  { unfold script. unfold bind at 1. rewrite Hdec. unfold run. rewrite Hguard.
    unfold bind, set_single_run_guard, dispatch. rewrite Hparse, Hbuild. exact Hrun. }
  split; [apply (Hmine (proj1 Hpaths)); now left |].
  split; [apply (Hmine (proj1 Hpaths)); right; now left |].
  assert (Hall : build_scad p2 args (guarded w2) = (Ok tt, w'))
    by (rewrite Hbuild; exact Hrun).
  split.
  - exact (build_scad_preserves_spawned p2 args _ _ _ Hall).
  - exact (build_scad_preserves_guard p2 args _ _ _ Hall).
Qed.

(** * The further properties at concrete inputs *)

Lemma demo_digest_nonempty (cli : option (Args * Command)) : digest_nonempty (Demo.env cli).
Proof. intros message. cbn. unfold Demo.digest. apply dec_digits. Qed.

(** Bolt, decorated on a new project. *)
Lemma registered_part_is_retrievable_witness :
  exists self',
    add_part Project_default (Method Demo.bolt) None Demo.fresh_world
    = (Ok (self', Some Demo.bolt), Demo.fresh_world)
    /\ get_part self' "bolt" = Ok (Some (mkGeometry "union(){thread();cylinder();}")).
Proof.
  destruct (registered_part_is_retrievable Project_default Demo.bolt None "bolt"
              (Some (mkGeometry "union(){thread();cylinder();}"))
              Demo.fresh_world Demo.fresh_world) as (self' & Hadd & Hget & _).
  - reflexivity.
  - reflexivity.
  - exists self'. split; [exact Hadd | exact Hget].
Defined.

(** [bolt] and then [BOLT]. *)
Lemma colliding_identifiers_share_one_entry_witness :
  exists self1 self2,
    add_part Project_default (Method Demo.bolt) None Demo.fresh_world
    = (Ok (self1, Some Demo.bolt), Demo.fresh_world)
    /\ add_part self1 (Method Demo.shouting) None Demo.fresh_world
       = (Ok (self2, Some Demo.shouting), Demo.fresh_world)
    /\ get_part self2 "bolt" = Ok None
    /\ dict_keys (parts self2) = ["bolt"].
Proof.
  destruct (colliding_identifiers_share_one_entry Project_default Demo.bolt Demo.shouting
              "bolt" "BOLT" (Some (mkGeometry "union(){thread();cylinder();}")) None
              Demo.fresh_world Demo.fresh_world Demo.fresh_world)
    as (self1 & self2 & H1 & H2 & _ & Hget & Hkeys).
  - reflexivity.
  - reflexivity.
  - reflexivity.
  - reflexivity.
  - reflexivity.
  - exists self1, self2. split; [exact H1 |]. split; [exact H2 |]. split; [exact Hget |].
    rewrite Hkeys.
    assert (Hfirst : add_part Project_default (Method Demo.bolt) None Demo.fresh_world
                     = (Ok (set_parts Project_default
                              [("bolt", Some (mkGeometry "union(){thread();cylinder();}"))],
                            Some Demo.bolt), Demo.fresh_world)) by reflexivity.
    rewrite Hfirst in H1. now injection H1 as <-.
Defined.



(** Bolt, a part without a model, and nut. *)
Lemma part_without_model_stops_the_emission_witness :
  exists w',
    build_scad Demo.with_blank (Demo.args false) Demo.fresh_world = (Raise AttributeError, w')
    /\ files (fs w') !! "scad/nut.scad" = None.
Proof.
  destruct (part_without_model_stops_the_emission Demo.with_blank (Demo.args false)
              Demo.fresh_world
              [("bolt", Some (mkGeometry "union(){thread();cylinder();}"))]
              [("nut", Some (mkGeometry "difference(){cylinder();hole();}"))]
              "blank"
              (match config_lines Demo.with_blank with Ok text => text | Raise _ => "" end))
    as (w' & Hrun & _ & Hother).
  - reflexivity.
  - vm_compute. reflexivity.
  - right. split; [discriminate | apply not_elem_of_empty].
  - intros n m [[= <- <-] | []]. discriminate.
  - intros n [<- | [<- | []]]; (split; [split; apply not_elem_of_empty |]);
      vm_compute; discriminate.
  - exists w'. split; [exact Hrun |].
    rewrite (Hother "scad/nut.scad"); [reflexivity |].
    vm_compute. intros [H | [H | []]]; discriminate H.
Defined.

(** Parts [a] and [/out/a] under the output directory [/out]. *)
Lemma last_part_owns_a_shared_description_file_witness :
  scad_path Demo.absolute_args "a" = scad_path Demo.absolute_args "/out/a"
  /\ exists w',
       build_scad Demo.colliding Demo.absolute_args Demo.fresh_world = (Ok tt, w')
       /\ files (fs w') !! "/out/a.scad"
          = Some (match config_lines Demo.colliding with Ok text => text | Raise _ => "" end
                  ++ "sphere();").
Proof.
  split; [reflexivity |].
  apply (last_part_owns_a_shared_description_file Demo.colliding Demo.absolute_args
           Demo.fresh_world [("a", Some (mkGeometry "cube();"))] [] "/out/a"
           (match config_lines Demo.colliding with Ok text => text | Raise _ => "" end)
           (mkGeometry "sphere();")).
  - reflexivity.
  - vm_compute. reflexivity.
  - split.
    + right. split; [discriminate | apply not_elem_of_empty].
    + intros n m Hin. vm_compute in Hin.
      destruct Hin as [[= <- <-] | [[= <- <-] | []]];
        (split; [discriminate |]); (split; [split; apply not_elem_of_empty |]);
        vm_compute; discriminate.
  - intros [].
Defined.

(** The six bytes at the head of the artifact, or at the tail of the
    description. *)
Lemma separator_can_move_between_files_witness :
  exists hex,
    fst (_get_files_hash (Demo.env None) ["a.scad"; "a.stl"]
           (Demo.world_with [("a.scad", "cube();"); ("a.stl", separator ++ "solid")]))
    = Ok (Digest hex)
    /\ fst (_get_files_hash (Demo.env None) ["a.scad"; "a.stl"]
              (Demo.world_with [("a.scad", "cube();" ++ separator); ("a.stl", "solid")]))
       = Ok (Digest hex).
Proof.
  destruct (separator_can_move_between_files (Demo.env None)
              (Demo.world_with [("a.scad", "cube();"); ("a.stl", separator ++ "solid")])
              (Demo.world_with [("a.scad", "cube();" ++ separator); ("a.stl", "solid")])
              "a.scad" "a.stl" "cube();" "solid") as (hex & H1 & H2).
  - vm_compute. reflexivity.
  - vm_compute. reflexivity.
  - vm_compute. reflexivity.
  - vm_compute. reflexivity.
  - exists hex. split; [exact (f_equal fst H1) | exact (f_equal fst H2)].
Defined.

(** Two descriptions of seven bytes. *)
Lemma hashed_bytes_determine_files_of_known_length_witness :
  fst (for_fold hash_file ["a.scad"; "a.stl"] ""
         (Demo.world_with [("a.scad", "cube();"); ("a.stl", "solid")]))
  <> fst (for_fold hash_file ["a.scad"; "a.stl"] ""
            (Demo.world_with [("a.scad", "ball();"); ("a.stl", "solid")])).
Proof.
  intros Heq.
  destruct (hashed_bytes_determine_files_of_known_length
              (Demo.world_with [("a.scad", "cube();"); ("a.stl", "solid")])
              (Demo.world_with [("a.scad", "ball();"); ("a.stl", "solid")])
              "a.scad" "a.stl" "cube();" "solid" "ball();" "solid") as [Ha _].
  - vm_compute. reflexivity.
  - vm_compute. reflexivity.
  - vm_compute. reflexivity.
  - vm_compute. reflexivity.
  - reflexivity.
  - exact Heq.
  - discriminate Ha.
Defined.

(** A first build of bolt and nut. *)
Lemma build_compiles_each_part_at_most_once_witness :
  exists new,
    spawned Demo.built_world = new
    /\ sublist new [compile_command (Demo.args false) "bolt";
                    compile_command (Demo.args false) "nut"].
Proof.
  destruct (build_compiles_each_part_at_most_once (Demo.env None) Demo.bolt_and_nut
              (Demo.args false) Demo.fresh_world
              (fst (build_stl (Demo.env None) Demo.bolt_and_nut (Demo.args false)
                      Demo.fresh_world))
              Demo.built_world) as (new & Hnew & Hsub).
  - apply surjective_pairing.
  - exists new. split; [exact Hnew | exact Hsub].
Defined.

(** Bolt has no artifact yet. *)
Lemma stale_part_is_compiled_witness :
  exists w' new,
    build_stl (Demo.env None) Demo.bolt_and_nut (Demo.args false) Demo.fresh_world
    = (Ok tt, w')
    /\ spawned w' = new
    /\ In (compile_command (Demo.args false) "bolt") new.
Proof.
  pose (prelude := stl_prelude (Demo.env None) Demo.bolt_and_nut (Demo.args false)
                     Demo.fresh_world).
  destruct (stale_part_is_compiled (Demo.env None) Demo.bolt_and_nut (Demo.args false)
              Demo.fresh_world (snd prelude) (Demo.value_of (fst prelude)) "bolt")
    as (w' & new & Hrun & Hnew & Hin).
  - apply demo_compiler_frame.
  - apply demo_compiler_installed.
  - apply (demo_distinct_paths false [Demo.bolt; Demo.nut]). now left.
  - vm_compute. reflexivity.
  - eexists. eexists. split; vm_compute; reflexivity.
  - now left.
  - right. left. vm_compute. reflexivity.
  - exists w', new. split; [exact Hrun |]. split; [exact Hnew | exact Hin].
Defined.

(** Bolt and nut on a machine without the compiler. *)
Lemma missing_compiler_aborts_the_build_witness :
  fst (build_stl Demo.no_compiler Demo.bolt_and_nut (Demo.args false) Demo.fresh_world)
  = Raise OSError.
Proof.
  pose (prelude := stl_prelude Demo.no_compiler Demo.bolt_and_nut (Demo.args false)
                     Demo.fresh_world).
  pose (build := build_stl Demo.no_compiler Demo.bolt_and_nut (Demo.args false)
                   Demo.fresh_world).
  destruct (missing_compiler_aborts_the_build Demo.no_compiler Demo.bolt_and_nut
              (Demo.args false) Demo.fresh_world (snd prelude) (Demo.value_of (fst prelude))
              (fst build) (snd build)) as [_ Hstale].
  - intros input output s. reflexivity.
  - vm_compute. reflexivity.
  - eexists. eexists. split; vm_compute; reflexivity.
  - apply surjective_pairing.
  - apply (Hstale "bolt").
    + now left.
    + right. left. vm_compute. reflexivity.
Defined.

(** A cache file that holds an empty JSON array. *)
Lemma malformed_cache_aborts_the_build_witness :
  exists e w',
    build_stl (Demo.env None) Demo.bolt_and_nut (Demo.args false)
      (Demo.world_with [(".yaost.cache", "[]")]) = (Raise e, w').
Proof.
  pose (w := Demo.world_with [(".yaost.cache", "[]")]).
  pose (wa := snd (build_scad Demo.bolt_and_nut (Demo.args false) w)).
  destruct (malformed_cache_aborts_the_build (Demo.env None) Demo.bolt_and_nut
              (Demo.args false) w wa wa (VList [])) as (e & w' & Hrun & _).
  - vm_compute. reflexivity.
  - vm_compute. reflexivity.
  - exact I.
  - discriminate.
  - exists e, w'. exact Hrun.
Defined.

(** The washer, rejected by the compiler, with an artifact from before. *)
Lemma exit_status_is_ignored_witness :
  exists cache' w',
    stl_step (Demo.env None) (Demo.args false) Demo.empty_cache
      ("washer", Some (mkGeometry "undefined();")) Demo.washer_world = (Ok cache', w')
    /\ spawned w' = (spawned Demo.washer_world ++ [compile_command (Demo.args false) "washer"])%list
    /\ up_to_date (Demo.env None) (Demo.args false) cache' (fs w') "washer".
Proof.
  destruct (exit_status_is_ignored (Demo.env None) (Demo.args false) Demo.empty_cache
              "washer" (Some (mkGeometry "undefined();")) Demo.washer_world 1
              (default "" (files (fs Demo.washer_world) !! "scad/washer.scad"))
              "solid washer of last week")
    as (cache' & w' & Hrun & Hsp & _ & Hup & _).
  - eexists. eexists. split; reflexivity.
  - apply demo_digest_nonempty.
  - right. right. eexists. eexists.
    split; [vm_compute; reflexivity |]. split; [vm_compute; reflexivity |].
    vm_compute. reflexivity.
  - vm_compute. reflexivity.
  - vm_compute. reflexivity.
  - vm_compute. reflexivity.
  - exists cache', w'. split; [exact Hrun |]. split; [exact Hsp | exact Hup].
Defined.

(** Bolt when the loop of a first build has ended. *)
Lemma build_records_fingerprints_of_final_files_witness :
  cache_entry (Demo.value_of (fst Demo.loop_end)) "scad/bolt.scad"
  = Some (VStr "1093150342").
Proof.
  destruct (build_records_fingerprints_of_final_files (Demo.env None) Demo.bolt_and_nut
              (Demo.args false) Demo.empty_cache (Demo.value_of (fst Demo.loop_end))
              Demo.emitted_world (snd Demo.loop_end) "bolt"
              (default "" (files (fs (snd Demo.loop_end)) !! "scad/bolt.scad"))
              (default "" (files (fs (snd Demo.loop_end)) !! "stl/bolt.stl")))
    as [_ Hentry].
  - apply demo_compiler_frame.
  - apply demo_digest_nonempty.
  - apply (demo_distinct_paths false [Demo.bolt; Demo.nut]). now left.
  - vm_compute. reflexivity.
  - now left.
  - vm_compute. reflexivity.
  - vm_compute. reflexivity.
  - etransitivity; [exact Hentry |]. vm_compute. reflexivity.
Defined.

(** A cache with a member and an entry that the project does not know. *)
Lemma build_keeps_what_it_does_not_own_witness :
  let loop := for_fold (stl_step (Demo.env None) (Demo.args false))
                (parts Demo.bolt_and_nut) Demo.foreign_cache Demo.emitted_world in
  top_level (Demo.value_of (fst loop)) "version" = Some (VInt 2)
  /\ cache_entry (Demo.value_of (fst loop)) "scad/gone.scad" = Some (VStr "abc").
Proof.
  intros loop.
  destruct (build_keeps_what_it_does_not_own (Demo.env None) Demo.bolt_and_nut
              (Demo.args false) Demo.foreign_cache (Demo.value_of (fst loop))
              Demo.emitted_world (snd loop)) as (_ & Htop & _ & Hentry).
  - eexists. eexists. split; reflexivity.
  - vm_compute. reflexivity.
  - split.
    + apply (Htop "version"). discriminate.
    + apply (Hentry "scad/gone.scad"). vm_compute. intros [H | [H | []]]; discriminate H.
Defined.


(** A cache with one entry. *)
Lemma written_cache_is_read_back_witness :
  let cache := VDict [("scad_cache", VDict [("scad/bolt.scad", VStr "1093150342")])] in
  exists w',
    _write_cache (Demo.env None) ".yaost.cache" cache Demo.fresh_world = (Ok tt, w')
    /\ _read_cache (Demo.env None) ".yaost.cache" w' = (Ok cache, w').
Proof.
  intros cache.
  destruct (written_cache_is_read_back (Demo.env None) ".yaost.cache" cache Demo.fresh_world)
    as (w' & Hwrite & Hread & _).
  - split; apply not_elem_of_empty.
  - reflexivity.
  - vm_compute. reflexivity.
  - exists w'. split; [exact Hwrite | exact Hread].
Defined.

(** The callback of a watch on bolt and nut. *)
Lemma rebuild_callback_tries_at_most_twice_witness :
  spawned (snd (real_scad_generator (Demo.env None) (Demo.args false) Demo.fresh_world))
  = [["bolt_and_nut.py"; "--scad-directory"; "scad"; "build-scad"]].
Proof.
  pose (callback := real_scad_generator (Demo.env None) (Demo.args false) Demo.fresh_world).
  destruct (rebuild_callback_tries_at_most_twice (Demo.env None) (Demo.args false)
              Demo.fresh_world (fst callback) (snd callback))
    as (_ & [(s' & status & _ & _ & _ & Hsp) | (Hnone & _)]).
  - apply surjective_pairing.
  - exact Hsp.
  - discriminate Hnone.
Defined.

(** Bolt and nut, built twice. *)
Lemma second_build_compiles_nothing_witness :
  exists w2,
    build_stl (Demo.env None) Demo.bolt_and_nut (Demo.args false) Demo.fresh_world
    = (Ok tt, w2)
    /\ spawned (snd (build_stl (Demo.env None) Demo.bolt_and_nut (Demo.args false) w2))
       = spawned w2.
Proof.
  destruct (second_build_compiles_nothing (Demo.env None) Demo.bolt_and_nut (Demo.args false)
              Demo.fresh_world Demo.emitted_world (snd Demo.loop_end)
              Demo.empty_cache (Demo.value_of (fst Demo.loop_end)))
    as (w2 & Hfirst & Hsecond).
  - apply demo_compiler_frame.
  - apply demo_digest_nonempty.
  - apply (demo_distinct_paths false [Demo.bolt; Demo.nut]). now left.
  - reflexivity.
  - vm_compute. intros [H | [H | []]]; discriminate H.
  - vm_compute. intros [H | [H | []]]; discriminate H.
  - vm_compute. reflexivity.
  - vm_compute. reflexivity.
  - intros name Hin. vm_compute in Hin.
    destruct Hin as [<- | [<- | []]]; eexists; vm_compute; reflexivity.
  - split; intros Hin; apply (bool_decide_eq_true_2 _) in Hin; vm_compute in Hin;
      discriminate Hin.
  - vm_compute. reflexivity.
  - vm_compute. reflexivity.
  - exists w2. split; [exact Hfirst |]. apply (Hsecond _ _ (surjective_pairing _)).
Defined.

(** A first build of bolt and nut: no cache file yet. *)
Lemma unusable_cache_costs_a_full_build_witness :
  exists w',
    build_stl (Demo.env None) Demo.bolt_and_nut (Demo.args false) Demo.fresh_world
    = (Ok tt, w')
    /\ spawned w' = [compile_command (Demo.args false) "bolt";
                     compile_command (Demo.args false) "nut"].
Proof.
  apply (unusable_cache_costs_a_full_build (Demo.env None) Demo.bolt_and_nut
           (Demo.args false) Demo.fresh_world
           (snd (build_scad Demo.bolt_and_nut (Demo.args false) Demo.fresh_world))).
  - apply demo_digest_nonempty.
  - apply demo_compiler_installed.
  - apply (demo_distinct_paths false [Demo.bolt; Demo.nut]). now left.
  - vm_compute. reflexivity.
  - left. vm_compute. reflexivity.
  - right. split; [discriminate |]. intros Hin.
    apply (bool_decide_eq_true_2 _) in Hin. vm_compute in Hin. discriminate Hin.
Defined.

(** The script as it stands, started with [build-scad] where nothing
    exists yet. *)
Lemma example_script_emits_bolt_and_nut_witness :
  exists w',
    (p <- decorate [Demo.bolt; Demo.nut]
            (Project_init "bolt and nut" (PyFloat (S754_finite false 3 0))
               (PyFloat (S754_finite false 1 (-1))) (PyInt 0)) ;;
     run (Demo.env (Some (Demo.args false, BuildScad))) p)%py Demo.fresh_world
    = (Ok tt, w')
    /\ three_lines (default "" (files (fs w') !! "scad/nut.scad"))
       = ("$fa=3.0000;", "$fs=0.5000;", "$fn=0.0000;", "difference(){cylinder();hole();}").
Proof.
  destruct (example_script_emits_bolt_and_nut (Demo.env (Some (Demo.args false, BuildScad)))
              (Demo.args false) (fn_call Demo.bolt) (fn_call Demo.nut)
              (mkGeometry "union(){thread();cylinder();}")
              (mkGeometry "difference(){cylinder();hole();}")
              Demo.fresh_world Demo.fresh_world Demo.fresh_world)
    as (w' & Hrun & _ & Hnut & _).
  - reflexivity.
  - reflexivity.
  - reflexivity.
  - reflexivity.
  - right. split; [discriminate | apply not_elem_of_empty].
  - split; apply not_elem_of_empty.
  - split; apply not_elem_of_empty.
  - exists w'. split; [exact Hrun |].
    change (scad_path (Demo.args false) "nut") with "scad/nut.scad" in Hnut.
    rewrite Hnut. vm_compute. reflexivity.
Defined.
